(** * Verification of the example agent ([example-agent/app/agent.py])

    The module configures one conversational agent with four mock lookup
    tools.  This development embeds the tools and the profile switch as Rocq
    functions and proves the properties stated about them.

    Conventions of the embedding:
    - a Python [str] is the list of its Unicode code points ([list N]);
    - the wall clock and the pseudo-random generator are oracles threaded
      through a small state monad;
    - the parts of the Python runtime the module relies on but does not
      contain (the Unicode lower-casing table, the time-zone database) are
      section variables. *)

From Stdlib Require Import ZArith NArith List String Ascii Bool Lia.
From stdpp Require Import base list gmap.

Open Scope Z_scope.

(** ** Python strings *)

Definition str := list N.

(** A literal of the source, character by character. *)
Definition lit (s : string) : str := map N_of_ascii (list_ascii_of_string s).

Definition is_ascii (c : N) : bool := (c <? 128)%N.
Definition is_ascii_upper (c : N) : bool := ((65 <=? c) && (c <=? 90))%N.
Definition ascii_lower (c : N) : N := if is_ascii_upper c then (c + 32)%N else c.

(** [p in s] on strings: [p] occurs as a contiguous block of [s]. *)
Fixpoint prefix_of (p s : str) : bool :=
  match p, s with
  | [], _ => true
  | _ :: _, [] => false
  | a :: p', b :: s' => (a =? b)%N && prefix_of p' s'
  end.

Fixpoint py_in (p s : str) : bool :=
  prefix_of p s ||
  match s with
  | [] => false
  | _ :: s' => py_in p s'
  end.

(** The two answers of the weather tool. *)
Definition foggy : str := lit "It's 60 degrees and foggy.".
Definition sunny : str := lit "It's 90 degrees and sunny.".

(** ** Numbers as text *)

Definition digit (d : N) : N := (48 + d)%N.

(** Lower-case hexadecimal digit, as in the format [{0:04x}]. *)
Definition hex_digit (d : N) : N := if (d <? 10)%N then (48 + d)%N else (87 + d)%N.

Definition hex4 (n : N) : str :=
  [hex_digit (n / 4096 mod 16); hex_digit (n / 256 mod 16);
   hex_digit (n / 16 mod 16); hex_digit (n mod 16)]%N.

Fixpoint dec_digits (fuel : nat) (n : N) (acc : str) : str :=
  match fuel with
  | O => acc
  | S f =>
      let acc' := digit (n mod 10) :: acc in
      if (n <? 10)%N then acc' else dec_digits f (n / 10) acc'
  end.

(** [str(n)] for a natural number: a binary length bounds the decimal one. *)
Definition str_of_N (n : N) : str := dec_digits (S (N.to_nat (N.log2 n))) n [].

(** [str(z)] for an [int]. *)
Definition str_of_Z (z : Z) : str :=
  if z <? 0 then lit "-" ++ str_of_N (Z.to_N (- z)) else str_of_N (Z.to_N z).

(** The conversion [%0wd]: sign first, then zeros up to the width. *)
Definition zpad (w : nat) (z : Z) : str :=
  if z <? 0
  then let s := str_of_N (Z.to_N (- z)) in
       lit "-" ++ repeat (digit 0) (w - 1 - length s) ++ s
  else let s := str_of_N (Z.to_N z) in
       repeat (digit 0) (w - length s) ++ s.

(** The float constants of the module all have one fractional digit; such a
    float is kept exactly, as its number of tenths, and [repr] prints it the
    way [float.__repr__] prints these values ([45.2], [120.0]).  The digits
    are those of [float.__repr__] for a float of at most fifteen significant
    digits, that is below [10 ^ 15] tenths in magnitude ([plain_numbers]
    further down); beyond that [float.__repr__] can print more digits, and an
    exponent from [1e16] on. *)
Definition float_repr (tenths : Z) : str :=
  (if tenths <? 0 then lit "-" else []) ++
  str_of_N (Z.to_N (Z.abs tenths / 10)) ++ lit "." ++ [digit (Z.to_N (Z.abs tenths mod 10))].

(** ** Dates and times *)

Definition us_per_second : Z := 1000000.
Definition us_per_hour : Z := 3600 * us_per_second.
Definition us_per_day : Z := 24 * us_per_hour.

(** Proleptic Gregorian date of a day number counted from 1970-01-01. *)
Definition civil_from_days (days : Z) : Z * Z * Z :=
  let z := days + 719468 in
  let era := z / 146097 in
  let doe := z - era * 146097 in
  let yoe := (doe - doe / 1460 + doe / 36524 - doe / 146096) / 365 in
  let doy := doe - (365 * yoe + yoe / 4 - yoe / 100) in
  let mp := (5 * doy + 2) / 153 in
  let d := doy - (153 * mp + 2) / 5 + 1 in
  let m := if mp <? 10 then mp + 3 else mp - 9 in
  let y := yoe + era * 400 + (if m <=? 2 then 1 else 0) in
  (y, m, d).

(** The inverse direction, used to state that printed dates identify days. *)
Definition days_from_civil (y m d : Z) : Z :=
  let y' := if m <=? 2 then y - 1 else y in
  let era := y' / 400 in
  let yoe := y' - era * 400 in
  let mp := if m <=? 2 then m + 9 else m - 3 in
  let doy := (153 * mp + 2) / 5 + d - 1 in
  let doe := yoe * 365 + yoe / 4 - yoe / 100 + doy in
  era * 146097 + doe - 719468.

(** A time zone as the program sees it: [fromutc] turns a UTC instant
    (microseconds since the epoch) into the local wall clock and its fold
    flag; [utcoffset] (seconds east of UTC) and [tzname] are read off the
    wall clock and the fold. *)
Record tzinfo := {
  tz_fromutc : Z -> Z * bool;
  tz_utcoffset : Z -> bool -> Z;
  tz_tzname : Z -> bool -> str
}.

(** An aware [datetime]: wall clock in microseconds since 1970-01-01T00:00,
    fold flag and zone.  The calendar fields are views of the wall clock. *)
Record datetime := {
  dt_wall : Z;
  dt_fold : bool;
  dt_tz : tzinfo
}.

Definition dt_date (dt : datetime) : Z * Z * Z := civil_from_days (dt_wall dt / us_per_day).
Definition dt_year (dt : datetime) : Z := fst (fst (dt_date dt)).
Definition dt_month (dt : datetime) : Z := snd (fst (dt_date dt)).
Definition dt_day (dt : datetime) : Z := snd (dt_date dt).
Definition dt_hour (dt : datetime) : Z := dt_wall dt mod us_per_day / us_per_hour.
Definition dt_minute (dt : datetime) : Z := dt_wall dt mod us_per_hour / (60 * us_per_second).
Definition dt_second (dt : datetime) : Z := dt_wall dt mod (60 * us_per_second) / us_per_second.
Definition dt_microsecond (dt : datetime) : Z := dt_wall dt mod us_per_second.
Definition dt_utcoffset (dt : datetime) : Z := tz_utcoffset (dt_tz dt) (dt_wall dt) (dt_fold dt).
Definition dt_tzname (dt : datetime) : str := tz_tzname (dt_tz dt) (dt_wall dt) (dt_fold dt).

(** The instant an aware datetime denotes (microseconds since the epoch). *)
Definition dt_instant (dt : datetime) : Z := dt_wall dt - dt_utcoffset dt * us_per_second.

(** [datetime.now(tz)] applied to a clock reading. *)
Definition datetime_of_reading (tz : tzinfo) (t : Z) : datetime :=
  {| dt_wall := fst (tz_fromutc tz t); dt_fold := snd (tz_fromutc tz t); dt_tz := tz |}.

(** [datetime.timedelta(hours=i)], in microseconds. *)
Definition timedelta_hours (i : Z) : Z := i * us_per_hour.

(** [dt - delta]: arithmetic on the wall clock, zone kept, fold cleared. *)
Definition dt_sub (dt : datetime) (delta : Z) : datetime :=
  {| dt_wall := dt_wall dt - delta; dt_fold := false; dt_tz := dt_tz dt |}.

(** The offset text of [%z] ([sep] empty) and of [isoformat] ([sep] a colon):
    sign, hours, minutes, and seconds only when they are not zero. *)
Definition format_offset (sep : str) (off : Z) : str :=
  let a := Z.abs off in
  (if off <? 0 then lit "-" else lit "+") ++
  zpad 2 (a / 3600) ++ sep ++ zpad 2 (a mod 3600 / 60) ++
  (if a mod 60 =? 0 then [] else sep ++ zpad 2 (a mod 60)).

(** [dt.strftime('%Y-%m-%d %H:%M:%S %Z%z')]. *)
Definition strftime_full (dt : datetime) : str :=
  str_of_Z (dt_year dt) ++ lit "-" ++ zpad 2 (dt_month dt) ++ lit "-" ++ zpad 2 (dt_day dt) ++
  lit " " ++ zpad 2 (dt_hour dt) ++ lit ":" ++ zpad 2 (dt_minute dt) ++ lit ":" ++
  zpad 2 (dt_second dt) ++ lit " " ++ dt_tzname dt ++ format_offset [] (dt_utcoffset dt).

(** [dt.isoformat()]: the fraction is printed only when it is not zero. *)
Definition isoformat (dt : datetime) : str :=
  zpad 4 (dt_year dt) ++ lit "-" ++ zpad 2 (dt_month dt) ++ lit "-" ++ zpad 2 (dt_day dt) ++
  lit "T" ++ zpad 2 (dt_hour dt) ++ lit ":" ++ zpad 2 (dt_minute dt) ++ lit ":" ++
  zpad 2 (dt_second dt) ++
  (if dt_microsecond dt =? 0 then [] else lit "." ++ zpad 6 (dt_microsecond dt)) ++
  format_offset (lit ":") (dt_utcoffset dt).

(** ** JSON values and [json.dumps] *)

(** The values the module serialises.  A [dict] keeps its insertion order,
    which is the order [json.dumps] prints. *)
#[warnings="-register-all"] Inductive json :=
| JInt (z : Z)
| JFloat (tenths : Z)
| JStr (s : str)
| JList (items : list json)
| JDict (items : list (str * json)).

(** [d[k] = v]: an existing key keeps its place, a new key goes last. *)
Fixpoint dict_set (d : list (str * json)) (k : str) (v : json) : list (str * json) :=
  match d with
  | [] => [(k, v)]
  | (k', v') :: d' => if decide (k = k') then (k', v) :: d' else (k', v') :: dict_set d' k v
  end.

(** A dict display [{k1: v1, ..., **d, ...}] inserts its items left to right. *)
Definition dict_of (items : list (str * json)) : list (str * json) :=
  fold_left (fun d kv => dict_set d (fst kv) (snd kv)) items [].

Fixpoint dict_get (d : list (str * json)) (k : str) : option json :=
  match d with
  | [] => None
  | (k', v) :: d' => if decide (k = k') then Some v else dict_get d' k
  end.

Definition dict_keys (d : list (str * json)) : list str := map fst d.

(** Field access on a value that is expected to be an object. *)
Definition field (v : json) (k : str) : option json :=
  match v with
  | JDict d => dict_get d k
  | _ => None
  end.

Definition dquote : str := [34%N].
Definition backslash : str := [92%N].
Definition nl : str := [10%N].

(** One character of a string literal under [ensure_ascii=True]: the short
    escapes, printable ASCII as it is, everything else as [\uXXXX], with a
    surrogate pair above the basic plane. *)
Definition escape_char (c : N) : str :=
  if (c =? 34)%N then backslash ++ dquote
  else if (c =? 92)%N then backslash ++ backslash
  else if (c =? 8)%N then backslash ++ lit "b"
  else if (c =? 12)%N then backslash ++ lit "f"
  else if (c =? 10)%N then backslash ++ lit "n"
  else if (c =? 13)%N then backslash ++ lit "r"
  else if (c =? 9)%N then backslash ++ lit "t"
  else if ((32 <=? c) && (c <=? 126))%N then [c]
  else if (c <? 65536)%N then backslash ++ lit "u" ++ hex4 c
  else
    let n := (c - 65536)%N in
    let s1 := N.lor 55296 (N.land (N.shiftr n 10) 1023) in
    let s2 := N.lor 56320 (N.land n 1023) in
    backslash ++ lit "u" ++ hex4 s1 ++ backslash ++ lit "u" ++ hex4 s2.

Definition encode_string (s : str) : str :=
  dquote ++ flat_map escape_char s ++ dquote.

Definition newline_indent (indent level : nat) : str :=
  nl ++ repeat 32%N (indent * level).

(** The encoder with an indent: empty containers on one line, otherwise one
    item per line, separated by a comma, keys followed by a colon and a
    space. *)
Fixpoint dumps_at (indent level : nat) (v : json) : str :=
  match v with
  | JInt z => str_of_Z z
  | JFloat t => float_repr t
  | JStr s => encode_string s
  | JList items =>
      match items with
      | [] => lit "[]"
      | x :: xs =>
          lit "[" ++ newline_indent indent (S level) ++ dumps_at indent (S level) x ++
          (fix rest (l : list json) : str :=
             match l with
             | [] => []
             | y :: l' =>
                 lit "," ++ newline_indent indent (S level) ++
                 dumps_at indent (S level) y ++ rest l'
             end) xs ++
          newline_indent indent level ++ lit "]"
      end
  | JDict items =>
      match items with
      | [] => lit "{}"
      | (k, x) :: kvs =>
          lit "{" ++ newline_indent indent (S level) ++
          encode_string k ++ lit ": " ++ dumps_at indent (S level) x ++
          (fix rest (l : list (str * json)) : str :=
             match l with
             | [] => []
             | (k', y) :: l' =>
                 lit "," ++ newline_indent indent (S level) ++
                 encode_string k' ++ lit ": " ++ dumps_at indent (S level) y ++ rest l'
             end) kvs ++
          newline_indent indent level ++ lit "}"
      end
  end.

(** [json.dumps(v, indent=n)]. *)
Definition json_dumps (indent : nat) (v : json) : str := dumps_at indent 0 v.

(** ** The world outside: clock, random generator, environment *)

(** The wall clock and the generator are oracles: the [k]-th reading of the
    clock (microseconds since the epoch) and the [k]-th raw draw.  The
    process environment and the project of the default credentials complete
    the state the module can observe. *)
Record World := {
  clock : nat -> Z;
  clock_reads : nat;
  random_src : nat -> N;
  random_draws : nat;
  environ : list (str * str);
  default_project : str
}.

Definition M (A : Type) : Type := World -> A * World.

Definition ret {A} (a : A) : M A := fun w => (a, w).

Definition bind {A B} (m : M A) (k : A -> M B) : M B :=
  fun w => let (a, w') := m w in k a w'.

Notation "x <- c1 ;; c2" := (bind c1 (fun x => c2))
  (at level 100, c1 at next level, right associativity).

(** A comprehension [[f(i) for i in l]] whose body has effects. *)
Fixpoint for_each {A B} (f : A -> M B) (l : list A) : M (list B) :=
  match l with
  | [] => ret []
  | a :: l' => b <- f a ;; bs <- for_each f l' ;; ret (b :: bs)
  end.

(** One reading of the wall clock. *)
Definition read_clock : M Z := fun w =>
  (clock w (clock_reads w),
   {| clock := clock w; clock_reads := S (clock_reads w);
      random_src := random_src w; random_draws := random_draws w;
      environ := environ w; default_project := default_project w |}).

(** [random._randbelow(n)]: a draw below [n]. *)
Definition randbelow (n : N) : M N := fun w =>
  ((random_src w (random_draws w) mod n)%N,
   {| clock := clock w; clock_reads := clock_reads w;
      random_src := random_src w; random_draws := S (random_draws w);
      environ := environ w; default_project := default_project w |}).

(** [random.choice(seq)] is [seq[randbelow(len(seq))]]; the sequences of the
    module are not empty, [default] only makes the lookup total. *)
Definition random_choice {A} (default : A) (l : list A) : M A :=
  k <- randbelow (N.of_nat (length l)) ;; ret (nth (N.to_nat k) l default).

(** [random.randint(a, b)] is [a + randbelow(b - a + 1)]. *)
Definition randint (a b : Z) : M Z :=
  k <- randbelow (Z.to_N (b - a + 1)) ;; ret (a + Z.of_N k).

(** [datetime.datetime.now(tz)]. *)
Definition datetime_now (tz : tzinfo) : M datetime :=
  t <- read_clock ;; ret (datetime_of_reading tz t).

(** [google.auth.default()[1]] in a run whose default credentials are found
    and name a project, [default_project].  The other outcomes of the lookup,
    no credentials and credentials without a project, are in [load_module]
    further down. *)
Definition google_auth_default : M str := fun w => (default_project w, w).

(** [os.environ.setdefault(k, v)]: a name already set keeps its value. *)
Definition env_lookup (env : list (str * str)) (k : str) : option str :=
  snd <$> find (fun kv => bool_decide (fst kv = k)) env.

Definition environ_setdefault (k v : str) : M str := fun w =>
  match env_lookup (environ w) k with
  | Some old => (old, w)
  | None =>
      (v, {| clock := clock w; clock_reads := clock_reads w;
             random_src := random_src w; random_draws := random_draws w;
             environ := environ w ++ [(k, v)]; default_project := default_project w |})
  end.

(** ** The runtime the module is linked against *)

(** [str.lower()] maps every code point to one to three code points.  On
    ASCII it is the usual shift of [A-Z]; above ASCII it follows the Unicode
    tables of the interpreter, which may look at the neighbours of the
    character (final sigma).  The table receives the characters before the
    current one (nearest first), the character and the characters after it.
    [ZoneInfo] is the lookup in the time-zone database. *)
Class PyRuntime := {
  unicode_lower : list N -> N -> list N -> list N;
  ZoneInfo : str -> tzinfo
}.

Section Tools.
Context `{PyRuntime}.

Definition lower_block (before : list N) (c : N) (after : list N) : list N :=
  if is_ascii c then [ascii_lower c] else unicode_lower before c after.

Fixpoint lower_from (before : list N) (s : str) : str :=
  match s with
  | [] => []
  | c :: rest => lower_block before c rest ++ lower_from (c :: before) rest
  end.

Definition lower (s : str) : str := lower_from [] s.

(** [get_weather], lines 36-47. *)
Definition get_weather (query : str) : str :=
  if py_in (lit "sf") (lower query) || py_in (lit "san francisco") (lower query)
  then foggy
  else sunny.

(** [get_current_time], lines 50-66. *)
Definition get_current_time (query : str) : M str :=
  if py_in (lit "sf") (lower query) || py_in (lit "san francisco") (lower query)
  then
    let tz_identifier := lit "America/Los_Angeles" in
    let tz := ZoneInfo tz_identifier in
    now <- datetime_now tz ;;
    ret (lit "The current time for query " ++ query ++ lit " is " ++ strftime_full now)
  else
    ret (lit "Sorry, I don't have timezone information for query: " ++ query ++ lit ".").

(** The candidate answers of [get_equipment_state], lines 81-90. *)
Definition states (equipment_id : str) : list json :=
  [ JDict (dict_of
      [(lit "equipment_id", JStr equipment_id); (lit "status", JStr (lit "running"));
       (lit "state", JStr (lit "normal_operation"));
       (lit "temperature_celsius", JFloat 452); (lit "pressure_psi", JFloat 1200);
       (lit "alerts", JList [])]);
    JDict (dict_of
      [(lit "equipment_id", JStr equipment_id); (lit "status", JStr (lit "maintenance"));
       (lit "state", JStr (lit "maintenance_mode"));
       (lit "temperature_celsius", JFloat 250);
       (lit "alerts", JList [JStr (lit "scheduled_maintenance")])]);
    JDict (dict_of
      [(lit "equipment_id", JStr equipment_id); (lit "status", JStr (lit "warning"));
       (lit "state", JStr (lit "high_temperature"));
       (lit "temperature_celsius", JFloat 785);
       (lit "alerts", JList [JStr (lit "temperature_warning"); JStr (lit "pressure_elevated")])]);
    JDict (dict_of
      [(lit "equipment_id", JStr equipment_id); (lit "status", JStr (lit "error"));
       (lit "state", JStr (lit "fault"));
       (lit "temperature_celsius", JFloat 950);
       (lit "alerts", JList [JStr (lit "critical_fault")]);
       (lit "error_code", JStr (lit "E503"))]) ].

(** The object [get_equipment_state] serialises: [random.choice(states)]. *)
Definition equipment_state_object (equipment_id : str) : M json :=
  random_choice (JDict []) (states equipment_id).

(** [get_equipment_state], lines 72-91. *)
Definition get_equipment_state (equipment_id : str) : M str :=
  chosen <- equipment_state_object equipment_id ;;
  ret (json_dumps 2 chosen).

(** The candidate errors of [get_error_logs], lines 104-108. *)
Definition errors : list (list (str * json)) :=
  [ dict_of [(lit "code", JStr (lit "E404")); (lit "severity", JStr (lit "warning"));
             (lit "message", JStr (lit "Sensor timeout"))];
    dict_of [(lit "code", JStr (lit "E500")); (lit "severity", JStr (lit "error"));
             (lit "message", JStr (lit "System error"))];
    dict_of [(lit "code", JStr (lit "E503")); (lit "severity", JStr (lit "critical"));
             (lit "message", JStr (lit "Motor overheating"))] ].

(** One element of the comprehension of lines 109-111, for index [i]: the
    clock is read, then the error is drawn. *)
Definition log_entry (equipment_id : str) (i : nat) : M json :=
  now <- datetime_now (ZoneInfo (lit "UTC")) ;;
  error <- random_choice [] errors ;;
  ret (JDict (dict_of
    ([(lit "timestamp", JStr (isoformat (dt_sub now (timedelta_hours (Z.of_nat i)))));
      (lit "equipment_id", JStr equipment_id)] ++ error))).

(** The entry of index [i] as a function of the clock reading and of the raw
    draw it is built from. *)
Definition make_entry (equipment_id : str) (i : nat) (reading : Z) (draw : N) : json :=
  JDict (dict_of
    ([(lit "timestamp",
       JStr (isoformat (dt_sub (datetime_of_reading (ZoneInfo (lit "UTC")) reading)
                               (timedelta_hours (Z.of_nat i)))));
      (lit "equipment_id", JStr equipment_id)] ++
     nth (N.to_nat (draw mod 3)) errors [])).

(** The object [get_error_logs] serialises.  The number of entries is drawn
    first, when the [range] is built; [hours] is not used. *)
Definition error_logs_object (equipment_id : str) (hours : Z) : M json :=
  n <- randint 0 3 ;;
  logs <- for_each (log_entry equipment_id) (seq 0 (Z.to_nat n)) ;;
  ret (JDict (dict_of
    [(lit "equipment_id", JStr equipment_id);
     (lit "total_errors", JInt (Z.of_nat (length logs)));
     (lit "logs", JList logs)])).

(** [get_error_logs], lines 94-113. *)
Definition get_error_logs (equipment_id : str) (hours : Z) : M str :=
  result <- error_logs_object equipment_id hours ;;
  ret (json_dumps 2 result).

End Tools.

(** ** The profile switch *)

(** The four functions the module can hand to the agent. *)
Inductive tool :=
| Tool_get_weather
| Tool_get_current_time
| Tool_get_equipment_state
| Tool_get_error_logs.

(** [f.__name__]. *)
Definition tool_name (t : tool) : str :=
  match t with
  | Tool_get_weather => lit "get_weather"
  | Tool_get_current_time => lit "get_current_time"
  | Tool_get_equipment_state => lit "get_equipment_state"
  | Tool_get_error_logs => lit "get_error_logs"
  end.

Definition diagnostic_instruction : str :=
  lit "You are a diagnostic assistant helping troubleshoot equipment." ++ nl ++
  [] ++ nl ++
  lit "When users ask about equipment:" ++ nl ++
  lit "1. Call the appropriate diagnostic tool (get_equipment_state, get_error_logs)" ++ nl ++
  lit "2. After receiving tool results, ask a specific follow-up question based on the data" ++ nl ++
  lit "3. Reference actual values from the tool response in your question" ++ nl ++
  [] ++ nl ++
  lit "Examples:" ++ nl ++
  lit "- " ++ dquote ++ lit "I see pump-1 is in {state}. What would you like to check next?" ++ dquote ++ nl ++
  lit "- " ++ dquote ++ lit "The temperature is at {temp}" ++ [194%N] ++ [176%N] ++ lit "C. Is this normal for this equipment?" ++ dquote ++ nl ++
  lit "- " ++ dquote ++ lit "I found {count} errors. Which one should we investigate?" ++ dquote ++ nl ++
  [] ++ nl ++
  lit "Always ask clear questions after calling tools to help guide troubleshooting.".

Definition basic_instruction : str :=
  lit "You are a helpful AI assistant designed to provide accurate and useful information.".

(** Lines 117-137 as a function of the flag: the instruction and the tools. *)
Definition select_profile (flag : bool) : str * list tool :=
  if flag
  then (diagnostic_instruction,
        [Tool_get_weather; Tool_get_current_time; Tool_get_equipment_state; Tool_get_error_logs])
  else (basic_instruction, [Tool_get_weather; Tool_get_current_time]).

Definition agent_instruction (flag : bool) : str := fst (select_profile flag).
Definition agent_tools (flag : bool) : list tool := snd (select_profile flag).

(** Line 28. *)
Definition ENABLE_SUGGESTIONS_TESTING : bool := false.

(** The arguments of the [Agent] constructor, lines 139-144. *)
Record Agent := {
  agent_name : str;
  agent_model : str;
  instruction : str;
  tools : list tool
}.

(** The module body from line 30 on, for a given value of the flag: the
    environment defaults are set, the profile is chosen, the agent is built. *)
Definition module_body (flag : bool) : M Agent :=
  project_id <- google_auth_default ;;
  _ <- environ_setdefault (lit "GOOGLE_CLOUD_PROJECT") project_id ;;
  _ <- environ_setdefault (lit "GOOGLE_CLOUD_LOCATION") (lit "global") ;;
  _ <- environ_setdefault (lit "GOOGLE_GENAI_USE_VERTEXAI") (lit "True") ;;
  ret {| agent_name := lit "root_agent";
         agent_model := lit "gemini-2.5-flash";
         instruction := agent_instruction flag;
         tools := agent_tools flag |}.

Definition root_agent : M Agent := module_body ENABLE_SUGGESTIONS_TESTING.





(** ** The tool registry of the specification *)

Module ToolRegistry.

Inductive arg_type := TStr | TInt.

Inductive arg_value :=
| VStr (s : str)
| VInt (z : Z).

(** One line of an argument contract: name, type, and whether the argument
    must be given. *)
Record arg_decl := {
  arg_name : str;
  arg_ty : arg_type;
  arg_required : bool
}.

Record entry := {
  entry_spec : list arg_decl;
  entry_handler : gmap str arg_value -> M str
}.

Inductive error :=
| DuplicateToolError (name : str)
| UnknownToolError (name : str)
| InvalidArgumentError (name : str).

Definition has_type (v : arg_value) (t : arg_type) : bool :=
  match v, t with
  | VStr _, TStr => true
  | VInt _, TInt => true
  | _, _ => false
  end.

(** The arguments satisfy a contract: every declared argument has its type,
    or is left out when it is optional, and nothing undeclared is passed. *)
Definition valid_args (spec : list arg_decl) (args : gmap str arg_value) : bool :=
  forallb (fun d => match args !! arg_name d with
                    | Some v => has_type v (arg_ty d)
                    | None => negb (arg_required d)
                    end) spec &&
  forallb (fun kv => existsb (fun d => bool_decide (arg_name d = fst kv)) spec)
          (map_to_list args).

(** Modelled from the spec: the registry operation [register] of section
    4.1, which the Python module does not contain (it passes its tools to
    the external agent runtime as a list).  A name already present is
    refused with [DuplicateToolError]; otherwise the tool is added. *)
Definition register (name : str) (argument_spec : list arg_decl)
    (handler : gmap str arg_value -> M str) (reg : gmap str entry) :
    error + gmap str entry :=
  match reg !! name with
  | Some _ => inl (DuplicateToolError name)
  | None => inr (<[name := {| entry_spec := argument_spec; entry_handler := handler |}]> reg)
  end.

(** Modelled from the spec: the registry operation [invoke] of section 4.1,
    which the Python module does not contain.  The name is looked up
    ([UnknownToolError] when absent), the arguments are checked against the
    declared contract ([InvalidArgumentError] when they violate it), and the
    handler is called. *)
Definition invoke (name : str) (args : gmap str arg_value) (reg : gmap str entry) :
    M (error + str) :=
  match reg !! name with
  | None => ret (inl (UnknownToolError name))
  | Some e =>
      if valid_args (entry_spec e) args
      then result <- entry_handler e args ;; ret (inr result)
      else ret (inl (InvalidArgumentError name))
  end.

(** The four tools of the module under their contracts. *)
Definition str_arg (args : gmap str arg_value) (k : str) : str :=
  match args !! k with
  | Some (VStr s) => s
  | _ => []
  end.

Definition int_arg (args : gmap str arg_value) (k : str) (default : Z) : Z :=
  match args !! k with
  | Some (VInt z) => z
  | _ => default
  end.

Definition tool_entry `{PyRuntime} (t : tool) : entry :=
  match t with
  | Tool_get_weather =>
      {| entry_spec := [{| arg_name := lit "query"; arg_ty := TStr; arg_required := true |}];
         entry_handler := fun args => ret (get_weather (str_arg args (lit "query"))) |}
  | Tool_get_current_time =>
      {| entry_spec := [{| arg_name := lit "query"; arg_ty := TStr; arg_required := true |}];
         entry_handler := fun args => get_current_time (str_arg args (lit "query")) |}
  | Tool_get_equipment_state =>
      {| entry_spec :=
           [{| arg_name := lit "equipment_id"; arg_ty := TStr; arg_required := true |}];
         entry_handler := fun args => get_equipment_state (str_arg args (lit "equipment_id")) |}
  | Tool_get_error_logs =>
      {| entry_spec :=
           [{| arg_name := lit "equipment_id"; arg_ty := TStr; arg_required := true |};
            {| arg_name := lit "hours"; arg_ty := TInt; arg_required := false |}];
         entry_handler := fun args =>
           get_error_logs (str_arg args (lit "equipment_id")) (int_arg args (lit "hours") 24) |}
  end.

(** Registering a list of tools, stopping at the first refusal. *)
Fixpoint register_all `{PyRuntime} (ts : list tool) (reg : gmap str entry) :
    error + gmap str entry :=
  match ts with
  | [] => inr reg
  | t :: ts' =>
      match register (tool_name t) (entry_spec (tool_entry t)) (entry_handler (tool_entry t)) reg with
      | inl e => inl e
      | inr reg' => register_all ts' reg'
      end
  end.

End ToolRegistry.

(** ** Notions used to state the properties *)

(** Two characters that are the same letter up to case: equal, or an ASCII
    capital and its small letter. *)
Definition same_letter (a b : N) : Prop :=
  a = b \/
  (is_ascii_upper a = true /\ b = (a + 32)%N) \/
  (is_ascii_upper b = true /\ a = (b + 32)%N).

(** [pat] occurs in [q] when case is ignored: some contiguous block of [q]
    spells [pat] letter by letter. *)
Definition ci_occurs (pat q : str) : Prop :=
  exists pre w post, q = pre ++ w ++ post /\ Forall2 same_letter w pat.

Definition mentions_san_francisco (q : str) : Prop :=
  ci_occurs (lit "sf") q \/ ci_occurs (lit "san francisco") q.

(** What lower-casing does above ASCII, as far as the tools can tell: the
    result is never empty and holds no ASCII character, except for the two
    entries of the Unicode tables that do produce one, the Kelvin sign
    (small k) and the dotted capital I (small i and a combining dot). *)
Definition inert_block (b : list N) : Prop :=
  (b <> [] /\ Forall (fun d => (128 <= d)%N) b) \/ b = [107%N] \/ b = [105%N; 775%N].

Definition lower_table_ok `{PyRuntime} : Prop :=
  forall before c after, (128 <= c)%N -> inert_block (unicode_lower before c after).

(** The search patterns the argument covers: ASCII without capitals and
    without k, every i followed by a further character. *)
Fixpoint pattern_ok (p : str) : bool :=
  match p with
  | [] => true
  | c :: rest =>
      is_ascii c && negb (is_ascii_upper c) && negb (c =? 107)%N &&
      (if (c =? 105)%N then match rest with [] => false | _ => true end else true) &&
      pattern_ok rest
  end.

(** The text [YYYY-MM-DD HH:MM:SS <tz-abbrev><offset>] of given calendar
    fields, zone abbreviation and offset (seconds east of UTC, printed as
    sign, two digits of hours and two of minutes). *)
Definition two_digits (n : Z) : str :=
  [digit (Z.to_N (n / 10)); digit (Z.to_N (n mod 10))].

Definition four_digits (n : Z) : str :=
  [digit (Z.to_N (n / 1000)); digit (Z.to_N (n / 100 mod 10));
   digit (Z.to_N (n / 10 mod 10)); digit (Z.to_N (n mod 10))].

Definition timestamp_text (y mo d h mi s : Z) (abbrev : str) (off : Z) : str :=
  four_digits y ++ lit "-" ++ two_digits mo ++ lit "-" ++ two_digits d ++ lit " " ++
  two_digits h ++ lit ":" ++ two_digits mi ++ lit ":" ++ two_digits s ++ lit " " ++
  abbrev ++ (if off <? 0 then lit "-" else lit "+") ++
  two_digits (Z.abs off / 3600) ++ two_digits (Z.abs off mod 3600 / 60).

(** Calendar fields that can appear on a clock face. *)
Definition valid_fields (mo d h mi s : Z) : Prop :=
  1 <= mo <= 12 /\ 1 <= d <= 31 /\ 0 <= h < 24 /\ 0 <= mi < 60 /\ 0 <= s < 60.

(** *** Reading a timestamp back *)

(** [w] decimal digits at the head of a text, and the number they spell. *)
Fixpoint read_digits (w : nat) (s : str) (acc : Z) : option (Z * str) :=
  match w with
  | O => Some (acc, s)
  | S w' =>
      match s with
      | c :: s' =>
          if ((48 <=? c) && (c <=? 57))%N
          then read_digits w' s' (10 * acc + Z.of_N (c - 48))
          else None
      | [] => None
      end
  end.

Definition expect (p s : str) : option str :=
  if prefix_of p s then Some (drop (length p) s) else None.

(** The instant (microseconds since the epoch) that an ISO 8601 text of the
    shape [YYYY-MM-DDTHH:MM:SS[.ffffff]+HH:MM] denotes. *)
Definition parse_isoformat (s : str) : option Z :=
  '(y, s) ← read_digits 4 s 0; s ← expect (lit "-") s;
  '(mo, s) ← read_digits 2 s 0; s ← expect (lit "-") s;
  '(d, s) ← read_digits 2 s 0; s ← expect (lit "T") s;
  '(h, s) ← read_digits 2 s 0; s ← expect (lit ":") s;
  '(mi, s) ← read_digits 2 s 0; s ← expect (lit ":") s;
  '(sec, s) ← read_digits 2 s 0;
  '(us, s) ← (match expect (lit ".") s with
              | Some s' => read_digits 6 s' 0
              | None => Some (0, s)
              end);
  '(sign, s) ← (match expect (lit "+") s with
                | Some s' => Some (1, s')
                | None => (fun s' => (-1, s')) <$> expect (lit "-") s
                end);
  '(oh, s) ← read_digits 2 s 0; s ← expect (lit ":") s;
  '(om, s) ← read_digits 2 s 0;
  match s with
  | [] =>
      Some (days_from_civil y mo d * us_per_day + h * us_per_hour +
            mi * (60 * us_per_second) + sec * us_per_second + us -
            sign * (oh * 3600 + om * 60) * us_per_second)
  | _ :: _ => None
  end.

(** The instant written in the [timestamp] field of a log entry. *)
Definition timestamp_instant (e : json) : option Z :=
  match field e (lit "timestamp") with
  | Some (JStr s) => parse_isoformat s
  | _ => None
  end.

(** Consecutive entries exactly one hour apart, the later entry older. *)
Definition one_hour_steps (logs : list json) : Prop :=
  forall i a b, logs !! i = Some a -> logs !! S i = Some b ->
  exists ta tb, timestamp_instant a = Some ta /\ timestamp_instant b = Some tb /\
                tb = ta - us_per_hour.

(** Every entry strictly older than the entry before it. *)
Definition strictly_older (logs : list json) : Prop :=
  forall i a b, logs !! i = Some a -> logs !! S i = Some b ->
  exists ta tb, timestamp_instant a = Some ta /\ timestamp_instant b = Some tb /\ tb < ta.

(** The code, severity and message of an entry, and the three combinations
    the tool draws from. *)
Definition error_triple (e : json) : option json * option json * option json :=
  (field e (lit "code"), field e (lit "severity"), field e (lit "message")).

Definition fixed_triples : list (option json * option json * option json) :=
  [ (Some (JStr (lit "E404")), Some (JStr (lit "warning")), Some (JStr (lit "Sensor timeout")));
    (Some (JStr (lit "E500")), Some (JStr (lit "error")), Some (JStr (lit "System error")));
    (Some (JStr (lit "E503")), Some (JStr (lit "critical")), Some (JStr (lit "Motor overheating"))) ].

(** The zone named UTC is the identity on instants. *)
Definition utc_zone_ok `{PyRuntime} : Prop :=
  (forall t, tz_fromutc (ZoneInfo (lit "UTC")) t = (t, false)) /\
  (forall wall fold, tz_utcoffset (ZoneInfo (lit "UTC")) wall fold = 0).

(** The instants a [datetime] can hold, years 1 to 9999.  The readings a
    call of the error-log tool can make (at most three) are in range when
    each leaves room for three hours below. *)
Definition datetime_min : Z := days_from_civil 1 1 1 * us_per_day.
Definition datetime_max : Z := days_from_civil 10000 1 1 * us_per_day - 1.

Definition readings_in_range (w : World) : Prop :=
  forall j, (j < 3)%nat ->
  datetime_min + 3 * us_per_hour <= clock w (clock_reads w + j) <= datetime_max.

(** The clock advances by less than an hour between two of these readings;
    the clock does not move between them. *)
Definition clock_steady (w : World) : Prop :=
  forall j, (j < 2)%nat ->
  clock w (clock_reads w + S j) - clock w (clock_reads w + j) < us_per_hour.

Definition clock_frozen (w : World) : Prop :=
  forall j, (j < 2)%nat -> clock w (clock_reads w + S j) = clock w (clock_reads w + j).

(** A generator that replays a list of raw draws. *)
Definition draws_of (l : list N) : nat -> N := fun k => nth k l 0%N.

(** The status values of the equipment tool with the fields that accompany
    each. *)
Definition status_fields : list (str * list str) :=
  [ (lit "running",
     [lit "state"; lit "temperature_celsius"; lit "pressure_psi"; lit "alerts"]);
    (lit "maintenance", [lit "state"; lit "temperature_celsius"; lit "alerts"]);
    (lit "warning", [lit "state"; lit "temperature_celsius"; lit "alerts"]);
    (lit "error", [lit "state"; lit "temperature_celsius"; lit "alerts"; lit "error_code"]) ].

Definition object_keys (v : json) : list str :=
  match v with
  | JDict d => dict_keys d
  | _ => []
  end.

(** The entries of a result object. *)
Definition logs_of (v : json) : list json :=
  match field v (lit "logs") with
  | Some (JList l) => l
  | _ => []
  end.

(** The world after [reads] further readings of the clock and [draws]
    further draws. *)
Definition advance (w : World) (reads draws : nat) : World :=
  {| clock := clock w; clock_reads := reads + clock_reads w;
     random_src := random_src w; random_draws := draws + random_draws w;
     environ := environ w; default_project := default_project w |}.

(** A bounded search: [P] holds on [fuel] consecutive integers from [z]. *)
Fixpoint all_from (P : Z -> bool) (fuel : nat) (z : Z) : bool :=
  match fuel with
  | O => true
  | S f => P z && all_from P f (z + 1)
  end.

(** ** A runtime to evaluate the tools on *)

(** Lower-casing above ASCII for the characters used in the examples: the
    Latin-1 capitals, the Kelvin sign, the dotted capital I, and the capital
    sigma, final at the end of a text that has something before it. *)
Definition sample_unicode_lower (before : list N) (c : N) (after : list N) : list N :=
  if ((192 <=? c) && (c <=? 222) && negb (c =? 215))%N then [(c + 32)%N]
  else if (c =? 8490)%N then [107%N]
  else if (c =? 304)%N then [105%N; 775%N]
  else if (c =? 931)%N then
    match before, after with
    | _ :: _, [] => [962%N]
    | _, _ => [963%N]
    end
  else [c].

Definition utc_zone : tzinfo :=
  {| tz_fromutc := fun t => (t, false);
     tz_utcoffset := fun _ _ => 0;
     tz_tzname := fun _ _ => lit "UTC" |}.

(** Day number of the [k]-th Sunday (counting from 1) of a month. *)
Definition nth_sunday (y m k : Z) : Z :=
  let first := days_from_civil y m 1 in
  first + (3 - first) mod 7 + 7 * (k - 1).

(** Pacific time under the rule in force since 2007: daylight time from the
    second Sunday of March, 02:00 standard time, to the first Sunday of
    November, 02:00 daylight time. *)
Definition pacific_dst_utc (t : Z) : bool :=
  let y := fst (fst (civil_from_days (t / us_per_day))) in
  (nth_sunday y 3 2 * us_per_day + 10 * us_per_hour <=? t) &&
  (t <? nth_sunday y 11 1 * us_per_day + 9 * us_per_hour).

Definition pacific_dst_wall (wall : Z) (fold : bool) : bool :=
  let y := fst (fst (civil_from_days (wall / us_per_day))) in
  let start := nth_sunday y 3 2 * us_per_day + 2 * us_per_hour in
  let stop := nth_sunday y 11 1 * us_per_day + 2 * us_per_hour in
  if wall <? start then false
  else if wall <? start + us_per_hour then fold
  else if wall <? stop - us_per_hour then true
  else if wall <? stop then negb fold
  else false.

Definition pacific_zone : tzinfo :=
  {| tz_fromutc := fun t =>
       if pacific_dst_utc t
       then (t - 7 * us_per_hour, false)
       else (t - 8 * us_per_hour,
             pacific_dst_utc (t - us_per_hour));
     tz_utcoffset := fun wall fold => if pacific_dst_wall wall fold then -25200 else -28800;
     tz_tzname := fun wall fold => if pacific_dst_wall wall fold then lit "PDT" else lit "PST" |}.

Definition sample_runtime : PyRuntime :=
  {| unicode_lower := sample_unicode_lower;
     ZoneInfo := fun key => if decide (key = lit "America/Los_Angeles") then pacific_zone else utc_zone |}.

(** A world whose clock starts on 2025-11-04 09:53:20.123456 UTC and advances
    by [tick] microseconds between two readings. *)
Definition sample_world (tick : Z) (draws : nat -> N) : World :=
  {| clock := fun k => 1762250000123456 + Z.of_nat k * tick;
     clock_reads := 0;
     random_src := draws;
     random_draws := 0;
     environ := [];
     default_project := lit "demo-project" |}.

(** ** Reading JSON text back *)

(** A decoder for the JSON texts the module emits: objects, arrays, strings
    with their escapes, integers, and numbers with one digit after the
    point.  Members of an object are returned in the order of the text. *)

Definition is_ws (c : N) : bool := ((c =? 32) || (c =? 10) || (c =? 13) || (c =? 9))%N.

Fixpoint skip_ws (s : str) : str :=
  match s with
  | c :: s' => if is_ws c then skip_ws s' else s
  | [] => []
  end.

Definition unhex_digit (c : N) : option N :=
  if ((48 <=? c) && (c <=? 57))%N then Some (c - 48)%N
  else if ((97 <=? c) && (c <=? 102))%N then Some (c - 87)%N
  else if ((65 <=? c) && (c <=? 70))%N then Some (c - 55)%N
  else None.

Definition read_hex4 (s : str) : option (N * str) :=
  match s with
  | a :: b :: c :: d :: rest =>
      a' ← unhex_digit a; b' ← unhex_digit b; c' ← unhex_digit c; d' ← unhex_digit d;
      Some ((a' * 4096 + b' * 256 + c' * 16 + d')%N, rest)
  | _ => None
  end.

Definition is_high_surrogate (c : N) : bool := ((55296 <=? c) && (c <=? 56319))%N.
Definition is_low_surrogate (c : N) : bool := ((56320 <=? c) && (c <=? 57343))%N.

(** A Unicode scalar value: a code point that is not a surrogate. *)
Definition is_scalar (c : N) : bool :=
  ((c <? 1114112) && negb ((55296 <=? c) && (c <=? 57343)))%N.

(** The characters of a string literal after its opening quote, up to and
    including the closing quote.  A high surrogate escape followed by a low
    one is one character. *)
Fixpoint read_string_body (fuel : nat) (s : str) : option (str * str) :=
  match fuel with
  | O => None
  | S f =>
      match s with
      | [] => None
      | c :: rest =>
          if (c =? 34)%N then Some ([], rest)
          else if (c =? 92)%N then
            match rest with
            | [] => None
            | e :: rest1 =>
                let plain (d : N) :=
                  '(t, r) ← read_string_body f rest1; Some (d :: t, r) in
                if (e =? 34)%N then plain 34%N
                else if (e =? 92)%N then plain 92%N
                else if (e =? 47)%N then plain 47%N
                else if (e =? 98)%N then plain 8%N
                else if (e =? 102)%N then plain 12%N
                else if (e =? 110)%N then plain 10%N
                else if (e =? 114)%N then plain 13%N
                else if (e =? 116)%N then plain 9%N
                else if (e =? 117)%N then
                  '(h, rest2) ← read_hex4 rest1;
                  let single := '(t, r) ← read_string_body f rest2; Some (h :: t, r) in
                  if is_high_surrogate h then
                    match rest2 with
                    | b :: u :: rest3 =>
                        if ((b =? 92) && (u =? 117))%N then
                          match read_hex4 rest3 with
                          | Some (l, rest4) =>
                              if is_low_surrogate l
                              then '(t, r) ← read_string_body f rest4;
                                   Some ((65536 + (h - 55296) * 1024 + (l - 56320))%N :: t, r)
                              else single
                          | None => None
                          end
                        else single
                    | _ => single
                    end
                  else single
                else None
            end
          else if (c <? 32)%N then None
          else '(t, r) ← read_string_body f rest; Some (c :: t, r)
      end
  end.

(** All the digits at the head of a text. *)
Fixpoint read_all_digits (s : str) (acc : Z) : Z * str :=
  match s with
  | c :: s' =>
      if ((48 <=? c) && (c <=? 57))%N
      then read_all_digits s' (10 * acc + Z.of_N (c - 48))
      else (acc, s)
  | [] => (acc, [])
  end.

Definition starts_with_digit (s : str) : bool :=
  match s with
  | c :: _ => ((48 <=? c) && (c <=? 57))%N
  | [] => false
  end.

(** An integer, or a number with one digit after the point (kept in
    tenths, as the floats of the module are). *)
Definition read_number (s : str) : option (json * str) :=
  let '(sign, s1) := match s with
                     | c :: s' => if (c =? 45)%N then (-1, s') else (1, s)
                     | [] => (1, s)
                     end in
  if starts_with_digit s1 then
    let '(n, s2) := read_all_digits s1 0 in
    match s2 with
    | p :: d :: s3 =>
        if (p =? 46)%N then
          if ((48 <=? d) && (d <=? 57))%N && negb (starts_with_digit s3)
          then Some (JFloat (sign * (10 * n + Z.of_N (d - 48))), s3)
          else None
        else Some (JInt (sign * n), s2)
    | _ => Some (JInt (sign * n), s2)
    end
  else None.

Fixpoint read_value (fuel : nat) (s : str) : option (json * str) :=
  match fuel with
  | O => None
  | S f =>
      match s with
      | [] => None
      | c :: s1 =>
          if (c =? 34)%N then
            '(t, r) ← read_string_body (length s1) s1; Some (JStr t, r)
          else if (c =? 91)%N then
            match skip_ws s1 with
            | [] => None
            | c2 :: s2 =>
                if (c2 =? 93)%N then Some (JList [], s2)
                else '(items, r) ← read_items f (c2 :: s2); Some (JList items, r)
            end
          else if (c =? 123)%N then
            match skip_ws s1 with
            | [] => None
            | c2 :: s2 =>
                if (c2 =? 125)%N then Some (JDict [], s2)
                else '(members, r) ← read_members f (c2 :: s2); Some (JDict members, r)
            end
          else read_number s
      end
  end
with read_items (fuel : nat) (s : str) : option (list json * str) :=
  match fuel with
  | O => None
  | S f =>
      '(v, r) ← read_value f s;
      match skip_ws r with
      | [] => None
      | c :: r1 =>
          if (c =? 93)%N then Some ([v], r1)
          else if (c =? 44)%N then
            '(vs, r2) ← read_items f (skip_ws r1); Some (v :: vs, r2)
          else None
      end
  end
with read_members (fuel : nat) (s : str) : option (list (str * json) * str) :=
  match fuel with
  | O => None
  | S f =>
      match s with
      | [] => None
      | q :: s1 =>
          if (q =? 34)%N then
            '(k, r) ← read_string_body (length s1) s1;
            match skip_ws r with
            | [] => None
            | c :: r1 =>
                if (c =? 58)%N then
                  '(v, r2) ← read_value f (skip_ws r1);
                  match skip_ws r2 with
                  | [] => None
                  | c2 :: r3 =>
                      if (c2 =? 125)%N then Some ([(k, v)], r3)
                      else if (c2 =? 44)%N then
                        '(ms, r4) ← read_members f (skip_ws r3); Some ((k, v) :: ms, r4)
                      else None
                  end
                else None
            end
          else None
      end
  end.

(** The value a whole text denotes. *)
Definition json_loads (s : str) : option json :=
  '(v, r) ← read_value (length s) (skip_ws s);
  match skip_ws r with
  | [] => Some v
  | _ :: _ => None
  end.

(** Every string of a value, keys included, is made of scalar values. *)
Fixpoint scalar_strings (v : json) : bool :=
  match v with
  | JInt _ => true
  | JFloat _ => true
  | JStr s => forallb is_scalar s
  | JList items => forallb scalar_strings items
  | JDict members =>
      forallb (fun kv => forallb is_scalar (fst kv) && scalar_strings (snd kv)) members
  end.

(** The string a reader of the text gets for a string of a value: a high
    surrogate directly followed by a low surrogate is read as the one
    character the pair encodes; every other character is read as itself.
    (A Python string holds code points below [0x110000]; [wrap_code] is the
    identity on them, and gives beyond them what the twenty bits of a
    surrogate pair keep.) *)
Definition wrap_code (c : N) : N :=
  if (c <? 65536)%N then c else (65536 + (c - 65536) mod 1048576)%N.

Fixpoint join_surrogates (s : str) : str :=
  match s with
  | [] => []
  | h :: tail =>
      match tail with
      | l :: rest =>
          if is_high_surrogate h && is_low_surrogate l
          then (65536 + (h - 55296) * 1024 + (l - 56320))%N :: join_surrogates rest
          else h :: join_surrogates tail
      | [] => [h]
      end
  end.

Definition decoded (s : str) : str := join_surrogates (map wrap_code s).

Fixpoint decoded_json (v : json) : json :=
  match v with
  | JInt z => JInt z
  | JFloat t => JFloat t
  | JStr s => JStr (decoded s)
  | JList items => JList (map decoded_json items)
  | JDict members => JDict (map (fun kv => (decoded (fst kv), decoded_json (snd kv))) members)
  end.

(** A string of code points, each below [0x110000] as in every Python
    string, in which no high surrogate is directly followed by a low
    surrogate. *)
Fixpoint no_surrogate_pair (s : str) : bool :=
  match s with
  | [] => true
  | h :: tail =>
      (h <? 1114112)%N &&
      negb (is_high_surrogate h &&
            match tail with l :: _ => is_low_surrogate l | [] => false end) &&
      no_surrogate_pair tail
  end.

(** The numbers of a value are within what [dumps_at] prints the way
    [json.dumps] does: floats of at most fifteen significant digits, and
    integers below the 4300 digits from which [int.__repr__] refuses. *)
Fixpoint plain_numbers (v : json) : bool :=
  match v with
  | JInt z => Z.abs z <? 10 ^ 4299
  | JFloat t => Z.abs t <? 10 ^ 15
  | JStr _ => true
  | JList items => forallb plain_numbers items
  | JDict members => forallb (fun kv => plain_numbers (snd kv)) members
  end.

(** The items of an array after the first, and the members of an object
    after the first, as [dumps_at] writes them at a given level. *)
Fixpoint dumps_items (indent level : nat) (l : list json) : str :=
  match l with
  | [] => []
  | y :: l' =>
      lit "," ++ newline_indent indent level ++ dumps_at indent level y ++
      dumps_items indent level l'
  end.

Fixpoint dumps_members (indent level : nat) (l : list (str * json)) : str :=
  match l with
  | [] => []
  | (k, y) :: l' =>
      lit "," ++ newline_indent indent level ++ encode_string k ++ lit ": " ++
      dumps_at indent level y ++ dumps_members indent level l'
  end.

(** Fuel that suffices to read a value back. *)
Fixpoint json_cost (v : json) : nat :=
  match v with
  | JInt _ => 1
  | JFloat _ => 1
  | JStr _ => 1
  | JList items => S (fold_right (fun x n => S (json_cost x + n)) O items)
  | JDict members => S (fold_right (fun kv n => S (json_cost (snd kv) + n)) O members)
  end.

(** A text that can follow a value: it does not go on with a digit or a
    point. *)
Definition ends_number (rest : str) : bool :=
  match rest with
  | [] => true
  | c :: _ => negb (((48 <=? c) && (c <=? 57)) || (c =? 46))%N
  end.

(** A value reads back: with fuel for its size, and followed by a text that
    cannot continue a number, its rendering at any level is read as the
    value with its strings decoded. *)
Definition reads_back (v : json) : Prop :=
  forall indent level rest fuel,
    ends_number rest = true -> (json_cost v <= fuel)%nat ->
    read_value fuel (dumps_at indent level v ++ rest) = Some (decoded_json v, rest).

(** A character of a text that is all printable ASCII and line feeds. *)
Definition is_text_char (c : N) : bool :=
  ((c =? 10) || ((32 <=? c) && (c <=? 126)))%N.

(** ** The tools on concrete inputs *)

(** The texts below are what the interpreter prints for the same calls. *)
Example get_equipment_state_text :
  fst (get_equipment_state (lit "pump-1") (sample_world 7 (draws_of [6]%N))) =
  lit "{" ++ nl ++
  lit "  " ++ dquote ++ lit "equipment_id" ++ dquote ++ lit ": " ++ dquote ++ lit "pump-1" ++ dquote ++ lit "," ++ nl ++
  lit "  " ++ dquote ++ lit "status" ++ dquote ++ lit ": " ++ dquote ++ lit "warning" ++ dquote ++ lit "," ++ nl ++
  lit "  " ++ dquote ++ lit "state" ++ dquote ++ lit ": " ++ dquote ++ lit "high_temperature" ++ dquote ++ lit "," ++ nl ++
  lit "  " ++ dquote ++ lit "temperature_celsius" ++ dquote ++ lit ": 78.5," ++ nl ++
  lit "  " ++ dquote ++ lit "alerts" ++ dquote ++ lit ": [" ++ nl ++
  lit "    " ++ dquote ++ lit "temperature_warning" ++ dquote ++ lit "," ++ nl ++
  lit "    " ++ dquote ++ lit "pressure_elevated" ++ dquote ++ nl ++
  lit "  ]" ++ nl ++
  lit "}".
Proof. vm_compute. reflexivity. Qed.

Example get_error_logs_text :
  fst (@get_error_logs sample_runtime (lit "pump-1") 24
         (sample_world 7 (draws_of [2; 1; 3]%N))) =
  lit "{" ++ nl ++
  lit "  " ++ dquote ++ lit "equipment_id" ++ dquote ++ lit ": " ++ dquote ++ lit "pump-1" ++ dquote ++ lit "," ++ nl ++
  lit "  " ++ dquote ++ lit "total_errors" ++ dquote ++ lit ": 2," ++ nl ++
  lit "  " ++ dquote ++ lit "logs" ++ dquote ++ lit ": [" ++ nl ++
  lit "    {" ++ nl ++
  lit "      " ++ dquote ++ lit "timestamp" ++ dquote ++ lit ": " ++ dquote ++ lit "2025-11-04T09:53:20.123456+00:00" ++ dquote ++ lit "," ++ nl ++
  lit "      " ++ dquote ++ lit "equipment_id" ++ dquote ++ lit ": " ++ dquote ++ lit "pump-1" ++ dquote ++ lit "," ++ nl ++
  lit "      " ++ dquote ++ lit "code" ++ dquote ++ lit ": " ++ dquote ++ lit "E500" ++ dquote ++ lit "," ++ nl ++
  lit "      " ++ dquote ++ lit "severity" ++ dquote ++ lit ": " ++ dquote ++ lit "error" ++ dquote ++ lit "," ++ nl ++
  lit "      " ++ dquote ++ lit "message" ++ dquote ++ lit ": " ++ dquote ++ lit "System error" ++ dquote ++ nl ++
  lit "    }," ++ nl ++
  lit "    {" ++ nl ++
  lit "      " ++ dquote ++ lit "timestamp" ++ dquote ++ lit ": " ++ dquote ++ lit "2025-11-04T08:53:20.123463+00:00" ++ dquote ++ lit "," ++ nl ++
  lit "      " ++ dquote ++ lit "equipment_id" ++ dquote ++ lit ": " ++ dquote ++ lit "pump-1" ++ dquote ++ lit "," ++ nl ++
  lit "      " ++ dquote ++ lit "code" ++ dquote ++ lit ": " ++ dquote ++ lit "E404" ++ dquote ++ lit "," ++ nl ++
  lit "      " ++ dquote ++ lit "severity" ++ dquote ++ lit ": " ++ dquote ++ lit "warning" ++ dquote ++ lit "," ++ nl ++
  lit "      " ++ dquote ++ lit "message" ++ dquote ++ lit ": " ++ dquote ++ lit "Sensor timeout" ++ dquote ++ nl ++
  lit "    }" ++ nl ++
  lit "  ]" ++ nl ++
  lit "}".
Proof. vm_compute. reflexivity. Qed.

(** ** Membership after lower-casing is a search that ignores case *)

Lemma py_in_unfold (p s : str) :
  py_in p s = prefix_of p s || match s with [] => false | _ :: s' => py_in p s' end.
Proof. destruct s; reflexivity. Qed.

Lemma py_in_app_r (p b s : str) : py_in p s = true -> py_in p (b ++ s) = true.
Proof.
  intros Hs. induction b as [|d b IH]; simpl; [exact Hs|].
  rewrite IH. apply orb_true_r.
Qed.

Lemma pattern_ok_cons (c : N) (rest : str) :
  pattern_ok (c :: rest) = true ->
  (c < 128)%N /\ is_ascii_upper c = false /\ c <> 107%N /\
  (c = 105%N -> rest <> []) /\ pattern_ok rest = true.
Proof.
  simpl. rewrite !andb_true_iff, !negb_true_iff. unfold is_ascii.
  intros [[[[Ha Hu] Hk] Hi] Hr]. repeat split; try assumption.
  - now apply N.ltb_lt.
  - intros ->. discriminate.
  - intros -> ->. discriminate.
Qed.

Lemma same_letter_of_lower (c p : N) :
  is_ascii_upper p = false -> ascii_lower c = p -> same_letter c p.
Proof.
  unfold ascii_lower, same_letter. intros Hp. destruct (is_ascii_upper c) eqn:Hc.
  - intros <-. right; left. split; reflexivity.
  - intros ->. now left.
Qed.

Lemma lower_of_same_letter (c p : N) :
  is_ascii_upper p = false -> (p < 128)%N -> same_letter c p ->
  is_ascii c = true /\ ascii_lower c = p.
Proof.
  unfold same_letter, ascii_lower, is_ascii, is_ascii_upper.
  intros Hp Hlt [-> | [[Hc ->] | [Hc2 _]]].
  - split; [now apply N.ltb_lt|]. unfold is_ascii_upper in Hp. now rewrite Hp.
  - split; [|now rewrite Hc].
    apply andb_true_iff in Hc as [_ Hc]. apply N.leb_le in Hc. apply N.ltb_lt. lia.
  - unfold is_ascii_upper in Hp. congruence.
Qed.

Section LowerSearch.
Context `{PyRuntime}.
Hypothesis table_ok : lower_table_ok.

Lemma prefix_of_inert (p b s : str) (d : N) :
  pattern_ok p = true -> p <> [] -> inert_block (d :: b) -> prefix_of p (d :: b ++ s) = false.
Proof.
  intros Hp Hne Hb. destruct p as [|p0 p']; [congruence|].
  apply pattern_ok_cons in Hp as (Hlt & _ & Hk & Hi & Hp').
  simpl. destruct (N.eqb_spec p0 d) as [->|]; [simpl|reflexivity].
  destruct Hb as [[_ Hall]|[Hb|Hb]].
  - apply Forall_inv in Hall. lia.
  - congruence.
  - injection Hb as -> ->. destruct p' as [|p1 p'']; [now specialize (Hi eq_refl)|].
    apply pattern_ok_cons in Hp' as (Hlt1 & _). simpl.
    destruct (N.eqb_spec p1 775) as [->|]; [lia|reflexivity].
Qed.

Lemma py_in_skip_inert (p b s : str) :
  pattern_ok p = true -> p <> [] -> inert_block b -> py_in p (b ++ s) = py_in p s.
Proof.
  intros Hp Hne Hb. destruct Hb as [[_ Hall] | [-> | ->]].
  - induction Hall as [|d b Hd Hall IH]; [reflexivity|].
    simpl. rewrite IH. destruct p as [|p0 p']; [congruence|].
    apply pattern_ok_cons in Hp as (Hlt & _). simpl.
    destruct (N.eqb_spec p0 d) as [->|]; [lia|reflexivity].
  - change (py_in p ([107%N] ++ s)) with (prefix_of p (107%N :: [] ++ s) || py_in p s).
    rewrite prefix_of_inert; auto. right; now left.
  - change (py_in p ([105%N; 775%N] ++ s))
      with (prefix_of p (105%N :: [775%N] ++ s) || (prefix_of p (775%N :: [] ++ s) || py_in p s)).
    rewrite !prefix_of_inert; auto.
    + left. split; [discriminate|]. constructor; [lia|constructor].
    + right; now right.
Qed.

Lemma prefix_of_lower_window (pat q : str) (before : list N) :
  pattern_ok pat = true -> prefix_of pat (lower_from before q) = true ->
  exists w post, q = w ++ post /\ Forall2 same_letter w pat.
Proof.
  revert q before. induction pat as [|p pat IH]; intros q before Hp Hpre.
  - exists [], q. split; [reflexivity|constructor].
  - destruct q as [|c rest]; [discriminate|].
    pose proof Hp as Hp0. apply pattern_ok_cons in Hp0 as (Hlt & Hup & _ & _ & Hp').
    cbn [lower_from] in Hpre. unfold lower_block in Hpre. destruct (is_ascii c) eqn:Hc.
    + simpl in Hpre. apply andb_true_iff in Hpre as [Heq Hrest].
      apply N.eqb_eq in Heq. destruct (IH _ _ Hp' Hrest) as (w & post & -> & Hw).
      exists (c :: w), post. split; [reflexivity|].
      constructor; [|exact Hw]. now apply same_letter_of_lower.
    + assert (Hb : inert_block (unicode_lower before c rest)).
      { apply table_ok. unfold is_ascii in Hc. apply N.ltb_ge in Hc. exact Hc. }
      destruct (unicode_lower before c rest) as [|d b] eqn:Hblock.
      * destruct Hb as [[Hne _]|[Hb|Hb]]; congruence.
      * rewrite <- app_comm_cons in Hpre.
        rewrite prefix_of_inert in Hpre; [discriminate|assumption|discriminate|assumption].
Qed.

Lemma window_prefix_of_lower (w pat post : str) (before : list N) :
  pattern_ok pat = true -> Forall2 same_letter w pat ->
  prefix_of pat (lower_from before (w ++ post)) = true.
Proof.
  intros Hp Hw. revert before Hp.
  induction Hw as [|c p w pat Hcp Hw IH]; intros before Hp; [reflexivity|].
  apply pattern_ok_cons in Hp as (Hlt & Hup & _ & _ & Hp').
  destruct (lower_of_same_letter c p Hup Hlt Hcp) as [Hc Hl].
  simpl. unfold lower_block. rewrite Hc. simpl. rewrite Hl, N.eqb_refl. simpl.
  now apply IH.
Qed.

Lemma py_in_lower_from_occurs (pat q : str) (before : list N) :
  pattern_ok pat = true -> py_in pat (lower_from before q) = true -> ci_occurs pat q.
Proof.
  intros Hp. revert before. induction q as [|c rest IH]; intros before Hin.
  - destruct pat; [|discriminate]. exists [], [], []. split; [reflexivity|constructor].
  - destruct pat as [|p0 pat'] eqn:Hpat.
    { exists [], [], (c :: rest). split; [reflexivity|constructor]. }
    rewrite <- Hpat in *.
    assert (Hne : pat <> []) by (rewrite Hpat; discriminate).
    destruct (prefix_of pat (lower_from before (c :: rest))) eqn:Hpre.
    + destruct (prefix_of_lower_window _ _ _ Hp Hpre) as (w & post & Hq & Hw).
      exists [], w, post. split; [exact Hq|exact Hw].
    + assert (Hlater : py_in pat (lower_from (c :: before) rest) = true).
      { cbn [lower_from] in Hin, Hpre. unfold lower_block in Hin, Hpre.
        destruct (is_ascii c) eqn:Hc.
        - simpl in Hin, Hpre. rewrite Hpre in Hin. exact Hin.
        - rewrite py_in_skip_inert in Hin; auto.
          apply table_ok. unfold is_ascii in Hc. now apply N.ltb_ge in Hc. }
      destruct (IH _ Hlater) as (pre & w & post & -> & Hw).
      exists (c :: pre), w, post. split; [reflexivity|exact Hw].
Qed.

Lemma occurs_py_in_lower_from (pat q : str) (before : list N) :
  pattern_ok pat = true -> ci_occurs pat q -> py_in pat (lower_from before q) = true.
Proof.
  intros Hp (pre & w & post & -> & Hw). revert before.
  induction pre as [|x pre IH]; intros before.
  - simpl. rewrite py_in_unfold, window_prefix_of_lower; auto.
  - simpl. apply py_in_app_r, IH.
Qed.

Lemma py_in_lower_iff (pat q : str) :
  pattern_ok pat = true -> py_in pat (lower q) = true <-> ci_occurs pat q.
Proof.
  intros Hp. unfold lower. split.
  - now apply py_in_lower_from_occurs.
  - now apply occurs_py_in_lower_from.
Qed.

End LowerSearch.

Lemma sample_table_ok : @lower_table_ok sample_runtime.
Proof.
  intros before c after Hc. unfold inert_block. cbn [unicode_lower sample_runtime].
  unfold sample_unicode_lower.
  destruct ((192 <=? c) && (c <=? 222) && negb (c =? 215))%N.
  { left. split; [discriminate|]. constructor; [lia|constructor]. }
  destruct (c =? 8490)%N; [right; now left|].
  destruct (c =? 304)%N; [right; now right|].
  left. destruct (c =? 931)%N.
  - destruct before, after; (split; [discriminate|]); constructor; (lia || constructor).
  - split; [discriminate|]. constructor; [lia|constructor].
Qed.

(** ** The weather tool *)

Lemma san_francisco_test `{PyRuntime} (query : str) :
  lower_table_ok ->
  py_in (lit "sf") (lower query) || py_in (lit "san francisco") (lower query) = true <->
  mentions_san_francisco query.
Proof.
  intros Hok. unfold mentions_san_francisco.
  rewrite orb_true_iff, !(py_in_lower_iff Hok) by reflexivity. reflexivity.
Qed.

Lemma san_francisco_test_false `{PyRuntime} (query : str) :
  lower_table_ok -> ~ mentions_san_francisco query ->
  py_in (lit "sf") (lower query) || py_in (lit "san francisco") (lower query) = false.
Proof.
  intros Hok Hno. apply not_true_is_false. intros Hyes. apply Hno.
  now apply san_francisco_test.
Qed.

(** C3: for every input string, [get_weather] answers "It's 60 degrees and
    foggy." when the string contains "sf" or "san francisco" with case
    ignored, and "It's 90 degrees and sunny." for every other string. *)
Theorem get_weather_spec `{PyRuntime} (query : str) :
  lower_table_ok ->
  (mentions_san_francisco query -> get_weather query = lit "It's 60 degrees and foggy.") /\
  (~ mentions_san_francisco query -> get_weather query = lit "It's 90 degrees and sunny.").
Proof.
  intros Hok. unfold get_weather. split; intros Hq.
  - apply (san_francisco_test query Hok) in Hq. rewrite Hq. reflexivity.
  - rewrite (san_francisco_test_false query Hok Hq). reflexivity.
Qed.

Lemma get_weather_spec_witness :
  @get_weather sample_runtime (lit "Weather in SF today?") = lit "It's 60 degrees and foggy." /\
  @get_weather sample_runtime (lit "Paris") = lit "It's 90 degrees and sunny.".
Proof.
  split.
  - apply (@get_weather_spec sample_runtime (lit "Weather in SF today?") sample_table_ok).
    left. exists (lit "Weather in "), (lit "SF"), (lit " today?").
    split; [reflexivity|].
    repeat constructor; right; left; split; reflexivity.
  - apply (@get_weather_spec sample_runtime (lit "Paris") sample_table_ok).
    intros Hm. apply (@san_francisco_test sample_runtime (lit "Paris") sample_table_ok) in Hm.
    vm_compute in Hm. discriminate Hm.
Defined.

(** ** Numbers and calendar fields as text *)

Lemma all_from_spec (P : Z -> bool) (fuel : nat) (z : Z) :
  all_from P fuel z = true -> forall n, z <= n < z + Z.of_nat fuel -> P n = true.
Proof.
  revert z. induction fuel as [|f IH]; intros z Hall n Hn; [lia|].
  simpl in Hall. apply andb_true_iff in Hall as [Hz Hrest].
  destruct (Z.eq_dec n z) as [->|Hne]; [exact Hz|].
  apply (IH (z + 1) Hrest). lia.
Qed.

Lemma all_from_range (P : Z -> bool) (len z : Z) :
  all_from P (Z.to_nat len) z = true -> forall n, z <= n < z + len -> P n = true.
Proof.
  intros Hall n Hn. apply (all_from_spec _ _ _ Hall). lia.
Qed.

Lemma zpad2_two_digits (n : Z) : 0 <= n < 100 -> zpad 2 n = two_digits n.
Proof.
  intros Hn.
  assert (Hall : all_from (fun k => bool_decide (zpad 2 k = two_digits k)) (Z.to_nat 100) 0 = true)
    by (vm_compute; reflexivity).
  apply (all_from_range _ _ _ Hall) in Hn. now apply bool_decide_eq_true in Hn.
Qed.

Lemma str_of_Z_four_digits (y : Z) : 1000 <= y <= 9999 -> str_of_Z y = four_digits y.
Proof.
  intros Hy.
  assert (Hall : all_from (fun k => bool_decide (str_of_Z k = four_digits k))
                           (Z.to_nat 9000) 1000 = true)
    by (vm_compute; reflexivity).
  assert (Hy' : 1000 <= y < 1000 + 9000) by lia.
  apply (all_from_range _ _ _ Hall) in Hy'. now apply bool_decide_eq_true in Hy'.
Qed.

Lemma format_offset_hhmm (off : Z) :
  Z.abs off < 86400 -> off mod 60 = 0 ->
  format_offset [] off =
  (if off <? 0 then lit "-" else lit "+") ++
  two_digits (Z.abs off / 3600) ++ two_digits (Z.abs off mod 3600 / 60).
Proof.
  intros Hlt Hmin. unfold format_offset.
  assert (Ha : Z.abs off mod 60 = 0).
  { destruct (Z.abs_spec off) as [[_ ->]|[_ ->]]; [exact Hmin|].
    apply Z.mod_divide in Hmin; [|lia]. apply Z.mod_divide; [lia|].
    now apply Z.divide_opp_r. }
  rewrite Ha. simpl (if 0 =? 0 then _ else _).
  rewrite !zpad2_two_digits; [now rewrite !app_nil_r| |].
  - pose proof (Z.abs_nonneg off). split.
    + apply Z.div_pos; [apply Z.mod_pos_bound|]; lia.
    + apply Z.div_lt_upper_bound; [lia|].
      pose proof (Z.mod_pos_bound (Z.abs off) 3600). lia.
  - pose proof (Z.abs_nonneg off). split.
    + apply Z.div_pos; lia.
    + apply Z.div_lt_upper_bound; lia.
Qed.

Lemma civil_from_days_month_day (days : Z) :
  let '(_, m, d) := civil_from_days days in 1 <= m <= 12 /\ 1 <= d <= 31.
Proof.
  unfold civil_from_days. cbv zeta.
  set (z := days + 719468).
  set (doe := z - z / 146097 * 146097).
  assert (Hdoe : 0 <= doe < 146097) by (unfold doe; Z.div_mod_to_equations; lia).
  clearbody doe.
  set (yoe := (doe - doe / 1460 + doe / 36524 - doe / 146096) / 365).
  set (doy := doe - (365 * yoe + yoe / 4 - yoe / 100)).
  assert (Hdoy : 0 <= doy <= 365) by (unfold doy, yoe; Z.div_mod_to_equations; lia).
  clearbody doy.
  set (mp := (5 * doy + 2) / 153).
  assert (Hmp : 0 <= mp <= 11) by (unfold mp; Z.div_mod_to_equations; lia).
  assert (Hd : 1 <= doy - (153 * mp + 2) / 5 + 1 <= 31)
    by (unfold mp; Z.div_mod_to_equations; lia).
  destruct (Z.ltb_spec mp 10); lia.
Qed.

Lemma dt_fields_valid (dt : datetime) :
  valid_fields (dt_month dt) (dt_day dt) (dt_hour dt) (dt_minute dt) (dt_second dt).
Proof.
  unfold valid_fields, dt_month, dt_day, dt_date.
  pose proof (civil_from_days_month_day (dt_wall dt / us_per_day)) as Hmd.
  destruct (civil_from_days (dt_wall dt / us_per_day)) as [[y m] d]. simpl.
  destruct Hmd as [Hm Hd]. split; [exact Hm|]. split; [exact Hd|].
  unfold dt_hour, dt_minute, dt_second, us_per_day, us_per_hour, us_per_second.
  repeat split.
  - apply Z.div_pos; [apply Z.mod_pos_bound|]; lia.
  - apply Z.div_lt_upper_bound; [lia|]. apply Z.mod_pos_bound. lia.
  - apply Z.div_pos; [apply Z.mod_pos_bound|]; lia.
  - apply Z.div_lt_upper_bound; [lia|]. apply Z.mod_pos_bound. lia.
  - apply Z.div_pos; [apply Z.mod_pos_bound|]; lia.
  - apply Z.div_lt_upper_bound; [lia|]. apply Z.mod_pos_bound. lia.
Qed.

Lemma strftime_full_text (dt : datetime) :
  1000 <= dt_year dt <= 9999 -> Z.abs (dt_utcoffset dt) < 86400 -> dt_utcoffset dt mod 60 = 0 ->
  strftime_full dt =
  timestamp_text (dt_year dt) (dt_month dt) (dt_day dt) (dt_hour dt) (dt_minute dt)
    (dt_second dt) (dt_tzname dt) (dt_utcoffset dt).
Proof.
  intros Hy Hoff Hmin. unfold strftime_full, timestamp_text.
  destruct (dt_fields_valid dt) as (Hm & Hd & Hh & Hmi & Hs).
  rewrite str_of_Z_four_digits by exact Hy.
  rewrite !zpad2_two_digits by lia.
  rewrite format_offset_hhmm by assumption.
  reflexivity.
Qed.

(** ** The time tool *)

Lemma get_current_time_match `{PyRuntime} (query : str) (w : World) :
  py_in (lit "sf") (lower query) || py_in (lit "san francisco") (lower query) = true ->
  fst (get_current_time query w) =
  lit "The current time for query " ++ query ++ lit " is " ++
  strftime_full (datetime_of_reading (ZoneInfo (lit "America/Los_Angeles"))
                   (clock w (clock_reads w))).
Proof.
  intros Htest. unfold get_current_time. rewrite Htest. reflexivity.
Qed.

(** C4: for every input string, when the string contains "sf" or
    "san francisco" with case ignored, [get_current_time] returns a text
    that contains the present time of the America/Los_Angeles zone printed
    as YYYY-MM-DD HH:MM:SS <tz-abbrev><offset>; for every other string it
    returns "Sorry, I don't have timezone information for query: <query>."
    with the query as it was given (and reads no clock). *)
Theorem get_current_time_spec `{PyRuntime} (query : str) (w : World) :
  lower_table_ok ->
  (~ mentions_san_francisco query ->
   get_current_time query w =
   (lit "Sorry, I don't have timezone information for query: " ++ query ++ lit ".", w)) /\
  (mentions_san_francisco query ->
   let now := datetime_of_reading (ZoneInfo (lit "America/Los_Angeles"))
                (clock w (clock_reads w)) in
   1000 <= dt_year now <= 9999 ->
   Z.abs (dt_utcoffset now) < 86400 ->
   dt_utcoffset now mod 60 = 0 ->
   fst (get_current_time query w) =
     lit "The current time for query " ++ query ++ lit " is " ++
     timestamp_text (dt_year now) (dt_month now) (dt_day now) (dt_hour now) (dt_minute now)
       (dt_second now) (dt_tzname now) (dt_utcoffset now) /\
   valid_fields (dt_month now) (dt_day now) (dt_hour now) (dt_minute now) (dt_second now)).
Proof.
  intros Hok. split.
  - intros Hno. unfold get_current_time.
    rewrite (san_francisco_test_false query Hok Hno). reflexivity.
  - intros Hyes now Hy Hoff Hmin. split; [|apply dt_fields_valid].
    apply (san_francisco_test query Hok) in Hyes.
    rewrite (get_current_time_match query w Hyes).
    fold now. now rewrite strftime_full_text.
Qed.

Lemma get_current_time_spec_witness :
  fst (@get_current_time sample_runtime (lit "time in San Francisco") (sample_world 7 (fun _ => 0%N))) =
  lit "The current time for query time in San Francisco is 2025-11-04 01:53:20 PST-0800".
Proof.
  destruct (@get_current_time_spec sample_runtime (lit "time in San Francisco")
              (sample_world 7 (fun _ => 0%N)) sample_table_ok) as [_ Hyes].
  destruct Hyes as [Htext _].
  - right. exists (lit "time in "), (lit "San Francisco"), [].
    split; [reflexivity|].
    repeat (apply List.Forall2_cons;
            [first [left; reflexivity | right; left; split; reflexivity]|]).
    apply List.Forall2_nil.
  - vm_compute. split; discriminate.
  - vm_compute. reflexivity.
  - vm_compute. reflexivity.
  - rewrite Htext. vm_compute. reflexivity.
Defined.

(** ** Printed numbers read back *)

Lemma read_digits_app (ds rest : str) (acc : Z) :
  Forall (fun c => ((48 <=? c) && (c <=? 57))%N = true) ds ->
  read_digits (length ds) (ds ++ rest) acc =
  Some (fold_left (fun a c => 10 * a + Z.of_N (c - 48)) ds acc, rest).
Proof.
  intros Hds. revert acc. induction Hds as [|c ds Hc Hds IH]; intros acc; [reflexivity|].
  simpl. rewrite Hc. apply IH.
Qed.

Lemma digit_in_range (r : N) :
  (r < 10)%N -> ((48 <=? digit r) && (digit r <=? 57))%N = true.
Proof.
  intros Hr. unfold digit. apply andb_true_iff. split; apply N.leb_le; lia.
Qed.

Lemma digit_value (r : N) : Z.of_N (digit r - 48) = Z.of_N r.
Proof. unfold digit. lia. Qed.

Lemma read_digits_zeros (k m : nat) (s : str) :
  read_digits (k + m) (repeat (digit 0) k ++ s) 0 = read_digits m s 0.
Proof.
  induction k as [|k IH]; [reflexivity|]. simpl. exact IH.
Qed.

Lemma dec_digits_spec (fuel : nat) (n : N) (acc : str) :
  Z.of_N n < 10 ^ Z.of_nat fuel ->
  exists ds, dec_digits fuel n acc = ds ++ acc /\
    Forall (fun c => ((48 <=? c) && (c <=? 57))%N = true) ds /\
    (forall a, fold_left (fun a c => 10 * a + Z.of_N (c - 48)) ds a =
               a * 10 ^ Z.of_nat (length ds) + Z.of_N n) /\
    (forall w, (1 <= w)%nat -> Z.of_N n < 10 ^ Z.of_nat w -> (length ds <= w)%nat).
Proof.
  revert n acc. induction fuel as [|f IH]; intros n acc Hn.
  - exists []. simpl in *. repeat split; [constructor|intros; lia|intros; simpl; lia].
  - simpl. destruct (N.ltb_spec n 10) as [Hsmall|Hbig].
    + exists [digit (n mod 10)]. rewrite N.mod_small by exact Hsmall.
      repeat split.
      * constructor; [|constructor]. now apply digit_in_range.
      * intros a. simpl. rewrite digit_value. lia.
      * intros w Hw _. simpl. lia.
    + assert (Hdiv : Z.of_N (n / 10) < 10 ^ Z.of_nat f).
      { rewrite N2Z.inj_div. apply Z.div_lt_upper_bound; [lia|].
        rewrite Nat2Z.inj_succ, Z.pow_succ_r in Hn by lia. exact Hn. }
      destruct (IH (n / 10)%N (digit (n mod 10) :: acc) Hdiv) as (ds & Heq & Hdig & Hval & Hlen).
      exists (ds ++ [digit (n mod 10)]). repeat split.
      * rewrite Heq, <- app_assoc. reflexivity.
      * apply Forall_app. split; [exact Hdig|]. constructor; [|constructor].
        apply digit_in_range, N.mod_upper_bound. discriminate.
      * intros a. rewrite fold_left_app, Hval. simpl. rewrite digit_value.
        rewrite length_app. simpl length.
        rewrite Nat2Z.inj_add, Z.pow_add_r by lia. change (10 ^ Z.of_nat 1) with 10.
        rewrite N2Z.inj_div, N2Z.inj_mod.
        pose proof (Z.div_mod (Z.of_N n) 10 ltac:(lia)). change (Z.of_N 10) with 10. lia.
      * intros w Hw Hnw. rewrite length_app. simpl length.
        destruct w as [|[|w]]; [lia| |].
        -- change (10 ^ Z.of_nat 1) with 10 in Hnw. lia.
        -- assert (Hw' : (length ds <= S w)%nat).
           { apply Hlen; [lia|]. rewrite N2Z.inj_div. apply Z.div_lt_upper_bound; [lia|].
             rewrite (Nat2Z.inj_succ (S w)), Z.pow_succ_r in Hnw by lia. exact Hnw. }
           lia.
Qed.

Lemma str_of_N_fuel (n : N) : Z.of_N n < 10 ^ Z.of_nat (S (N.to_nat (N.log2 n))).
Proof.
  destruct (N.eq_dec n 0%N) as [-> | Hn]; [reflexivity|].
  assert (Hlog : (n < 2 ^ N.succ (N.log2 n))%N) by (apply N.log2_spec; lia).
  apply N2Z.inj_lt in Hlog. rewrite N2Z.inj_pow, N2Z.inj_succ in Hlog.
  rewrite Nat2Z.inj_succ, N_nat_Z.
  eapply Z.lt_le_trans; [exact Hlog|].
  apply Z.pow_le_mono_l. lia.
Qed.

Lemma read_digits_zpad (w : nat) (n : Z) (rest : str) :
  (1 <= w)%nat -> 0 <= n < 10 ^ Z.of_nat w ->
  read_digits w (zpad w n ++ rest) 0 = Some (n, rest).
Proof.
  intros Hw Hn. unfold zpad. destruct (Z.ltb_spec n 0) as [|_]; [lia|].
  unfold str_of_N.
  destruct (dec_digits_spec (S (N.to_nat (N.log2 (Z.to_N n)))) (Z.to_N n) []
              (str_of_N_fuel (Z.to_N n))) as (ds & Heq & Hdig & Hval & Hlen).
  rewrite Heq, app_nil_r. cbv zeta.
  assert (Hle : (length ds <= w)%nat) by (apply Hlen; [exact Hw|rewrite Z2N.id; lia]).
  rewrite <- app_assoc.
  replace w with ((w - length ds) + length ds)%nat at 1 by lia.
  rewrite read_digits_zeros, read_digits_app by exact Hdig.
  rewrite Hval, Z2N.id by lia. reflexivity.
Qed.

(** ** Calendar dates identify days *)

Lemma days_from_civil_from_days (days : Z) :
  let '(y, m, d) := civil_from_days days in days_from_civil y m d = days.
Proof.
  unfold civil_from_days, days_from_civil. cbv zeta.
  set (z := days + 719468).
  set (era := z / 146097).
  set (doe := z - era * 146097).
  assert (Hdoe : 0 <= doe < 146097) by (unfold doe, era; Z.div_mod_to_equations; lia).
  assert (Hz : days = era * 146097 + doe - 719468) by (unfold doe, z; lia).
  clearbody doe era. clear z.
  set (yoe := (doe - doe / 1460 + doe / 36524 - doe / 146096) / 365).
  assert (Hyoe : 0 <= yoe <= 399) by (unfold yoe; Z.div_mod_to_equations; lia).
  set (doy := doe - (365 * yoe + yoe / 4 - yoe / 100)).
  assert (Hdoy : 0 <= doy <= 365) by (unfold doy, yoe; Z.div_mod_to_equations; lia).
  assert (Hdoe2 : doe = yoe * 365 + yoe / 4 - yoe / 100 + doy) by (unfold doy; lia).
  clearbody doy.
  set (mp := (5 * doy + 2) / 153).
  assert (Hmp : 0 <= mp <= 11) by (unfold mp; Z.div_mod_to_equations; lia).
  clearbody mp yoe.
  destruct (Z.ltb_spec mp 10).
  - destruct (Z.leb_spec (mp + 3) 2); [lia|].
    replace (yoe + era * 400 + 0) with (era * 400 + yoe) by lia.
    replace ((era * 400 + yoe) / 400) with era by (Z.div_mod_to_equations; lia).
    replace (mp + 3 - 3) with mp by lia.
    replace (era * 400 + yoe - era * 400) with yoe by lia. lia.
  - destruct (Z.leb_spec (mp - 9) 2); [|lia].
    replace (yoe + era * 400 + 1 - 1) with (era * 400 + yoe) by lia.
    replace ((era * 400 + yoe) / 400) with era by (Z.div_mod_to_equations; lia).
    replace (mp - 9 + 9) with mp by lia.
    replace (era * 400 + yoe - era * 400) with yoe by lia. lia.
Qed.

Lemma dt_date_days (dt : datetime) :
  days_from_civil (dt_year dt) (dt_month dt) (dt_day dt) = dt_wall dt / us_per_day.
Proof.
  unfold dt_year, dt_month, dt_day, dt_date.
  pose proof (days_from_civil_from_days (dt_wall dt / us_per_day)) as Hrt.
  destruct (civil_from_days (dt_wall dt / us_per_day)) as [[y m] d]. exact Hrt.
Qed.

Lemma dt_wall_fields (dt : datetime) :
  days_from_civil (dt_year dt) (dt_month dt) (dt_day dt) * us_per_day +
  dt_hour dt * us_per_hour + dt_minute dt * (60 * us_per_second) +
  dt_second dt * us_per_second + dt_microsecond dt = dt_wall dt.
Proof.
  rewrite dt_date_days.
  unfold dt_hour, dt_minute, dt_second, dt_microsecond, us_per_day, us_per_hour, us_per_second.
  generalize (dt_wall dt). intros t. Z.div_mod_to_equations. lia.
Qed.

Lemma dt_microsecond_range (dt : datetime) : 0 <= dt_microsecond dt < 10 ^ Z.of_nat 6.
Proof.
  unfold dt_microsecond, us_per_second. change (10 ^ Z.of_nat 6) with 1000000.
  apply Z.mod_pos_bound. lia.
Qed.

(** ** ISO timestamps read back *)

Lemma format_offset_parse (off : Z) :
  Z.abs off < 86400 -> off mod 60 = 0 ->
  exists sgn oh om,
    format_offset (lit ":") off = sgn ++ zpad 2 oh ++ lit ":" ++ zpad 2 om /\
    (sgn = lit "+" /\ oh * 3600 + om * 60 = off \/ sgn = lit "-" /\ - (oh * 3600 + om * 60) = off) /\
    0 <= oh < 100 /\ 0 <= om < 100.
Proof.
  intros Hlt Hmin. unfold format_offset. cbv zeta.
  assert (Ha : Z.abs off mod 60 = 0).
  { destruct (Z.abs_spec off) as [[_ ->]|[_ ->]]; [exact Hmin|].
    apply Z.mod_divide in Hmin; [|lia]. apply Z.mod_divide; [lia|].
    now apply Z.divide_opp_r. }
  rewrite Ha. simpl (if 0 =? 0 then _ else _). rewrite app_nil_r.
  exists (if off <? 0 then lit "-" else lit "+"), (Z.abs off / 3600), (Z.abs off mod 3600 / 60).
  split; [reflexivity|].
  assert (Hsum : Z.abs off / 3600 * 3600 + Z.abs off mod 3600 / 60 * 60 = Z.abs off).
  { revert Ha. generalize (Z.abs off). intros a Ha. Z.div_mod_to_equations. lia. }
  pose proof (Z.abs_nonneg off) as Hnn.
  split; [|split].
  - destruct (Z.ltb_spec off 0); [right|left]; (split; [reflexivity|]); lia.
  - split; [apply Z.div_pos; lia|apply Z.div_lt_upper_bound; lia].
  - split; [apply Z.div_pos; [apply Z.mod_pos_bound|]; lia|].
    apply Z.div_lt_upper_bound; [lia|]. pose proof (Z.mod_pos_bound (Z.abs off) 3600). lia.
Qed.

Arguments zpad : simpl never.

Lemma prefix_of_app (p s : str) : prefix_of p (p ++ s) = true.
Proof. induction p as [|c p IH]; [reflexivity|]. simpl. now rewrite N.eqb_refl. Qed.

Lemma expect_app (p s : str) : expect p (p ++ s) = Some s.
Proof. unfold expect. now rewrite prefix_of_app, drop_app_length. Qed.

Lemma read2 (n : Z) (rest : str) :
  0 <= n < 100 -> read_digits 2 (zpad 2 n ++ rest) 0 = Some (n, rest).
Proof. intros Hn. apply read_digits_zpad; [lia|exact Hn]. Qed.

Ltac read_field :=
  first [ rewrite read2 by lia | rewrite expect_app ]; cbn [mbind option_bind].

Lemma parse_isoformat_isoformat (dt : datetime) :
  0 <= dt_year dt <= 9999 -> Z.abs (dt_utcoffset dt) < 86400 -> dt_utcoffset dt mod 60 = 0 ->
  parse_isoformat (isoformat dt) = Some (dt_instant dt).
Proof.
  intros Hy Hoff Hmin.
  destruct (dt_fields_valid dt) as (Hm & Hd & Hh & Hmi & Hs).
  pose proof (dt_microsecond_range dt) as Hus.
  pose proof (dt_wall_fields dt) as Hwall.
  destruct (format_offset_parse _ Hoff Hmin) as (sgn & oh & om & Hfmt & Hsgn & Hoh & Hom).
  unfold parse_isoformat, isoformat, dt_instant. rewrite Hfmt.
  rewrite read_digits_zpad by (try change (10 ^ Z.of_nat 4) with 10000; lia).
  cbn [mbind option_bind]. do 10 read_field.
  rewrite <- (app_nil_r (zpad 2 om)).
  assert (Hplus : forall s, expect (lit "+") (lit "-" ++ s) = None) by reflexivity.
  destruct (Z.eqb_spec (dt_microsecond dt) 0) as [Hz|Hnz].
  - rewrite Hz in Hwall. rewrite app_nil_l.
    destruct Hsgn as [[-> Hsum]|[-> Hsum]].
    + change (expect (lit ".") (lit "+" ++ ?s)) with (@None str).
      cbn [mbind option_bind]. do 4 read_field.
      f_equal. unfold us_per_day, us_per_hour, us_per_second in *. lia.
    + change (expect (lit ".") (lit "-" ++ ?s)) with (@None str).
      cbn [mbind option_bind]. rewrite Hplus, expect_app.
      cbn [fmap option_fmap option_map mbind option_bind]. do 3 read_field.
      f_equal. unfold us_per_day, us_per_hour, us_per_second in *. lia.
  - rewrite <- app_assoc, expect_app.
    rewrite read_digits_zpad by (try exact Hus; lia). cbn [mbind option_bind].
    destruct Hsgn as [[-> Hsum]|[-> Hsum]].
    + do 4 read_field.
      f_equal. unfold us_per_day, us_per_hour, us_per_second in *. lia.
    + rewrite Hplus, expect_app.
      cbn [fmap option_fmap option_map mbind option_bind]. do 3 read_field.
      f_equal. unfold us_per_day, us_per_hour, us_per_second in *. lia.
Qed.

Lemma civil_year_range (days : Z) :
  -719162 <= days <= 2932896 -> 1 <= fst (fst (civil_from_days days)) <= 9999.
Proof.
  intros Hd. unfold civil_from_days. cbv zeta. cbn [fst snd].
  set (z := days + 719468).
  set (era := z / 146097).
  set (doe := z - era * 146097).
  assert (Hdoe : 0 <= doe < 146097) by (unfold doe, era; Z.div_mod_to_equations; lia).
  assert (Hz : z = era * 146097 + doe) by (unfold doe; lia).
  assert (Hzr : 306 <= z <= 3652364) by (unfold z; lia).
  assert (Hera : 0 <= era <= 24) by (unfold era; Z.div_mod_to_equations; lia).
  clearbody doe era z.
  set (yoe := (doe - doe / 1460 + doe / 36524 - doe / 146096) / 365).
  assert (Hyoe : 0 <= yoe <= 399) by (unfold yoe; Z.div_mod_to_equations; lia).
  set (doy := doe - (365 * yoe + yoe / 4 - yoe / 100)).
  assert (Hdoy : 0 <= doy <= 365) by (unfold doy, yoe; Z.div_mod_to_equations; lia).
  set (mp := (5 * doy + 2) / 153).
  assert (Hmp : 0 <= mp <= 11) by (unfold mp; Z.div_mod_to_equations; lia).
  assert (Hlow : era = 0 -> yoe = 0 -> 10 <= mp).
  { intros He Hy0. unfold mp, doy. rewrite Hy0. unfold yoe in Hy0. Z.div_mod_to_equations. lia. }
  assert (Hhigh : era = 24 -> yoe = 399 -> mp < 10).
  { intros He Hy0. unfold mp, doy. rewrite Hy0. unfold yoe in Hy0. Z.div_mod_to_equations. lia. }
  assert (Hcap : era = 24 -> yoe <= 399) by lia.
  clearbody mp yoe.
  destruct (Z.ltb_spec mp 10).
  - destruct (Z.leb_spec (mp + 3) 2); [lia|]. lia.
  - destruct (Z.leb_spec (mp - 9) 2); [|lia]. lia.
Qed.

(** ** The equipment tool *)

Lemma randbelow_run (n : N) (w : World) :
  randbelow n w = ((random_src w (random_draws w) mod n)%N, advance w 0 1).
Proof. reflexivity. Qed.

Lemma read_clock_run (w : World) :
  read_clock w = (clock w (clock_reads w), advance w 1 0).
Proof. reflexivity. Qed.

Lemma advance_advance (w : World) (a b c d : nat) :
  advance (advance w a b) c d = advance w (a + c) (b + d).
Proof.
  unfold advance. simpl. f_equal; lia.
Qed.

Lemma draw_below (d : N) (n : nat) : n <> O -> (N.to_nat (d mod N.of_nat n) < n)%nat.
Proof.
  intros Hn. pose proof (N.mod_upper_bound d (N.of_nat n) ltac:(lia)) as Hlt.
  revert Hlt. generalize (d mod N.of_nat n)%N. intros r Hr. lia.
Qed.

Lemma equipment_state_object_run (equipment_id : str) (w : World) :
  equipment_state_object equipment_id w =
  (nth (N.to_nat (random_src w (random_draws w) mod 4)) (states equipment_id) (JDict []),
   advance w 0 1).
Proof.
  unfold equipment_state_object, random_choice, bind, ret. rewrite randbelow_run. reflexivity.
Qed.

Lemma get_equipment_state_dumps (equipment_id : str) (w : World) :
  fst (get_equipment_state equipment_id w) =
  json_dumps 2 (fst (equipment_state_object equipment_id w)).
Proof.
  unfold get_equipment_state, bind, ret.
  destruct (equipment_state_object equipment_id w) as [obj w']. reflexivity.
Qed.

Lemma states_cases (equipment_id : str) (k : nat) (P : json -> Prop) :
  (k < 4)%nat ->
  P (nth 0 (states equipment_id) (JDict [])) -> P (nth 1 (states equipment_id) (JDict [])) ->
  P (nth 2 (states equipment_id) (JDict [])) -> P (nth 3 (states equipment_id) (JDict [])) ->
  P (nth k (states equipment_id) (JDict [])).
Proof.
  intros Hk P0 P1 P2 P3. destruct k as [|[|[|[|k]]]]; try assumption. lia.
Qed.

(** Each of the four states carries the identifier it was built with. *)
Lemma states_equipment_id (equipment_id : str) (k : nat) :
  (k < 4)%nat ->
  field (nth k (states equipment_id) (JDict [])) (lit "equipment_id") = Some (JStr equipment_id).
Proof.
  intros Hk. apply states_cases; [exact Hk| | | |]; reflexivity.
Qed.

(** ** The error-log tool *)

Lemma entry_items (k : nat) (stamp ident : json) :
  (k < 3)%nat ->
  dict_of ([(lit "timestamp", stamp); (lit "equipment_id", ident)] ++ nth k errors []) =
  [(lit "timestamp", stamp); (lit "equipment_id", ident)] ++ nth k errors [] /\
  In (dict_get (nth k errors []) (lit "code"), dict_get (nth k errors []) (lit "severity"),
      dict_get (nth k errors []) (lit "message")) fixed_triples.
Proof.
  intros Hk. destruct k as [|[|[|k]]]; [| | |lia]; (split; [reflexivity|]).
  - left. reflexivity.
  - right; left. reflexivity.
  - right; right; left. reflexivity.
Qed.

Section ErrorLogs.
Context `{PyRuntime}.

Lemma log_entry_run (equipment_id : str) (i : nat) (w : World) :
  log_entry equipment_id i w =
  (make_entry equipment_id i (clock w (clock_reads w)) (random_src w (random_draws w)),
   advance w 1 1).
Proof.
  unfold log_entry, datetime_now, random_choice, bind, ret.
  rewrite read_clock_run, randbelow_run, advance_advance. reflexivity.
Qed.

Lemma for_each_log_entry (equipment_id : str) (n a : nat) (w : World) :
  for_each (log_entry equipment_id) (seq a n) w =
  (map (fun j => make_entry equipment_id (a + j) (clock w (clock_reads w + j))
                   (random_src w (random_draws w + j))) (seq 0 n),
   advance w n n).
Proof.
  revert a w. induction n as [|n IH]; intros a w.
  - simpl. unfold ret, advance. cbn [Nat.add]. now destruct w.
  - cbn [seq for_each map]. unfold bind at 1. rewrite log_entry_run.
    unfold bind at 1. rewrite IH, advance_advance. unfold ret.
    rewrite !Nat.add_0_r. f_equal. f_equal.
    rewrite <- seq_shift, map_map. apply map_ext. intros j.
    cbn [advance clock clock_reads random_src random_draws].
    f_equal; [lia|f_equal; lia|f_equal; lia].
Qed.

(** The entry of index [i] of a call that starts in world [w]. *)
Lemma error_logs_object_run (equipment_id : str) (hours : Z) (w : World) :
  let n := N.to_nat (random_src w (random_draws w) mod 4) in
  error_logs_object equipment_id hours w =
  (JDict [(lit "equipment_id", JStr equipment_id);
          (lit "total_errors", JInt (Z.of_nat n));
          (lit "logs",
           JList (map (fun j => make_entry equipment_id j (clock w (clock_reads w + j))
                                  (random_src w (random_draws w + S j))) (seq 0 n)))],
   advance w n (S n)).
Proof.
  intros n. unfold error_logs_object, randint, bind, ret.
  rewrite randbelow_run. change (Z.to_N (3 - 0 + 1)) with 4%N.
  replace (Z.to_nat (0 + Z.of_N (random_src w (random_draws w) mod 4))) with n by lia.
  rewrite for_each_log_entry, advance_advance.
  cbn [advance clock clock_reads random_src random_draws].
  rewrite length_map, length_seq.
  rewrite (map_ext _ (fun j => make_entry equipment_id j (clock w (clock_reads w + j))
                                 (random_src w (random_draws w + S j))))
    by (intros j; cbn [Nat.add]; do 2 f_equal; lia).
  reflexivity.
Qed.

Lemma get_error_logs_dumps (equipment_id : str) (hours : Z) (w : World) :
  fst (get_error_logs equipment_id hours w) =
  json_dumps 2 (fst (error_logs_object equipment_id hours w)).
Proof.
  unfold get_error_logs, bind, ret.
  destruct (error_logs_object equipment_id hours w) as [obj w']. reflexivity.
Qed.

Lemma logs_of_run (equipment_id : str) (hours : Z) (w : World) :
  logs_of (fst (error_logs_object equipment_id hours w)) =
  map (fun j => make_entry equipment_id j (clock w (clock_reads w + j))
                  (random_src w (random_draws w + S j)))
      (seq 0 (N.to_nat (random_src w (random_draws w) mod 4))).
Proof.
  pose proof (error_logs_object_run equipment_id hours w) as Hrun. cbv zeta in Hrun.
  rewrite Hrun. reflexivity.
Qed.

Lemma logs_of_lookup (equipment_id : str) (hours : Z) (w : World) (i : nat) (e : json) :
  logs_of (fst (error_logs_object equipment_id hours w)) !! i = Some e ->
  (i < 4)%nat /\ (i < N.to_nat (random_src w (random_draws w) mod 4))%nat /\
  e = make_entry equipment_id i (clock w (clock_reads w + i))
        (random_src w (random_draws w + S i)).
Proof.
  rewrite logs_of_run, list_lookup_fmap. intros He.
  destruct (seq 0 _ !! i) as [j|] eqn:Hj; [|discriminate].
  apply lookup_seq in Hj as [-> Hlt]. cbn in He. injection He as <-.
  pose proof (draw_below (random_src w (random_draws w)) 4 ltac:(discriminate)) as Hn.
  change (N.of_nat 4) with 4%N in Hn. repeat split; lia.
Qed.

Lemma make_entry_fields (equipment_id : str) (i : nat) (reading : Z) (draw : N) :
  field (make_entry equipment_id i reading draw) (lit "equipment_id") = Some (JStr equipment_id) /\
  field (make_entry equipment_id i reading draw) (lit "timestamp") =
    Some (JStr (isoformat (dt_sub (datetime_of_reading (ZoneInfo (lit "UTC")) reading)
                                  (timedelta_hours (Z.of_nat i))))) /\
  In (error_triple (make_entry equipment_id i reading draw)) fixed_triples.
Proof.
  unfold make_entry, error_triple.
  pose proof (draw_below draw 3 ltac:(discriminate)) as Hk. change (N.of_nat 3) with 3%N in Hk.
  destruct (entry_items (N.to_nat (draw mod 3))
              (JStr (isoformat (dt_sub (datetime_of_reading (ZoneInfo (lit "UTC")) reading)
                                       (timedelta_hours (Z.of_nat i)))))
              (JStr equipment_id) Hk) as [Hitems Htriple].
  rewrite Hitems. repeat split; try reflexivity. exact Htriple.
Qed.

End ErrorLogs.

Lemma sample_utc_ok : @utc_zone_ok sample_runtime.
Proof. split; reflexivity. Qed.

Section ErrorLogTimes.
Context `{PyRuntime}.
Hypothesis utc_ok : utc_zone_ok.

Lemma entry_instant (reading : Z) (i : nat) :
  (i < 4)%nat -> datetime_min + 3 * us_per_hour <= reading <= datetime_max ->
  parse_isoformat (isoformat (dt_sub (datetime_of_reading (ZoneInfo (lit "UTC")) reading)
                                     (timedelta_hours (Z.of_nat i)))) =
  Some (reading - Z.of_nat i * us_per_hour).
Proof.
  intros Hi Hr. destruct utc_ok as [Hfrom Hoff].
  set (dt := dt_sub (datetime_of_reading (ZoneInfo (lit "UTC")) reading)
                    (timedelta_hours (Z.of_nat i))).
  assert (Hwall : dt_wall dt = reading - Z.of_nat i * us_per_hour).
  { unfold dt, dt_sub, datetime_of_reading, timedelta_hours. cbn [dt_wall].
    rewrite Hfrom. reflexivity. }
  assert (Hzero : dt_utcoffset dt = 0).
  { unfold dt_utcoffset, dt, dt_sub, datetime_of_reading. cbn [dt_tz]. apply Hoff. }
  assert (Hyear : 1 <= dt_year dt <= 9999).
  { unfold dt_year, dt_date. apply civil_year_range. rewrite Hwall.
    revert Hr. unfold datetime_min, datetime_max.
    change (days_from_civil 1 1 1) with (-719162).
    change (days_from_civil 10000 1 1) with 2932897.
    unfold us_per_day, us_per_hour, us_per_second. intros Hr.
    split; [apply Z.div_le_lower_bound; lia|].
    apply Z.lt_succ_r. apply Z.div_lt_upper_bound; lia. }
  rewrite parse_isoformat_isoformat; [|lia|rewrite Hzero; simpl; lia|now rewrite Hzero].
  unfold dt_instant. rewrite Hzero, Hwall. f_equal. lia.
Qed.

End ErrorLogTimes.

(** C8: the result of [get_error_logs] is the same for all values of
    [hours], given the same identifier, random draws and clock. *)
Theorem get_error_logs_ignores_hours `{PyRuntime} (equipment_id : str) (hours1 hours2 : Z)
    (w : World) :
  get_error_logs equipment_id hours1 w = get_error_logs equipment_id hours2 w.
Proof.
  unfold get_error_logs, bind.
  pose proof (error_logs_object_run equipment_id hours1 w) as H1.
  pose proof (error_logs_object_run equipment_id hours2 w) as H2.
  cbv zeta in H1, H2. rewrite H1, H2. reflexivity.
Qed.

(** ** The profile switch *)

(** C1: the flag selects exactly two outcomes.  Off: the generic
    helpful-assistant instruction and the tools [get_weather],
    [get_current_time].  On: the diagnostic instruction (call a diagnostic
    tool, then ask a follow-up question that refers to the returned values)
    and the tools [get_weather], [get_current_time], [get_equipment_state],
    [get_error_logs], in that order. *)
Theorem select_profile_outcomes :
  agent_instruction false =
    lit "You are a helpful AI assistant designed to provide accurate and useful information." /\
  map tool_name (agent_tools false) = [lit "get_weather"; lit "get_current_time"] /\
  agent_instruction true = diagnostic_instruction /\
  prefix_of (lit "You are a diagnostic assistant helping troubleshoot equipment.")
    (agent_instruction true) = true /\
  py_in (lit "1. Call the appropriate diagnostic tool (get_equipment_state, get_error_logs)")
    (agent_instruction true) = true /\
  py_in (lit "2. After receiving tool results, ask a specific follow-up question based on the data")
    (agent_instruction true) = true /\
  py_in (lit "3. Reference actual values from the tool response in your question")
    (agent_instruction true) = true /\
  length (agent_instruction true) = 615%nat /\
  map tool_name (agent_tools true) =
    [lit "get_weather"; lit "get_current_time"; lit "get_equipment_state"; lit "get_error_logs"] /\
  agent_instruction true <> agent_instruction false /\
  (forall flag, select_profile flag = select_profile false \/
                select_profile flag = select_profile true).
Proof.
  repeat split; try (vm_compute; reflexivity).
  - vm_compute. discriminate.
  - intros [|]; [right|left]; reflexivity.
Qed.

Lemma module_body_agent (flag : bool) (w : World) :
  fst (module_body flag w) =
  {| agent_name := lit "root_agent"; agent_model := lit "gemini-2.5-flash";
     instruction := agent_instruction flag; tools := agent_tools flag |}.
Proof.
  unfold module_body, bind, google_auth_default, environ_setdefault, ret.
  repeat match goal with
         | |- context [match env_lookup ?e ?k with _ => _ end] => destruct (env_lookup e k)
         end; reflexivity.
Qed.

(** C2: the selection depends on the flag alone.  Two runs of the module
    with the same flag, in any two states of the world (clock, generator,
    environment, credentials), give the same instruction text and the same
    tool names, which are those of [select_profile]. *)
Theorem select_profile_deterministic (flag : bool) (w1 w2 : World) :
  instruction (fst (module_body flag w1)) = instruction (fst (module_body flag w2)) /\
  map tool_name (tools (fst (module_body flag w1))) =
    map tool_name (tools (fst (module_body flag w2))) /\
  instruction (fst (module_body flag w1)) = fst (select_profile flag) /\
  tools (fst (module_body flag w1)) = snd (select_profile flag).
Proof.
  rewrite !module_body_agent. repeat split; reflexivity.
Qed.

(** ** The tool registry *)

Section Registry.
Import ToolRegistry.

(** C7, amended: [register] fails with [DuplicateToolError] on a name
    already present and otherwise adds the tool, leaving the other names as
    they were; [invoke] fails with [UnknownToolError] on a name that is not
    registered, fails with [InvalidArgumentError] on a registered name
    whose arguments violate the declared contract, and calls the registered
    handler on the arguments in the one remaining case. *)
Theorem registry_register_invoke (name : str) (argument_spec : list arg_decl)
    (handler : gmap str arg_value -> M str) (args : gmap str arg_value)
    (reg : gmap str entry) (w : World) :
  (is_Some (reg !! name) ->
     register name argument_spec handler reg = inl (DuplicateToolError name)) /\
  (reg !! name = None ->
     exists reg', register name argument_spec handler reg = inr reg' /\
       reg' !! name = Some {| entry_spec := argument_spec; entry_handler := handler |} /\
       forall other, other <> name -> reg' !! other = reg !! other) /\
  (reg !! name = None -> invoke name args reg w = (inl (UnknownToolError name), w)) /\
  (forall e, reg !! name = Some e -> valid_args (entry_spec e) args = true ->
     invoke name args reg w = (inr (fst (entry_handler e args w)), snd (entry_handler e args w))) /\
  (forall e, reg !! name = Some e -> valid_args (entry_spec e) args = false ->
     invoke name args reg w = (inl (InvalidArgumentError name), w)).
Proof.
  unfold register, invoke. repeat split.
  - intros [e He]. now rewrite He.
  - intros Hnone. rewrite Hnone. eexists. split; [reflexivity|]. split.
    + apply lookup_insert_eq.
    + intros other Hne. now apply lookup_insert_ne.
  - intros Hnone. now rewrite Hnone.
  - intros e He Hvalid. rewrite He, Hvalid. unfold bind, ret.
    now destruct (entry_handler e args w).
  - intros e He Hinvalid. now rewrite He, Hinvalid.
Qed.

Lemma registry_register_invoke_witness :
  exists reg,
    @register_all sample_runtime [Tool_get_weather; Tool_get_current_time] ∅ = inr reg /\
    register (lit "get_weather") [] (fun _ => ret []) reg =
      inl (DuplicateToolError (lit "get_weather")) /\
    fst (invoke (lit "get_weather") {[ lit "query" := VStr (lit "SF") ]} reg
           (sample_world 7 (draws_of []))) = inr foggy /\
    fst (invoke (lit "get_error_logs") ∅ reg (sample_world 7 (draws_of []))) =
      inl (UnknownToolError (lit "get_error_logs")).
Proof.
  eexists. split; [reflexivity|].
  set (reg := <[tool_name Tool_get_current_time :=
                  {| entry_spec := entry_spec (@tool_entry sample_runtime Tool_get_current_time);
                     entry_handler := entry_handler (@tool_entry sample_runtime Tool_get_current_time) |}]>
              (<[tool_name Tool_get_weather :=
                  {| entry_spec := entry_spec (@tool_entry sample_runtime Tool_get_weather);
                     entry_handler := entry_handler (@tool_entry sample_runtime Tool_get_weather) |}]> ∅)).
  assert (Hw : reg !! lit "get_weather" = Some (@tool_entry sample_runtime Tool_get_weather))
    by (vm_compute; reflexivity).
  assert (He : reg !! lit "get_error_logs" = None) by (vm_compute; reflexivity).
  split; [|split].
  - apply (registry_register_invoke (lit "get_weather") [] (fun _ => ret []) ∅ reg
             (sample_world 7 (draws_of []))).
    rewrite Hw. eauto.
  - destruct (registry_register_invoke (lit "get_weather") [] (fun _ => ret [])
                {[ lit "query" := VStr (lit "SF") ]} reg (sample_world 7 (draws_of [])))
      as (_ & _ & _ & Hcall & _).
    rewrite (Hcall _ Hw); [|vm_compute; reflexivity]. vm_compute. reflexivity.
  - destruct (registry_register_invoke (lit "get_error_logs") [] (fun _ => ret []) ∅ reg
                (sample_world 7 (draws_of []))) as (_ & _ & Hunknown & _).
    rewrite (Hunknown He). reflexivity.
Defined.

(** C7 as stated fails: "in all other cases" includes a registered name
    invoked with arguments that violate its contract.  [get_weather] is
    registered with a required [query]; invoked without it, the handler is
    not called and the call is refused with [InvalidArgumentError]. *)
Lemma registry_invoke_counterexample :
  exists reg,
    @register_all sample_runtime [Tool_get_weather; Tool_get_current_time] ∅ = inr reg /\
    reg !! lit "get_weather" = Some (@tool_entry sample_runtime Tool_get_weather) /\
    invoke (lit "get_weather") ∅ reg (sample_world 7 (draws_of [])) =
      (inl (InvalidArgumentError (lit "get_weather")), sample_world 7 (draws_of [])) /\
    fst (invoke (lit "get_weather") ∅ reg (sample_world 7 (draws_of []))) <>
      inr (fst (entry_handler (@tool_entry sample_runtime Tool_get_weather) ∅
                  (sample_world 7 (draws_of [])))).
Proof.
  eexists. split; [reflexivity|].
  split; [vm_compute; reflexivity|]. split; [reflexivity|].
  intros Heq. vm_compute in Heq. discriminate Heq.
Qed.

End Registry.

(** * Further properties of the tools *)

(** ** Weather and time answer the same queries *)

Lemma py_in_middle (p a b : str) : py_in p (a ++ p ++ b) = true.
Proof.
  apply py_in_app_r. rewrite py_in_unfold, prefix_of_app. reflexivity.
Qed.

Lemma get_current_time_run `{PyRuntime} (query : str) (w : World) :
  get_current_time query w =
  if py_in (lit "sf") (lower query) || py_in (lit "san francisco") (lower query)
  then (lit "The current time for query " ++ query ++ lit " is " ++
        strftime_full (datetime_of_reading (ZoneInfo (lit "America/Los_Angeles"))
                         (clock w (clock_reads w))),
        advance w 1 0)
  else (lit "Sorry, I don't have timezone information for query: " ++ query ++ lit ".", w).
Proof.
  unfold get_current_time.
  destruct (py_in (lit "sf") (lower query) || py_in (lit "san francisco") (lower query));
    reflexivity.
Qed.

(** X1: the two lookup tools recognise the same queries.  A query that
    [get_weather] answers with the foggy text makes [get_current_time] read
    the clock once and print the time; a query that it answers with the
    sunny text makes [get_current_time] decline and leave the world as it
    was. *)
Theorem weather_time_same_queries `{PyRuntime} (query : str) (w : World) :
  (get_weather query = lit "It's 60 degrees and foggy." /\
   get_current_time query w =
   (lit "The current time for query " ++ query ++ lit " is " ++
    strftime_full (datetime_of_reading (ZoneInfo (lit "America/Los_Angeles"))
                     (clock w (clock_reads w))),
    advance w 1 0)) \/
  (get_weather query = lit "It's 90 degrees and sunny." /\
   get_current_time query w =
   (lit "Sorry, I don't have timezone information for query: " ++ query ++ lit ".", w)).
Proof.
  rewrite get_current_time_run. unfold get_weather.
  destruct (py_in (lit "sf") (lower query) || py_in (lit "san francisco") (lower query)).
  - left. split; reflexivity.
  - right. split; reflexivity.
Qed.

(** X2: whatever it answers, [get_current_time] repeats the query in its
    text as it was given. *)
Theorem get_current_time_echoes_query `{PyRuntime} (query : str) (w : World) :
  py_in query (fst (get_current_time query w)) = true.
Proof.
  rewrite get_current_time_run.
  destruct (py_in (lit "sf") (lower query) || py_in (lit "san francisco") (lower query));
    cbn [fst]; apply py_in_middle.
Qed.

(** ** Case and context of a query *)

Lemma same_letter_lower (a b : N) : same_letter a b <-> ascii_lower a = ascii_lower b.
Proof.
  unfold same_letter, ascii_lower, is_ascii_upper. split.
  - intros [-> | [[Ha ->] | [Hb ->]]]; [reflexivity| |].
    + rewrite Ha. destruct ((65 <=? a + 32) && (a + 32 <=? 90))%N eqn:Hu; [|reflexivity].
      apply andb_true_iff in Ha as [Ha _], Hu as [_ Hu].
      apply N.leb_le in Ha, Hu. lia.
    + rewrite Hb. destruct ((65 <=? b + 32) && (b + 32 <=? 90))%N eqn:Hu; [|reflexivity].
      apply andb_true_iff in Hb as [Hb _], Hu as [_ Hu].
      apply N.leb_le in Hb, Hu. lia.
  - destruct ((65 <=? a) && (a <=? 90))%N eqn:Ha, ((65 <=? b) && (b <=? 90))%N eqn:Hb;
      intros Heq.
    + left. lia.
    + right; left. split; [reflexivity|]. now symmetry.
    + right; right. split; [reflexivity|exact Heq].
    + now left.
Qed.

Lemma same_letters_trans (w w' pat : str) :
  Forall2 same_letter w w' -> Forall2 same_letter w pat -> Forall2 same_letter w' pat.
Proof.
  intros Hww. revert pat. induction Hww as [|a b w w' Hab Hww IH]; intros pat Hp.
  - inversion Hp. constructor.
  - inversion Hp as [|a0 p w0 pat' Hap Hrest]; subst. constructor; [|now apply IH].
    apply same_letter_lower. apply same_letter_lower in Hab, Hap. congruence.
Qed.

Lemma ci_occurs_same_letters (pat q q' : str) :
  Forall2 same_letter q q' -> ci_occurs pat q -> ci_occurs pat q'.
Proof.
  intros Hqq (pre & w & post & -> & Hw).
  apply List.Forall2_app_inv_l in Hqq as (pre' & rest' & _ & Hrest & ->).
  apply List.Forall2_app_inv_l in Hrest as (w' & post' & Hww & _ & ->).
  exists pre', w', post'. split; [reflexivity|]. now apply (same_letters_trans w).
Qed.

Lemma same_letters_sym (q q' : str) : Forall2 same_letter q q' -> Forall2 same_letter q' q.
Proof.
  induction 1 as [|a b q q' Hab _ IH]; constructor; [|exact IH].
  apply same_letter_lower. apply same_letter_lower in Hab. congruence.
Qed.

Lemma ci_occurs_context (pat q a b : str) : ci_occurs pat q -> ci_occurs pat (a ++ q ++ b).
Proof.
  intros (pre & w & post & -> & Hw). exists (a ++ pre), w, (post ++ b).
  split; [|exact Hw]. now rewrite <- !app_assoc.
Qed.

Lemma foggy_mentions `{PyRuntime} (query : str) :
  lower_table_ok -> get_weather query = foggy -> mentions_san_francisco query.
Proof.
  intros Hok Hfog. apply (san_francisco_test query Hok). unfold get_weather in Hfog.
  destruct (py_in (lit "sf") (lower query) || py_in (lit "san francisco") (lower query));
    [reflexivity|]. vm_compute in Hfog. discriminate Hfog.
Qed.

Lemma mentions_foggy `{PyRuntime} (query : str) :
  lower_table_ok -> mentions_san_francisco query -> get_weather query = foggy.
Proof.
  intros Hok Hm. unfold get_weather. apply (san_francisco_test query Hok) in Hm.
  now rewrite Hm.
Qed.

(** X3: the answer of [get_weather] does not change when letters of the
    query change case: two queries that agree letter by letter up to the
    case of ASCII letters get the same answer. *)
Theorem get_weather_ignores_case `{PyRuntime} (query query' : str) :
  lower_table_ok -> Forall2 same_letter query query' ->
  get_weather query = get_weather query'.
Proof.
  intros Hok Hsame.
  assert (Hiff : mentions_san_francisco query <-> mentions_san_francisco query').
  { unfold mentions_san_francisco. split; intros [Hm|Hm].
    - left. now apply (ci_occurs_same_letters _ query).
    - right. now apply (ci_occurs_same_letters _ query).
    - left. apply (ci_occurs_same_letters _ query'); [now apply same_letters_sym|exact Hm].
    - right. apply (ci_occurs_same_letters _ query'); [now apply same_letters_sym|exact Hm]. }
  unfold get_weather at 1.
  destruct (py_in (lit "sf") (lower query) || py_in (lit "san francisco") (lower query)) eqn:Ht.
  - symmetry. apply (mentions_foggy query' Hok), Hiff, (san_francisco_test query Hok), Ht.
  - unfold get_weather.
    destruct (py_in (lit "sf") (lower query') || py_in (lit "san francisco") (lower query'))
      eqn:Ht'; [|reflexivity].
    apply (san_francisco_test query' Hok), Hiff, (san_francisco_test query Hok) in Ht'.
    congruence.
Qed.

Lemma get_weather_ignores_case_witness :
  @get_weather sample_runtime (lit "weather in SAN Francisco") =
  @get_weather sample_runtime (lit "Weather in san francisco").
Proof.
  apply (@get_weather_ignores_case sample_runtime _ _ sample_table_ok).
  repeat (apply List.Forall2_cons;
          [first [left; reflexivity | right; left; split; reflexivity
                 | right; right; split; reflexivity]|]).
  apply List.Forall2_nil.
Defined.

(** X4: a query that is recognised stays recognised inside a longer text:
    when [get_weather] gives the foggy answer for a query, it gives it for
    every text that contains the query. *)
Theorem get_weather_foggy_in_context `{PyRuntime} (query before after : str) :
  lower_table_ok -> get_weather query = lit "It's 60 degrees and foggy." ->
  get_weather (before ++ query ++ after) = lit "It's 60 degrees and foggy.".
Proof.
  intros Hok Hfog. apply (mentions_foggy _ Hok).
  destruct (foggy_mentions query Hok Hfog) as [Hm|Hm]; [left|right];
    now apply ci_occurs_context.
Qed.

Lemma get_weather_foggy_in_context_witness :
  @get_weather sample_runtime (lit "Is it cold in " ++ lit "SF" ++ lit " tonight?") =
  lit "It's 60 degrees and foggy.".
Proof.
  apply (@get_weather_foggy_in_context sample_runtime (lit "SF") _ _ sample_table_ok).
  vm_compute. reflexivity.
Defined.

(** ** What the diagnostic tools use of the world *)

(** X5: [get_equipment_state] draws once and reads no clock, and its text
    is settled by the identifier and the draw modulo four: two worlds whose
    next draws agree modulo four give the same text, whatever their clocks
    and environments. *)
Theorem get_equipment_state_one_draw (equipment_id : str) (w1 w2 : World) :
  (random_src w1 (random_draws w1) mod 4 = random_src w2 (random_draws w2) mod 4)%N ->
  fst (get_equipment_state equipment_id w1) = fst (get_equipment_state equipment_id w2) /\
  snd (get_equipment_state equipment_id w1) = advance w1 0 1.
Proof.
  intros Hdraw. unfold get_equipment_state, bind, ret.
  rewrite !equipment_state_object_run, Hdraw. split; reflexivity.
Qed.

Lemma get_equipment_state_one_draw_witness :
  fst (get_equipment_state (lit "motor-2") (sample_world 7 (draws_of [1]%N))) =
  fst (get_equipment_state (lit "motor-2") (sample_world 3600 (draws_of [5; 9]%N))).
Proof.
  apply (get_equipment_state_one_draw (lit "motor-2")
           (sample_world 7 (draws_of [1]%N)) (sample_world 3600 (draws_of [5; 9]%N))).
  reflexivity.
Defined.

(** X6: for every identifier and every draw, the state object has an empty
    [alerts] list exactly when its status is running, an [error_code]
    exactly when its status is error, a [pressure_psi] exactly when its
    status is running, and always a [state] and a [temperature_celsius]. *)
Theorem equipment_state_fields (equipment_id : str) (w : World) :
  let obj := fst (equipment_state_object equipment_id w) in
  exists status,
    field obj (lit "status") = Some (JStr status) /\
    (field obj (lit "alerts") = Some (JList []) <-> status = lit "running") /\
    (is_Some (field obj (lit "error_code")) <-> status = lit "error") /\
    (is_Some (field obj (lit "pressure_psi")) <-> status = lit "running") /\
    is_Some (field obj (lit "state")) /\
    (exists tenths, field obj (lit "temperature_celsius") = Some (JFloat tenths)) /\
    (exists alerts, field obj (lit "alerts") = Some (JList alerts)).
Proof.
  intros obj. subst obj. rewrite equipment_state_object_run. cbn [fst].
  apply states_cases; [apply (draw_below _ 4); discriminate| | | |].
  - exists (lit "running"). repeat split; try reflexivity; try (intros _; reflexivity);
      try (intros _; eexists; reflexivity); try (eexists; reflexivity).
    + intros [x Hx]. discriminate Hx.
    + intros Hs. vm_compute in Hs. discriminate Hs.
  - exists (lit "maintenance"). repeat split; try reflexivity;
      try (eexists; reflexivity);
      try (intros Hs; vm_compute in Hs; discriminate Hs);
      try (intros [x Hx]; discriminate Hx).
  - exists (lit "warning"). repeat split; try reflexivity;
      try (eexists; reflexivity);
      try (intros Hs; vm_compute in Hs; discriminate Hs);
      try (intros [x Hx]; discriminate Hx).
  - exists (lit "error"). repeat split; try reflexivity;
      try (intros _; eexists; reflexivity); try (eexists; reflexivity);
      try (intros Hs; vm_compute in Hs; discriminate Hs);
      try (intros [x Hx]; discriminate Hx).
Qed.

(** X7: a call of [get_error_logs] that returns [n] entries has read the
    clock [n] times and drawn [n + 1] times (once for the count, once per
    entry); it leaves the clock, the generator and the environment as they
    were otherwise. *)
Theorem get_error_logs_effects `{PyRuntime} (equipment_id : str) (hours : Z) (w : World) :
  let n := length (logs_of (fst (error_logs_object equipment_id hours w))) in
  snd (get_error_logs equipment_id hours w) = advance w n (S n) /\ (n <= 3)%nat.
Proof.
  intros n. subst n. rewrite logs_of_run, length_map, length_seq.
  unfold get_error_logs, bind, ret.
  pose proof (error_logs_object_run equipment_id hours w) as Hrun. cbv zeta in Hrun.
  rewrite Hrun. split; [reflexivity|].
  pose proof (draw_below (random_src w (random_draws w)) 4 ltac:(discriminate)) as Hn.
  change (N.of_nat 4) with 4%N in Hn. lia.
Qed.

(** X8: when the count drawn is zero, [get_error_logs] reads no clock and
    returns the object with [total_errors] 0 and an empty [logs] list, the
    identifier being the only part of the text that varies. *)
Theorem get_error_logs_empty `{PyRuntime} (equipment_id : str) (hours : Z) (w : World) :
  (random_src w (random_draws w) mod 4 = 0)%N ->
  get_error_logs equipment_id hours w =
  (lit "{" ++ nl ++
   lit "  " ++ dquote ++ lit "equipment_id" ++ dquote ++ lit ": " ++
     encode_string equipment_id ++ lit "," ++ nl ++
   lit "  " ++ dquote ++ lit "total_errors" ++ dquote ++ lit ": 0," ++ nl ++
   lit "  " ++ dquote ++ lit "logs" ++ dquote ++ lit ": []" ++ nl ++
   lit "}",
   advance w 0 1).
Proof.
  intros Hzero. unfold get_error_logs, bind, ret.
  pose proof (error_logs_object_run equipment_id hours w) as Hrun. cbv zeta in Hrun.
  rewrite Hrun, Hzero. cbn [N.to_nat seq map Z.of_nat].
  unfold json_dumps. cbn [dumps_at]. unfold encode_string.
  rewrite <- !app_assoc. reflexivity.
Qed.

Lemma get_error_logs_empty_witness :
  exists text,
    @get_error_logs sample_runtime (lit "pump-1") 24 (sample_world 7 (draws_of [8; 1]%N)) =
    (text, advance (sample_world 7 (draws_of [8; 1]%N)) 0 1).
Proof.
  eexists.
  apply (@get_error_logs_empty sample_runtime (lit "pump-1") 24
           (sample_world 7 (draws_of [8; 1]%N))).
  reflexivity.
Defined.

(** X9: for every identifier, draw and clock, each entry of the logs has
    exactly the keys [timestamp], [equipment_id], [code], [severity],
    [message], in this order (the keys of the drawn error never replace the
    first two), and the result object has exactly [equipment_id],
    [total_errors], [logs]. *)
Theorem error_logs_keys `{PyRuntime} (equipment_id : str) (hours : Z) (w : World) :
  let obj := fst (error_logs_object equipment_id hours w) in
  object_keys obj = [lit "equipment_id"; lit "total_errors"; lit "logs"] /\
  forall i e, logs_of obj !! i = Some e ->
    object_keys e =
    [lit "timestamp"; lit "equipment_id"; lit "code"; lit "severity"; lit "message"].
Proof.
  intros obj. split.
  - subst obj. pose proof (error_logs_object_run equipment_id hours w) as Hrun.
    cbv zeta in Hrun. rewrite Hrun. reflexivity.
  - intros i e He. apply logs_of_lookup in He as (_ & _ & ->). unfold make_entry.
    pose proof (draw_below (random_src w (random_draws w + S i)) 3 ltac:(discriminate)) as Hk.
    change (N.of_nat 3) with 3%N in Hk.
    destruct (entry_items (N.to_nat (random_src w (random_draws w + S i) mod 3))
                (JStr (isoformat (dt_sub (datetime_of_reading (ZoneInfo (lit "UTC"))
                                            (clock w (clock_reads w + i)))
                                         (timedelta_hours (Z.of_nat i)))))
                (JStr equipment_id) Hk) as [Hitems _].
    rewrite Hitems. revert Hk.
    generalize (N.to_nat (random_src w (random_draws w + S i) mod 3)). intros k Hk.
    destruct k as [|[|[|k]]]; [reflexivity|reflexivity|reflexivity|lia].
Qed.

(** ** The text of a log timestamp *)

Lemma length_zpad (w : nat) (n : Z) :
  (1 <= w)%nat -> 0 <= n < 10 ^ Z.of_nat w -> length (zpad w n) = w.
Proof.
  intros Hw Hn. unfold zpad. destruct (Z.ltb_spec n 0) as [|_]; [lia|].
  unfold str_of_N.
  destruct (dec_digits_spec (S (N.to_nat (N.log2 (Z.to_N n)))) (Z.to_N n) []
              (str_of_N_fuel (Z.to_N n))) as (ds & Heq & _ & _ & Hlen).
  rewrite Heq, app_nil_r. cbv zeta.
  assert (Hle : (length ds <= w)%nat) by (apply Hlen; [exact Hw|rewrite Z2N.id; lia]).
  rewrite length_app, repeat_length. lia.
Qed.

Lemma isoformat_utc_length (dt : datetime) :
  0 <= dt_year dt <= 9999 -> dt_utcoffset dt = 0 ->
  exists body,
    isoformat dt = body ++ lit "+00:00" /\
    length body = if dt_microsecond dt =? 0 then 19%nat else 26%nat.
Proof.
  intros Hy Hoff. destruct (dt_fields_valid dt) as (Hm & Hd & Hh & Hmi & Hs).
  pose proof (dt_microsecond_range dt) as Hus.
  exists (zpad 4 (dt_year dt) ++ lit "-" ++ zpad 2 (dt_month dt) ++ lit "-" ++
          zpad 2 (dt_day dt) ++ lit "T" ++ zpad 2 (dt_hour dt) ++ lit ":" ++
          zpad 2 (dt_minute dt) ++ lit ":" ++ zpad 2 (dt_second dt) ++
          (if dt_microsecond dt =? 0 then [] else lit "." ++ zpad 6 (dt_microsecond dt))).
  split.
  - unfold isoformat. rewrite Hoff. change (format_offset (lit ":") 0) with (lit "+00:00").
    now rewrite <- !app_assoc.
  - rewrite !length_app, (length_zpad 4), !(length_zpad 2)
      by (try change (10 ^ Z.of_nat 4) with 10000; try change (10 ^ Z.of_nat 2) with 100; lia).
    destruct (dt_microsecond dt =? 0); [reflexivity|].
    rewrite length_app, (length_zpad 6) by (try exact Hus; lia). reflexivity.
Qed.

(** X10: under a UTC zone and a clock in range, the timestamp of the entry
    of index [i] is a text that ends in [+00:00]; it has 25 characters, with
    no fraction of a second, when the reading it is built from falls on a
    whole second, and 32 characters, with six digits of fraction, when it
    does not. *)
Theorem log_timestamp_text `{PyRuntime} (equipment_id : str) (hours : Z) (w : World)
    (i : nat) (e : json) :
  utc_zone_ok -> readings_in_range w ->
  logs_of (fst (error_logs_object equipment_id hours w)) !! i = Some e ->
  exists body,
    field e (lit "timestamp") = Some (JStr (body ++ lit "+00:00")) /\
    length (body ++ lit "+00:00") =
      if clock w (clock_reads w + i) mod us_per_second =? 0 then 25%nat else 32%nat.
Proof.
  intros [Hfrom Hoff] Hrange He. apply logs_of_lookup in He as (Hi4 & Hi & ->).
  destruct (make_entry_fields equipment_id i (clock w (clock_reads w + i))
              (random_src w (random_draws w + S i))) as (_ & Hstamp & _).
  set (dt := dt_sub (datetime_of_reading (ZoneInfo (lit "UTC")) (clock w (clock_reads w + i)))
                    (timedelta_hours (Z.of_nat i))) in *.
  assert (Hread : datetime_min + 3 * us_per_hour <= clock w (clock_reads w + i) <= datetime_max).
  { apply Hrange.
    pose proof (draw_below (random_src w (random_draws w)) 4 ltac:(discriminate)) as Hn.
    change (N.of_nat 4) with 4%N in Hn. lia. }
  assert (Hwall : dt_wall dt = clock w (clock_reads w + i) - Z.of_nat i * us_per_hour).
  { unfold dt, dt_sub, datetime_of_reading, timedelta_hours. cbn [dt_wall].
    rewrite Hfrom. reflexivity. }
  assert (Hzero : dt_utcoffset dt = 0).
  { unfold dt_utcoffset, dt, dt_sub, datetime_of_reading. cbn [dt_tz]. apply Hoff. }
  assert (Hyear : 1 <= dt_year dt <= 9999).
  { unfold dt_year, dt_date. apply civil_year_range. rewrite Hwall.
    revert Hread. unfold datetime_min, datetime_max.
    change (days_from_civil 1 1 1) with (-719162).
    change (days_from_civil 10000 1 1) with 2932897.
    unfold us_per_day, us_per_hour, us_per_second. intros Hread.
    split; [apply Z.div_le_lower_bound; lia|].
    apply Z.lt_succ_r. apply Z.div_lt_upper_bound; lia. }
  destruct (isoformat_utc_length dt ltac:(lia) Hzero) as (body & Hiso & Hlen).
  exists body. rewrite Hstamp, Hiso. split; [reflexivity|].
  rewrite length_app, Hlen.
  assert (Hus : dt_microsecond dt = clock w (clock_reads w + i) mod us_per_second).
  { unfold dt_microsecond. rewrite Hwall. unfold us_per_hour.
    replace (clock w (clock_reads w + i) - Z.of_nat i * (3600 * us_per_second))
      with (clock w (clock_reads w + i) + (- Z.of_nat i * 3600) * us_per_second) by lia.
    apply Z.mod_add. unfold us_per_second. lia. }
  rewrite Hus. destruct (clock w (clock_reads w + i) mod us_per_second =? 0); reflexivity.
Qed.

Lemma log_timestamp_text_witness :
  exists body,
    field (@make_entry sample_runtime (lit "pump-1") 0 1762250000000000 2%N) (lit "timestamp") =
      Some (JStr (body ++ lit "+00:00")) /\
    length (body ++ lit "+00:00") = 25%nat.
Proof.
  destruct (@log_timestamp_text sample_runtime (lit "pump-1") 24
              {| clock := fun _ => 1762250000000000; clock_reads := 0;
                 random_src := draws_of [1; 2]%N; random_draws := 0;
                 environ := []; default_project := [] |}
              0%nat (@make_entry sample_runtime (lit "pump-1") 0 1762250000000000 2%N)
              sample_utc_ok) as (body & Hfield & Hlen).
  - intros j Hj. cbn [clock]. split; apply Z.leb_le; vm_compute; reflexivity.
  - vm_compute. reflexivity.
  - exists body. split; [exact Hfield|exact Hlen].
Defined.

(** ** The environment defaults of the module *)

Lemma env_lookup_app (env : list (str * str)) (k v k' : str) :
  env_lookup (env ++ [(k, v)]) k' =
  match env_lookup env k' with
  | Some x => Some x
  | None => if decide (k = k') then Some v else None
  end.
Proof.
  unfold env_lookup. induction env as [|[a b] env IH]; cbn [app find fst].
  - destruct (decide (k = k')) as [Heq|Hne].
    + now rewrite bool_decide_eq_true_2.
    + now rewrite bool_decide_eq_false_2.
  - destruct (bool_decide (a = k')); [reflexivity|exact IH].
Qed.

Lemma setdefault_lookup (k v k' : str) (w : World) :
  env_lookup (environ (snd (environ_setdefault k v w))) k' =
  match env_lookup (environ w) k' with
  | Some x => Some x
  | None => if decide (k = k') then Some v else None
  end.
Proof.
  unfold environ_setdefault. destruct (env_lookup (environ w) k) as [old|] eqn:Hk; cbn [snd environ].
  - destruct (env_lookup (environ w) k') eqn:Hk'; [reflexivity|].
    destruct (decide (k = k')) as [->|]; [congruence|reflexivity].
  - apply env_lookup_app.
Qed.


Lemma module_body_world (flag : bool) (w : World) :
  snd (module_body flag w) =
  snd (environ_setdefault (lit "GOOGLE_GENAI_USE_VERTEXAI") (lit "True")
         (snd (environ_setdefault (lit "GOOGLE_CLOUD_LOCATION") (lit "global")
                 (snd (environ_setdefault (lit "GOOGLE_CLOUD_PROJECT") (default_project w) w))))).
Proof.
  unfold module_body, bind, google_auth_default, ret.
  destruct (environ_setdefault (lit "GOOGLE_CLOUD_PROJECT") (default_project w) w) as [x1 w1].
  cbn [snd].
  destruct (environ_setdefault (lit "GOOGLE_CLOUD_LOCATION") (lit "global") w1) as [x2 w2].
  cbn [snd].
  destruct (environ_setdefault (lit "GOOGLE_GENAI_USE_VERTEXAI") (lit "True") w2) as [x3 w3].
  reflexivity.
Qed.

Lemma module_body_lookups (flag : bool) (w : World) :
  env_lookup (environ (snd (module_body flag w))) (lit "GOOGLE_CLOUD_PROJECT") =
    Some (default (default_project w) (env_lookup (environ w) (lit "GOOGLE_CLOUD_PROJECT"))) /\
  env_lookup (environ (snd (module_body flag w))) (lit "GOOGLE_CLOUD_LOCATION") =
    Some (default (lit "global") (env_lookup (environ w) (lit "GOOGLE_CLOUD_LOCATION"))) /\
  env_lookup (environ (snd (module_body flag w))) (lit "GOOGLE_GENAI_USE_VERTEXAI") =
    Some (default (lit "True") (env_lookup (environ w) (lit "GOOGLE_GENAI_USE_VERTEXAI"))).
Proof.
  rewrite module_body_world. repeat split; rewrite !setdefault_lookup.
  - destruct (env_lookup (environ w) (lit "GOOGLE_CLOUD_PROJECT")); reflexivity.
  - destruct (env_lookup (environ w) (lit "GOOGLE_CLOUD_LOCATION")); reflexivity.
  - destruct (env_lookup (environ w) (lit "GOOGLE_GENAI_USE_VERTEXAI")); reflexivity.
Qed.

Lemma setdefault_present (k v old : str) (w : World) :
  env_lookup (environ w) k = Some old -> snd (environ_setdefault k v w) = w.
Proof.
  intros Hk. unfold environ_setdefault. now rewrite Hk.
Qed.



(** X12: running the module body a second time changes nothing: the world
    after two runs is the world after one. *)
Theorem module_body_idempotent (flag flag' : bool) (w : World) :
  snd (module_body flag' (snd (module_body flag w))) = snd (module_body flag w).
Proof.
  destruct (module_body_lookups flag w) as (Hp & Hl & Hv).
  rewrite (module_body_world flag').
  rewrite (setdefault_present _ _ _ _ Hp), (setdefault_present _ _ _ _ Hl).
  apply (setdefault_present _ _ _ _ Hv).
Qed.

(** ** The text [json.dumps] writes *)

(** Induction on JSON values, with the hypothesis available for every item
    of an array and every member of an object. *)
Lemma json_nested_ind (P : json -> Prop) :
  (forall z, P (JInt z)) -> (forall t, P (JFloat t)) -> (forall s, P (JStr s)) ->
  (forall items, Forall P items -> P (JList items)) ->
  (forall members, Forall (fun kv => P (snd kv)) members -> P (JDict members)) ->
  forall v, P v.
Proof.
  intros Hint Hfloat Hstr Hlist Hdict. fix IH 1. intros [z|t|s|items|members].
  - apply Hint.
  - apply Hfloat.
  - apply Hstr.
  - apply Hlist. induction items as [|x items IHitems]; constructor; [apply IH|exact IHitems].
  - apply Hdict. induction members as [|[k x] members IHmembers]; constructor;
      [apply IH|exact IHmembers].
Qed.

Lemma text_app (a b : str) :
  forallb is_text_char a = true -> forallb is_text_char b = true ->
  forallb is_text_char (a ++ b) = true.
Proof. intros Ha Hb. rewrite forallb_app, Ha, Hb. reflexivity. Qed.

Lemma digits_text (ds : str) :
  Forall (fun c => ((48 <=? c) && (c <=? 57))%N = true) ds -> forallb is_text_char ds = true.
Proof.
  intros Hds. apply forallb_forall. intros c Hc.
  rewrite Forall_forall in Hds. specialize (Hds c).
  assert (Hd : ((48 <=? c) && (c <=? 57))%N = true).
  { apply Hds. apply list_elem_of_In. exact Hc. }
  apply andb_true_iff in Hd as [H1 H2]. apply N.leb_le in H1, H2.
  unfold is_text_char. apply orb_true_iff. right.
  apply andb_true_iff. split; apply N.leb_le; lia.
Qed.

Lemma str_of_N_digits (n : N) :
  Forall (fun c => ((48 <=? c) && (c <=? 57))%N = true) (str_of_N n) /\
  fold_left (fun a c => 10 * a + Z.of_N (c - 48)) (str_of_N n) 0 = Z.of_N n.
Proof.
  unfold str_of_N.
  destruct (dec_digits_spec (S (N.to_nat (N.log2 n))) n [] (str_of_N_fuel n))
    as (ds & Heq & Hdig & Hval & _).
  rewrite Heq, app_nil_r. split; [exact Hdig|]. rewrite Hval. lia.
Qed.

Lemma str_of_Z_text (z : Z) : forallb is_text_char (str_of_Z z) = true.
Proof.
  unfold str_of_Z. destruct (z <? 0).
  - apply text_app; [reflexivity|]. apply digits_text, str_of_N_digits.
  - apply digits_text, str_of_N_digits.
Qed.

Lemma float_repr_text (t : Z) : forallb is_text_char (float_repr t) = true.
Proof.
  unfold float_repr. apply text_app; [destruct (t <? 0); reflexivity|].
  apply text_app; [apply digits_text, str_of_N_digits|].
  apply text_app; [reflexivity|]. apply digits_text. constructor; [|constructor].
  apply digit_in_range.
  assert (H : 0 <= Z.abs t mod 10 < 10) by (apply Z.mod_pos_bound; lia). lia.
Qed.

Lemma hex_digit_text (d : N) : (d < 16)%N -> is_text_char (hex_digit d) = true.
Proof.
  intros Hd. unfold hex_digit, is_text_char.
  destruct (N.ltb_spec d 10); apply orb_true_iff; right;
    apply andb_true_iff; split; apply N.leb_le; lia.
Qed.

Lemma hex4_text (n : N) : forallb is_text_char (hex4 n) = true.
Proof.
  unfold hex4. cbn [forallb].
  rewrite !hex_digit_text by (apply N.mod_upper_bound; discriminate). reflexivity.
Qed.

Lemma escape_char_text (c : N) : forallb is_text_char (escape_char c) = true.
Proof.
  unfold escape_char.
  repeat match goal with
         | |- context [if (c =? ?k)%N then _ else _] => destruct (c =? k)%N; [reflexivity|]
         end.
  destruct ((32 <=? c) && (c <=? 126))%N eqn:Hprint.
  - cbn [forallb]. unfold is_text_char. rewrite Hprint, orb_true_r. reflexivity.
  - destruct (c <? 65536)%N.
    + apply text_app; [reflexivity|]. apply text_app; [reflexivity|apply hex4_text].
    + cbv zeta. repeat (apply text_app; [first [reflexivity|apply hex4_text]|]).
      apply hex4_text.
Qed.

Lemma encode_string_text (s : str) : forallb is_text_char (encode_string s) = true.
Proof.
  unfold encode_string. apply text_app; [reflexivity|]. apply text_app; [|reflexivity].
  induction s as [|c s IH]; [reflexivity|]. cbn [flat_map].
  apply text_app; [apply escape_char_text|exact IH].
Qed.

Lemma newline_indent_text (indent level : nat) :
  forallb is_text_char (newline_indent indent level) = true.
Proof.
  unfold newline_indent. apply text_app; [reflexivity|].
  induction (indent * level)%nat as [|k IH]; [reflexivity|]. cbn [repeat forallb].
  rewrite IH. reflexivity.
Qed.

Lemma dumps_at_text (indent : nat) (v : json) :
  forall level, forallb is_text_char (dumps_at indent level v) = true.
Proof.
  induction v as [z|t|s|items IH|members IH] using json_nested_ind; intros level;
    cbn [dumps_at].
  - apply str_of_Z_text.
  - apply float_repr_text.
  - apply encode_string_text.
  - destruct IH as [|x items Hx Hitems]; [reflexivity|].
    apply text_app; [reflexivity|]. apply text_app; [apply newline_indent_text|].
    apply text_app; [apply Hx|]. apply text_app.
    + induction Hitems as [|y items Hy Hitems IHrest]; [reflexivity|].
      apply text_app; [reflexivity|]. apply text_app; [apply newline_indent_text|].
      apply text_app; [apply Hy|exact IHrest].
    + apply text_app; [apply newline_indent_text|reflexivity].
  - destruct IH as [|[k x] members Hx Hmembers]; [reflexivity|].
    apply text_app; [reflexivity|]. apply text_app; [apply newline_indent_text|].
    apply text_app; [apply encode_string_text|]. apply text_app; [reflexivity|].
    apply text_app; [apply Hx|]. apply text_app.
    + induction Hmembers as [|[k' y] members Hy Hmembers IHrest]; [reflexivity|].
      apply text_app; [reflexivity|]. apply text_app; [apply newline_indent_text|].
      apply text_app; [apply encode_string_text|]. apply text_app; [reflexivity|].
      apply text_app; [apply Hy|exact IHrest].
    + apply text_app; [apply newline_indent_text|reflexivity].
Qed.

(** X13: whatever the identifier holds (quotes, control characters,
    characters outside ASCII), the texts that [get_equipment_state] and
    [get_error_logs] return consist of printable ASCII characters and line
    feeds only. *)
Theorem diagnostic_texts_are_ascii `{PyRuntime} (equipment_id : str) (hours : Z) (w : World) :
  forallb is_text_char (fst (get_equipment_state equipment_id w)) = true /\
  forallb is_text_char (fst (get_error_logs equipment_id hours w)) = true.
Proof.
  rewrite get_equipment_state_dumps, get_error_logs_dumps.
  split; apply dumps_at_text.
Qed.

(** ** JSON text read back *)

Lemma unhex_hex_digit (d : N) : (d < 16)%N -> unhex_digit (hex_digit d) = Some d.
Proof.
  intros Hd. destruct d as [|p]; [reflexivity|].
  do 4 (destruct p as [p|p|]; try reflexivity); lia.
Qed.

Lemma hex4_value (n : N) :
  (n < 65536)%N ->
  (n / 4096 mod 16 * 4096 + n / 256 mod 16 * 256 + n / 16 mod 16 * 16 + n mod 16)%N = n.
Proof.
  intros Hn. apply N2Z.inj. rewrite !N2Z.inj_add, !N2Z.inj_mul, !N2Z.inj_mod, !N2Z.inj_div.
  apply N2Z.inj_lt in Hn. pose proof (N2Z.is_nonneg n) as Hnn.
  revert Hn Hnn. generalize (Z.of_N n). intros z Hz Hnn.
  change (Z.of_N 4096) with 4096. change (Z.of_N 256) with 256. change (Z.of_N 16) with 16.
  change (Z.of_N 65536) with 65536 in Hz.
  Z.div_mod_to_equations. lia.
Qed.

Lemma read_hex4_hex4 (n : N) (r : str) :
  (n < 65536)%N -> read_hex4 (hex4 n ++ r) = Some (n, r).
Proof.
  intros Hn. unfold hex4, read_hex4. cbn [app].
  rewrite !unhex_hex_digit by (apply N.mod_upper_bound; discriminate).
  cbn [mbind option_bind]. now rewrite hex4_value.
Qed.

Lemma lor_low_bits (base v : N) :
  (base = 55296 \/ base = 56320)%N -> (v < 1024)%N -> N.lor base v = (base + v)%N.
Proof.
  intros Hbase Hv.
  assert (Hall : all_from (fun z => (N.lor 55296 (Z.to_N z) =? 55296 + Z.to_N z)%N &&
                                    (N.lor 56320 (Z.to_N z) =? 56320 + Z.to_N z)%N)
                          (Z.to_nat 1024) 0 = true) by (vm_compute; reflexivity).
  assert (Hz : 0 <= Z.of_N v < 0 + 1024) by lia.
  apply (all_from_range _ _ _ Hall) in Hz. rewrite N2Z.id in Hz.
  apply andb_true_iff in Hz as [H1 H2]. apply N.eqb_eq in H1, H2.
  destruct Hbase as [-> | ->]; assumption.
Qed.

Lemma surrogates_of (c : N) :
  (65536 <= c)%N ->
  let n := (c - 65536)%N in
  let s1 := N.lor 55296 (N.land (N.shiftr n 10) 1023) in
  let s2 := N.lor 56320 (N.land n 1023) in
  (s1 < 65536)%N /\ (s2 < 65536)%N /\ is_high_surrogate s1 = true /\
  is_low_surrogate s2 = true /\ (65536 + (s1 - 55296) * 1024 + (s2 - 56320))%N = wrap_code c.
Proof.
  intros Hc n s1 s2.
  assert (Hhi : N.land (N.shiftr n 10) 1023 = ((n / 1024) mod 1024)%N).
  { change 1023%N with (N.ones 10). now rewrite N.land_ones, N.shiftr_div_pow2. }
  assert (Hlo : N.land n 1023 = (n mod 1024)%N).
  { change 1023%N with (N.ones 10). now rewrite N.land_ones. }
  assert (Hq : ((n / 1024) mod 1024 < 1024)%N) by (apply N.mod_upper_bound; discriminate).
  assert (Hr : (n mod 1024 < 1024)%N) by (apply N.mod_upper_bound; discriminate).
  assert (Hwrap : wrap_code c = (65536 + (n mod 1024 + 1024 * ((n / 1024) mod 1024)))%N).
  { unfold wrap_code. rewrite (proj2 (N.ltb_ge c 65536) Hc).
    change 1048576%N with (1024 * 1024)%N. now rewrite N.Div0.mod_mul_r. }
  unfold s1, s2. rewrite Hhi, Hlo, Hwrap, !lor_low_bits by (auto; assumption).
  revert Hq Hr. generalize ((n / 1024) mod 1024)%N (n mod 1024)%N. intros q r Hq Hr.
  unfold is_high_surrogate, is_low_surrogate.
  repeat split; try lia.
  all: apply andb_true_iff; split; apply N.leb_le; lia.
Qed.

Lemma escape_char_length (c : N) : (1 <= length (escape_char c))%nat.
Proof.
  unfold escape_char.
  repeat match goal with
         | |- context [if ?b then _ else _] => destruct b; [simpl; lia|]
         end.
  cbv zeta. simpl. lia.
Qed.

Lemma wrap_code_small (c : N) : (c < 65536)%N -> wrap_code c = c.
Proof. intros Hc. unfold wrap_code. now rewrite (proj2 (N.ltb_lt c 65536) Hc). Qed.

Lemma wrap_code_valid (c : N) : (c < 1114112)%N -> wrap_code c = c.
Proof.
  intros Hc. unfold wrap_code. destruct (N.ltb_spec c 65536) as [_|Hge]; [reflexivity|].
  rewrite N.mod_small by lia. lia.
Qed.

Lemma wrap_code_surrogate (c : N) :
  is_high_surrogate (wrap_code c) = is_high_surrogate c /\
  is_low_surrogate (wrap_code c) = is_low_surrogate c.
Proof.
  unfold wrap_code. destruct (N.ltb_spec c 65536) as [_|Hge]; [now split|].
  generalize ((c - 65536) mod 1048576)%N. intros r.
  unfold is_high_surrogate, is_low_surrogate.
  rewrite (proj2 (N.leb_gt (65536 + r) 56319)), (proj2 (N.leb_gt c 56319)) by lia.
  rewrite (proj2 (N.leb_gt (65536 + r) 57343)), (proj2 (N.leb_gt c 57343)) by lia.
  now rewrite !andb_false_r.
Qed.

(** The escape of a surrogate is [\uXXXX] with its own digits. *)
Lemma escape_char_surrogate (c : N) :
  is_high_surrogate c = true \/ is_low_surrogate c = true ->
  (c < 65536)%N /\ escape_char c = 92%N :: 117%N :: hex4 c.
Proof.
  intros Hc.
  assert (Hrange : (55296 <= c <= 57343)%N).
  { unfold is_high_surrogate, is_low_surrogate in Hc.
    destruct Hc as [Hc|Hc]; apply andb_true_iff in Hc as [Hlo Hhi];
      apply N.leb_le in Hlo, Hhi; lia. }
  split; [lia|]. unfold escape_char.
  rewrite (proj2 (N.eqb_neq c 34)), (proj2 (N.eqb_neq c 92)), (proj2 (N.eqb_neq c 8)),
    (proj2 (N.eqb_neq c 12)), (proj2 (N.eqb_neq c 10)), (proj2 (N.eqb_neq c 13)),
    (proj2 (N.eqb_neq c 9)) by lia.
  rewrite (proj2 (N.leb_gt c 126)), andb_false_r by lia.
  rewrite (proj2 (N.ltb_lt c 65536)) by lia. reflexivity.
Qed.

Lemma high_not_low (c : N) : is_high_surrogate c = true -> is_low_surrogate c = false.
Proof.
  unfold is_high_surrogate, is_low_surrogate. intros Hc.
  apply andb_true_iff in Hc as [_ Hhi]. apply N.leb_le in Hhi.
  apply andb_false_iff. left. apply N.leb_gt. lia.
Qed.

(** A character that is not a high surrogate is read on its own. *)
Lemma read_string_step (f : nat) (c : N) (tail : str) :
  is_high_surrogate c = false ->
  read_string_body (S f) (escape_char c ++ tail) =
  ('(t, r) ← read_string_body f tail; Some (wrap_code c :: t, r)).
Proof.
  intros Hc. unfold escape_char.
  destruct (N.eqb_spec c 34) as [->|H34]; [reflexivity|].
  destruct (N.eqb_spec c 92) as [->|H92]; [reflexivity|].
  destruct (N.eqb_spec c 8) as [->|H8]; [reflexivity|].
  destruct (N.eqb_spec c 12) as [->|H12]; [reflexivity|].
  destruct (N.eqb_spec c 10) as [->|H10]; [reflexivity|].
  destruct (N.eqb_spec c 13) as [->|H13]; [reflexivity|].
  destruct (N.eqb_spec c 9) as [->|H9]; [reflexivity|].
  destruct ((32 <=? c) && (c <=? 126))%N eqn:Hprint.
  - apply andb_true_iff in Hprint as [Hlo Hhi]. apply N.leb_le in Hlo, Hhi.
    rewrite wrap_code_small by lia.
    cbn [app read_string_body].
    rewrite (proj2 (N.eqb_neq c 34) H34), (proj2 (N.eqb_neq c 92) H92).
    rewrite (proj2 (N.ltb_ge c 32) Hlo). reflexivity.
  - destruct (N.ltb_spec c 65536) as [Hbmp|Hastral].
    + rewrite wrap_code_small by exact Hbmp.
      change (backslash ++ lit "u" ++ hex4 c) with (92%N :: 117%N :: hex4 c).
      cbn [app read_string_body]. cbn [N.eqb Pos.eqb].
      rewrite read_hex4_hex4 by exact Hbmp. cbn [mbind option_bind].
      rewrite Hc. reflexivity.
    + destruct (surrogates_of c Hastral) as (H1 & H2 & Hhigh & Hlow & Hback).
      cbv zeta in H1, H2, Hhigh, Hlow, Hback |- *.
      set (s1 := N.lor 55296 (N.land (N.shiftr (c - 65536) 10) 1023)) in *.
      set (s2 := N.lor 56320 (N.land (c - 65536) 1023)) in *.
      change (backslash ++ lit "u" ++ hex4 s1 ++ backslash ++ lit "u" ++ hex4 s2)
        with (92%N :: 117%N :: hex4 s1 ++ 92%N :: 117%N :: hex4 s2).
      cbn [app read_string_body]. cbn [N.eqb Pos.eqb].
      rewrite <- app_assoc. cbn [app].
      rewrite read_hex4_hex4 by exact H1. cbn [mbind option_bind].
      rewrite Hhigh. cbn [N.eqb Pos.eqb andb].
      rewrite read_hex4_hex4 by exact H2. rewrite Hlow, Hback. reflexivity.
Qed.

(** A high surrogate at the end of a string is read on its own. *)
Lemma read_string_high_last (f : nat) (h : N) (rest : str) :
  is_high_surrogate h = true ->
  read_string_body (S f) (escape_char h ++ dquote ++ rest) =
  ('(t, r) ← read_string_body f (dquote ++ rest); Some (h :: t, r)).
Proof.
  intros Hh. destruct (escape_char_surrogate h (or_introl Hh)) as [Hlt ->].
  cbn [app read_string_body]. cbn [N.eqb Pos.eqb].
  rewrite read_hex4_hex4 by exact Hlt. cbn [mbind option_bind]. rewrite Hh.
  change (dquote ++ rest) with (34%N :: rest). destruct rest; reflexivity.
Qed.

(** A high surrogate directly followed by a low one is read as one
    character. *)
Lemma read_string_high_pair (f : nat) (h l : N) (tail : str) :
  is_high_surrogate h = true -> is_low_surrogate l = true ->
  read_string_body (S f) (escape_char h ++ escape_char l ++ tail) =
  ('(t, r) ← read_string_body f tail;
   Some ((65536 + (h - 55296) * 1024 + (l - 56320))%N :: t, r)).
Proof.
  intros Hh Hl. destruct (escape_char_surrogate h (or_introl Hh)) as [Hlt ->].
  destruct (escape_char_surrogate l (or_intror Hl)) as [Hlt' ->].
  cbn [app read_string_body]. cbn [N.eqb Pos.eqb].
  rewrite read_hex4_hex4 by exact Hlt. cbn [mbind option_bind]. rewrite Hh.
  cbn [N.eqb Pos.eqb andb].
  rewrite read_hex4_hex4 by exact Hlt'. rewrite Hl. reflexivity.
Qed.

(** A high surrogate followed by anything else is read on its own. *)
Lemma read_string_high_single (f : nat) (h c : N) (tail : str) :
  is_high_surrogate h = true -> is_low_surrogate c = false ->
  read_string_body (S f) (escape_char h ++ escape_char c ++ tail) =
  ('(t, r) ← read_string_body f (escape_char c ++ tail); Some (h :: t, r)).
Proof.
  intros Hh Hc. destruct (escape_char_surrogate h (or_introl Hh)) as [Hlt ->].
  cbn [app read_string_body]. cbn [N.eqb Pos.eqb].
  rewrite read_hex4_hex4 by exact Hlt. cbn [mbind option_bind]. rewrite Hh.
  unfold escape_char.
  destruct (N.eqb_spec c 34) as [->|H34]; [reflexivity|].
  destruct (N.eqb_spec c 92) as [->|H92]; [reflexivity|].
  destruct (N.eqb_spec c 8) as [->|H8]; [reflexivity|].
  destruct (N.eqb_spec c 12) as [->|H12]; [reflexivity|].
  destruct (N.eqb_spec c 10) as [->|H10]; [reflexivity|].
  destruct (N.eqb_spec c 13) as [->|H13]; [reflexivity|].
  destruct (N.eqb_spec c 9) as [->|H9]; [reflexivity|].
  destruct ((32 <=? c) && (c <=? 126))%N eqn:Hprint.
  - cbn [app]. destruct tail as [|u tail']; [reflexivity|].
    rewrite (proj2 (N.eqb_neq c 92) H92). reflexivity.
  - destruct (N.ltb_spec c 65536) as [Hbmp|Hastral].
    + change (backslash ++ lit "u" ++ hex4 c) with (92%N :: 117%N :: hex4 c).
      cbn [app]. cbn [N.eqb Pos.eqb andb].
      rewrite read_hex4_hex4 by exact Hbmp. rewrite Hc. reflexivity.
    + destruct (surrogates_of c Hastral) as (H1 & _ & Hhigh & _ & _).
      cbv zeta in H1, Hhigh |- *.
      set (s1 := N.lor 55296 (N.land (N.shiftr (c - 65536) 10) 1023)) in *.
      set (s2 := N.lor 56320 (N.land (c - 65536) 1023)) in *.
      change (backslash ++ lit "u" ++ hex4 s1 ++ backslash ++ lit "u" ++ hex4 s2)
        with (92%N :: 117%N :: hex4 s1 ++ 92%N :: 117%N :: hex4 s2).
      cbn [app]. cbn [N.eqb Pos.eqb andb]. rewrite <- app_assoc.
      rewrite read_hex4_hex4 by exact H1. rewrite (high_not_low s1 Hhigh). reflexivity.
Qed.

Lemma decoded_plain (c : N) (tail : str) :
  is_high_surrogate c = false -> decoded (c :: tail) = wrap_code c :: decoded tail.
Proof.
  intros Hc. unfold decoded. cbn [map join_surrogates].
  rewrite (proj1 (wrap_code_surrogate c)), Hc.
  destruct (map wrap_code tail); reflexivity.
Qed.

Lemma decoded_high_last (h : N) : is_high_surrogate h = true -> decoded [h] = [h].
Proof.
  intros Hh. destruct (escape_char_surrogate h (or_introl Hh)) as [Hlt _].
  unfold decoded. cbn [map join_surrogates]. now rewrite wrap_code_small.
Qed.

Lemma decoded_high_pair (h l : N) (tail : str) :
  is_high_surrogate h = true -> is_low_surrogate l = true ->
  decoded (h :: l :: tail) = (65536 + (h - 55296) * 1024 + (l - 56320))%N :: decoded tail.
Proof.
  intros Hh Hl. destruct (escape_char_surrogate h (or_introl Hh)) as [Hlt _].
  destruct (escape_char_surrogate l (or_intror Hl)) as [Hlt' _].
  unfold decoded. cbn [map join_surrogates].
  rewrite !wrap_code_small by assumption. now rewrite Hh, Hl.
Qed.

Lemma decoded_high_single (h c : N) (tail : str) :
  is_high_surrogate h = true -> is_low_surrogate c = false ->
  decoded (h :: c :: tail) = h :: decoded (c :: tail).
Proof.
  intros Hh Hc. destruct (escape_char_surrogate h (or_introl Hh)) as [Hlt _].
  unfold decoded. cbn [map join_surrogates].
  rewrite (wrap_code_small h) by assumption.
  now rewrite Hh, (proj2 (wrap_code_surrogate c)), Hc.
Qed.

Lemma read_string_body_decoded (n : nat) :
  forall (s rest : str) (fuel : nat),
    (length s <= n)%nat -> (length s < fuel)%nat ->
    read_string_body fuel (flat_map escape_char s ++ dquote ++ rest) = Some (decoded s, rest).
Proof.
  induction n as [|n IH]; intros s rest fuel Hn Hfuel.
  - destruct s; [|simpl in Hn; lia].
    destruct fuel as [|f]; [simpl in Hfuel; lia|]. reflexivity.
  - destruct s as [|h tail].
    { destruct fuel as [|f]; [simpl in Hfuel; lia|]. reflexivity. }
    destruct fuel as [|f]; [simpl in Hfuel; lia|].
    cbn [length] in Hn, Hfuel. cbn [flat_map]. rewrite <- app_assoc.
    destruct (is_high_surrogate h) eqn:Hh.
    + destruct tail as [|c tail'].
      * cbn [flat_map app]. rewrite read_string_high_last by exact Hh.
        destruct f as [|f']; [lia|]. rewrite decoded_high_last by exact Hh. reflexivity.
      * cbn [flat_map]. rewrite <- app_assoc. cbn [length] in Hn, Hfuel.
        destruct (is_low_surrogate c) eqn:Hc.
        -- rewrite read_string_high_pair by assumption.
           rewrite (IH tail' rest f) by lia.
           rewrite decoded_high_pair by assumption. reflexivity.
        -- rewrite read_string_high_single by assumption.
           pose proof (IH (c :: tail') rest f) as Htail. cbn [flat_map length] in Htail.
           rewrite <- app_assoc in Htail. rewrite Htail by lia.
           rewrite decoded_high_single by assumption. reflexivity.
    + rewrite read_string_step by exact Hh.
      rewrite (IH tail rest f) by lia.
      rewrite decoded_plain by exact Hh. reflexivity.
Qed.

Lemma read_string_body_encode (s rest : str) (fuel : nat) :
  (length s < fuel)%nat ->
  read_string_body fuel (flat_map escape_char s ++ dquote ++ rest) = Some (decoded s, rest).
Proof. intros Hfuel. now apply (read_string_body_decoded (length s)). Qed.

Lemma decoded_scalar (s : str) : forallb is_scalar s = true -> decoded s = s.
Proof.
  induction s as [|c s IH]; [reflexivity|]. cbn [forallb]. intros Hs.
  apply andb_true_iff in Hs as [Hc Hs]. unfold is_scalar in Hc.
  apply andb_true_iff in Hc as [Hmax Hsur]. apply N.ltb_lt in Hmax.
  apply negb_true_iff in Hsur.
  assert (Hnot : is_high_surrogate c = false).
  { unfold is_high_surrogate. apply andb_false_iff.
    apply andb_false_iff in Hsur as [Hlo|Hhi]; [now left|].
    right. apply N.leb_gt in Hhi. apply N.leb_gt. lia. }
  rewrite decoded_plain by exact Hnot. now rewrite wrap_code_valid, IH.
Qed.

Lemma decoded_no_surrogate_pair (s : str) : no_surrogate_pair s = true -> decoded s = s.
Proof.
  induction s as [|h tail IH]; [reflexivity|]. cbn [no_surrogate_pair]. intros Hs.
  apply andb_true_iff in Hs as [Hs Htail]. apply andb_true_iff in Hs as [Hmax Hpair].
  apply N.ltb_lt in Hmax. apply negb_true_iff in Hpair. specialize (IH Htail).
  destruct (is_high_surrogate h) eqn:Hh.
  - destruct tail as [|c tail']; [now apply decoded_high_last|].
    cbn [andb] in Hpair. rewrite decoded_high_single by assumption. now rewrite IH.
  - rewrite decoded_plain by exact Hh. now rewrite wrap_code_valid, IH.
Qed.

Lemma flat_map_escape_length (s : str) : (length s <= length (flat_map escape_char s))%nat.
Proof.
  induction s as [|c s IH]; [reflexivity|]. cbn [flat_map]. rewrite length_app.
  pose proof (escape_char_length c). simpl. lia.
Qed.


Lemma read_all_digits_app (ds rest : str) (acc : Z) :
  Forall (fun c => ((48 <=? c) && (c <=? 57))%N = true) ds -> starts_with_digit rest = false ->
  read_all_digits (ds ++ rest) acc =
  (fold_left (fun a c => 10 * a + Z.of_N (c - 48)) ds acc, rest).
Proof.
  intros Hds Hrest. revert acc. induction Hds as [|c ds Hc Hds IH]; intros acc.
  - destruct rest as [|c rest]; [reflexivity|]. simpl in Hrest |- *. now rewrite Hrest.
  - cbn [app read_all_digits fold_left]. rewrite Hc. apply IH.
Qed.

Lemma dec_digits_length (fuel : nat) (n : N) (acc : str) :
  (length acc <= length (dec_digits fuel n acc))%nat.
Proof.
  revert n acc. induction fuel as [|f IH]; intros n acc; [reflexivity|].
  cbn [dec_digits]. destruct (n <? 10)%N; [simpl; lia|].
  etransitivity; [|apply IH]. simpl. lia.
Qed.

Lemma str_of_N_head (n : N) :
  exists d ds, str_of_N n = d :: ds /\ ((48 <=? d) && (d <=? 57))%N = true.
Proof.
  destruct (str_of_N_digits n) as [Hdig _].
  destruct (str_of_N n) as [|d ds] eqn:Heq.
  - exfalso. unfold str_of_N in Heq. cbn [dec_digits] in Heq.
    destruct (n <? 10)%N; [discriminate|].
    pose proof (dec_digits_length (N.to_nat (N.log2 n)) (n / 10)%N [digit (n mod 10)]) as Hlen.
    rewrite Heq in Hlen. simpl in Hlen. lia.
  - exists d, ds. split; [reflexivity|]. now apply Forall_inv in Hdig.
Qed.

Lemma ends_number_digit (rest : str) : ends_number rest = true -> starts_with_digit rest = false.
Proof.
  destruct rest as [|c rest]; [reflexivity|]. simpl. intros H.
  apply negb_true_iff, orb_false_iff in H as [H _]. exact H.
Qed.

Lemma read_number_digits (sign : Z) (n : N) (rest : str) :
  ends_number rest = true ->
  (let '(m, s2) := read_all_digits (str_of_N n ++ rest) 0 in
   match s2 with
   | p :: d :: s3 =>
       if (p =? 46)%N then
         if ((48 <=? d) && (d <=? 57))%N && negb (starts_with_digit s3)
         then Some (JFloat (sign * (10 * m + Z.of_N (d - 48))), s3)
         else None
       else Some (JInt (sign * m), s2)
   | _ => Some (JInt (sign * m), s2)
   end) = Some (JInt (sign * Z.of_N n), rest).
Proof.
  intros Hrest. destruct (str_of_N_digits n) as [Hdig Hval].
  rewrite read_all_digits_app, Hval by (try exact Hdig; now apply ends_number_digit).
  destruct rest as [|p [|d s3]]; try reflexivity.
  simpl in Hrest. apply negb_true_iff, orb_false_iff in Hrest as [_ Hp]. now rewrite Hp.
Qed.

Lemma read_number_int (z : Z) (rest : str) :
  ends_number rest = true -> read_number (str_of_Z z ++ rest) = Some (JInt z, rest).
Proof.
  intros Hrest. unfold read_number, str_of_Z. destruct (Z.ltb_spec z 0) as [Hneg|Hpos].
  - change (lit "-" ++ str_of_N (Z.to_N (- z))) with (45%N :: str_of_N (Z.to_N (- z))).
    cbn [app]. cbn [N.eqb Pos.eqb].
    destruct (str_of_N_head (Z.to_N (- z))) as (d & ds & Hhead & Hd).
    assert (Hstart : starts_with_digit (str_of_N (Z.to_N (- z)) ++ rest) = true)
      by (rewrite Hhead; exact Hd).
    rewrite Hstart, (read_number_digits (-1)) by exact Hrest.
    do 3 f_equal. lia.
  - destruct (str_of_N_head (Z.to_N z)) as (d & ds & Hhead & Hd).
    pose proof (read_number_digits 1 (Z.to_N z) rest Hrest) as Hdigits.
    rewrite Hhead in Hdigits |- *. cbn [app] in Hdigits |- *.
    assert (Hne : (d =? 45)%N = false).
    { apply andb_true_iff in Hd as [Hd _]. apply N.leb_le in Hd. apply N.eqb_neq. lia. }
    rewrite Hne. cbn [starts_with_digit]. rewrite Hd, Hdigits.
    do 3 f_equal. lia.
Qed.

Lemma read_number_tenths (sign : Z) (n : N) (r : N) (rest : str) :
  (r < 10)%N -> starts_with_digit rest = false ->
  (let '(m, s2) := read_all_digits (str_of_N n ++ lit "." ++ [digit r] ++ rest) 0 in
   match s2 with
   | p :: d :: s3 =>
       if (p =? 46)%N then
         if ((48 <=? d) && (d <=? 57))%N && negb (starts_with_digit s3)
         then Some (JFloat (sign * (10 * m + Z.of_N (d - 48))), s3)
         else None
       else Some (JInt (sign * m), s2)
   | _ => Some (JInt (sign * m), s2)
   end) = Some (JFloat (sign * (10 * Z.of_N n + Z.of_N r)), rest).
Proof.
  intros Hr Hrest. destruct (str_of_N_digits n) as [Hdig Hval].
  rewrite read_all_digits_app, Hval by (try exact Hdig; reflexivity).
  change (lit "." ++ [digit r] ++ rest) with (46%N :: digit r :: rest).
  cbn [N.eqb Pos.eqb]. rewrite (digit_in_range r Hr), Hrest, digit_value. reflexivity.
Qed.

Lemma read_number_float (t : Z) (rest : str) :
  starts_with_digit rest = false -> read_number (float_repr t ++ rest) = Some (JFloat t, rest).
Proof.
  intros Hrest. unfold read_number, float_repr.
  assert (Hr : (Z.to_N (Z.abs t mod 10) < 10)%N).
  { assert (H : 0 <= Z.abs t mod 10 < 10) by (apply Z.mod_pos_bound; lia). lia. }
  assert (Hsplit : Z.abs t = 10 * (Z.abs t / 10) + Z.abs t mod 10) by (apply Z.div_mod; lia).
  assert (Hq : 0 <= Z.abs t / 10) by (apply Z.div_pos; lia).
  assert (Hm : 0 <= Z.abs t mod 10) by (apply Z.mod_pos_bound; lia).
  rewrite <- !app_assoc.
  destruct (str_of_N_head (Z.to_N (Z.abs t / 10))) as (d & ds & Hhead & Hd).
  destruct (Z.ltb_spec t 0) as [Hneg|Hpos].
  - change (lit "-" ++ ?s) with (45%N :: s). cbn [N.eqb Pos.eqb].
    assert (Hstart : starts_with_digit
              (str_of_N (Z.to_N (Z.abs t / 10)) ++ lit "." ++
               [digit (Z.to_N (Z.abs t mod 10))] ++ rest) = true)
      by (rewrite Hhead; exact Hd).
    rewrite Hstart, (read_number_tenths (-1)) by assumption.
    do 3 f_equal. rewrite !Z2N.id by assumption. lia.
  - cbn [app].
    pose proof (read_number_tenths 1 (Z.to_N (Z.abs t / 10)) (Z.to_N (Z.abs t mod 10)) rest
                  Hr Hrest) as Htenths.
    rewrite Hhead in Htenths |- *. cbn [app] in Htenths |- *.
    assert (Hne : (d =? 45)%N = false).
    { apply andb_true_iff in Hd as [Hd _]. apply N.leb_le in Hd. apply N.eqb_neq. lia. }
    rewrite Hne. cbn [starts_with_digit]. rewrite Hd, Htenths.
    do 3 f_equal. rewrite !Z2N.id by assumption. lia.
Qed.

Lemma dumps_at_list (indent level : nat) (x : json) (xs : list json) :
  dumps_at indent level (JList (x :: xs)) =
  lit "[" ++ newline_indent indent (S level) ++ dumps_at indent (S level) x ++
  dumps_items indent (S level) xs ++ newline_indent indent level ++ lit "]".
Proof.
  cbn [dumps_at]. do 3 f_equal. f_equal.
  induction xs as [|y xs IH]; [reflexivity|]. cbn [dumps_items]. now rewrite <- IH.
Qed.

Lemma dumps_at_dict (indent level : nat) (k : str) (x : json) (kvs : list (str * json)) :
  dumps_at indent level (JDict ((k, x) :: kvs)) =
  lit "{" ++ newline_indent indent (S level) ++ encode_string k ++ lit ": " ++
  dumps_at indent (S level) x ++ dumps_members indent (S level) kvs ++
  newline_indent indent level ++ lit "}".
Proof.
  cbn [dumps_at]. do 5 f_equal. f_equal.
  induction kvs as [|[k' y] kvs IH]; [reflexivity|]. cbn [dumps_members]. now rewrite <- IH.
Qed.

Lemma skip_ws_newline_indent (indent level : nat) (s : str) :
  skip_ws (newline_indent indent level ++ s) = skip_ws s.
Proof.
  unfold newline_indent. change (nl ++ ?a) with (10%N :: a). cbn [app skip_ws is_ws].
  cbn [N.eqb Pos.eqb orb]. induction (indent * level)%nat as [|k IH]; [reflexivity|].
  cbn [repeat app skip_ws]. exact IH.
Qed.

Lemma number_head (z : Z) (tail : str) :
  exists c t, str_of_Z z ++ tail = c :: t /\
    (c = 45%N \/ ((48 <=? c) && (c <=? 57))%N = true).
Proof.
  unfold str_of_Z. destruct (z <? 0).
  - eexists _, _. split; [reflexivity|now left].
  - destruct (str_of_N_head (Z.to_N z)) as (d & ds & -> & Hd).
    eexists _, _. split; [reflexivity|now right].
Qed.

Lemma float_head (t : Z) (tail : str) :
  exists c r, float_repr t ++ tail = c :: r /\
    (c = 45%N \/ ((48 <=? c) && (c <=? 57))%N = true).
Proof.
  unfold float_repr. destruct (t <? 0).
  - eexists _, _. split; [reflexivity|now left].
  - destruct (str_of_N_head (Z.to_N (Z.abs t / 10))) as (d & ds & -> & Hd).
    eexists _, _. split; [reflexivity|now right].
Qed.

Lemma number_start_facts (c : N) :
  c = 45%N \/ ((48 <=? c) && (c <=? 57))%N = true ->
  is_ws c = false /\ (c =? 34)%N = false /\ (c =? 91)%N = false /\ (c =? 123)%N = false /\
  (c =? 93)%N = false /\ (c =? 125)%N = false.
Proof.
  intros [->|Hd]; [repeat split; reflexivity|].
  apply andb_true_iff in Hd as [H1 H2]. apply N.leb_le in H1, H2.
  unfold is_ws. repeat split; try (apply N.eqb_neq; lia).
  rewrite !orb_false_iff. repeat split; apply N.eqb_neq; lia.
Qed.

Lemma dumps_at_head (indent level : nat) (v : json) (tail : str) :
  exists c t, dumps_at indent level v ++ tail = c :: t /\
    is_ws c = false /\ (c =? 93)%N = false /\ (c =? 125)%N = false.
Proof.
  destruct v as [z|t|s|[|x xs]|[|[k x] kvs]].
  - destruct (number_head z tail) as (c & t & Heq & Hc).
    destruct (number_start_facts c Hc) as (Hw & _ & _ & _ & H93 & H125).
    exists c, t. cbn [dumps_at]. auto.
  - destruct (float_head t tail) as (c & r & Heq & Hc).
    destruct (number_start_facts c Hc) as (Hw & _ & _ & _ & H93 & H125).
    exists c, r. cbn [dumps_at]. auto.
  - eexists _, _. split; [reflexivity|]. repeat split; reflexivity.
  - eexists _, _. split; [reflexivity|]. repeat split; reflexivity.
  - eexists _, _. split; [reflexivity|]. repeat split; reflexivity.
  - eexists _, _. split; [reflexivity|]. repeat split; reflexivity.
  - eexists _, _. split; [reflexivity|]. repeat split; reflexivity.
Qed.

Lemma skip_ws_dumps (indent level : nat) (v : json) (tail : str) :
  skip_ws (dumps_at indent level v ++ tail) = dumps_at indent level v ++ tail.
Proof.
  destruct (dumps_at_head indent level v tail) as (c & t & -> & Hw & _).
  cbn [skip_ws]. now rewrite Hw.
Qed.

Lemma read_string_value (s rest : str) :
  read_string_body (length (flat_map escape_char s ++ dquote ++ rest))
    (flat_map escape_char s ++ dquote ++ rest) = Some (decoded s, rest).
Proof.
  apply read_string_body_encode.
  rewrite length_app. pose proof (flat_map_escape_length s).
  change (dquote ++ rest) with (34%N :: rest). simpl. lia.
Qed.

Lemma ends_number_comma_or_newline (c : N) (s : str) :
  c = 44%N \/ c = 10%N -> ends_number (c :: s) = true.
Proof. intros [-> | ->]; reflexivity. Qed.

Lemma read_items_dumps (indent level outer : nat) (rest : str) (xs : list json) :
  forall x fuel,
    Forall reads_back (x :: xs) ->
    (fold_right (fun y n => S (json_cost y + n)) O (x :: xs) <= fuel)%nat ->
    read_items fuel (dumps_at indent level x ++ dumps_items indent level xs ++
                     newline_indent indent outer ++ lit "]" ++ rest) =
    Some (map decoded_json (x :: xs), rest).
Proof.
  induction xs as [|y ys IH]; intros x fuel Hall Hfuel.
  - destruct fuel as [|f]; [simpl in Hfuel; lia|]. cbn [read_items dumps_items app].
    apply Forall_inv in Hall.
    rewrite Hall by (try reflexivity; simpl in Hfuel; lia).
    cbn [mbind option_bind]. rewrite skip_ws_newline_indent. reflexivity.
  - destruct fuel as [|f]; [simpl in Hfuel; lia|]. cbn [read_items dumps_items].
    pose proof (Forall_inv Hall) as Hx_rt. pose proof (Forall_inv_tail Hall) as Htail.
    rewrite <- !app_assoc.
    rewrite Hx_rt by (try reflexivity; simpl in Hfuel; lia).
    cbn [mbind option_bind].
    change (lit "," ++ ?s) with (44%N :: s). cbn [skip_ws is_ws N.eqb Pos.eqb orb].
    rewrite skip_ws_newline_indent, skip_ws_dumps.
    rewrite (IH y f Htail) by (simpl in Hfuel |- *; lia). reflexivity.
Qed.

Lemma read_member_key (k tail : str) :
  exists s1, encode_string k ++ tail = 34%N :: s1 /\
    read_string_body (length s1) s1 = Some (decoded k, tail).
Proof.
  exists (flat_map escape_char k ++ dquote ++ tail). split.
  - unfold encode_string. now rewrite <- !app_assoc.
  - apply read_string_value.
Qed.

Lemma read_members_dumps (indent level outer : nat) (rest : str) (kvs : list (str * json)) :
  forall k x fuel,
    Forall (fun kv => reads_back (snd kv)) ((k, x) :: kvs) ->
    (fold_right (fun kv n => S (json_cost (snd kv) + n)) O ((k, x) :: kvs) <= fuel)%nat ->
    read_members fuel (encode_string k ++ lit ": " ++ dumps_at indent level x ++
                       dumps_members indent level kvs ++
                       newline_indent indent outer ++ lit "}" ++ rest) =
    Some (map (fun kv => (decoded (fst kv), decoded_json (snd kv))) ((k, x) :: kvs), rest).
Proof.
  induction kvs as [|[k' y] kvs IH]; intros k x fuel Hall Hfuel.
  - destruct fuel as [|f]; [simpl in Hfuel; lia|].
    apply Forall_inv in Hall. cbn [snd] in Hall.
    destruct (read_member_key k (lit ": " ++ dumps_at indent level x ++
                dumps_members indent level [] ++ newline_indent indent outer ++
                lit "}" ++ rest)) as (s1 & -> & Hkey).
    cbn [read_members N.eqb Pos.eqb]. rewrite Hkey. cbn [mbind option_bind].
    change (lit ": " ++ ?s) with (58%N :: 32%N :: s).
    cbn [skip_ws is_ws N.eqb Pos.eqb orb dumps_members app]. rewrite skip_ws_dumps.
    rewrite Hall by (try reflexivity; simpl in Hfuel; lia).
    cbn [mbind option_bind]. rewrite skip_ws_newline_indent. reflexivity.
  - destruct fuel as [|f]; [simpl in Hfuel; lia|].
    pose proof (Forall_inv Hall) as Hx_rt. pose proof (Forall_inv_tail Hall) as Htail.
    cbn [snd] in Hx_rt.
    destruct (read_member_key k (lit ": " ++ dumps_at indent level x ++
                dumps_members indent level ((k', y) :: kvs) ++ newline_indent indent outer ++
                lit "}" ++ rest)) as (s1 & -> & Hkey).
    cbn [read_members N.eqb Pos.eqb]. rewrite Hkey. cbn [mbind option_bind].
    change (lit ": " ++ ?s) with (58%N :: 32%N :: s).
    cbn [skip_ws is_ws N.eqb Pos.eqb orb dumps_members]. rewrite skip_ws_dumps.
    rewrite <- !app_assoc.
    rewrite Hx_rt by (try reflexivity; simpl in Hfuel; lia).
    cbn [mbind option_bind].
    change (lit "," ++ ?s) with (44%N :: s). cbn [skip_ws is_ws N.eqb Pos.eqb orb].
    rewrite skip_ws_newline_indent.
    assert (Hskip : forall t, skip_ws (encode_string k' ++ t) = encode_string k' ++ t)
      by reflexivity.
    rewrite Hskip.
    rewrite (IH k' y f Htail) by (simpl in Hfuel |- *; lia). reflexivity.
Qed.

Lemma read_value_dumps (v : json) : reads_back v.
Proof.
  induction v as [z|t|s|items IH|members IH] using json_nested_ind;
    intros indent level rest fuel Hrest Hfuel;
    (destruct fuel as [|f]; [simpl in Hfuel; lia|]).
  - cbn [dumps_at decoded_json]. destruct (number_head z rest) as (c & tl & Heq & Hc).
    destruct (number_start_facts c Hc) as (_ & H34 & H91 & H123 & _).
    rewrite Heq. cbn [read_value]. rewrite H34, H91, H123, <- Heq.
    now apply read_number_int.
  - cbn [dumps_at decoded_json]. destruct (float_head t rest) as (c & tl & Heq & Hc).
    destruct (number_start_facts c Hc) as (_ & H34 & H91 & H123 & _).
    rewrite Heq. cbn [read_value]. rewrite H34, H91, H123, <- Heq.
    apply read_number_float. now apply ends_number_digit.
  - cbn [dumps_at decoded_json].
    destruct (read_member_key s rest) as (s1 & -> & Hkey).
    cbn [read_value N.eqb Pos.eqb]. rewrite Hkey. reflexivity.
  - destruct items as [|x xs]; [reflexivity|].
    rewrite dumps_at_list, <- !app_assoc.
    change (lit "[" ++ ?s) with (91%N :: s). cbn [read_value N.eqb Pos.eqb].
    rewrite skip_ws_newline_indent, skip_ws_dumps.
    destruct (dumps_at_head indent (S level) x
                (dumps_items indent (S level) xs ++ newline_indent indent level ++
                 lit "]" ++ rest)) as (c & tl & Heq & _ & H93 & _).
    rewrite Heq, H93, <- Heq.
    rewrite (read_items_dumps indent (S level) level rest xs x f IH)
      by (cbn [json_cost] in Hfuel; lia).
    reflexivity.
  - destruct members as [|[k x] kvs]; [reflexivity|].
    rewrite dumps_at_dict, <- !app_assoc.
    change (lit "{" ++ ?s) with (123%N :: s). cbn [read_value N.eqb Pos.eqb].
    rewrite skip_ws_newline_indent.
    assert (Hskip : forall t, skip_ws (encode_string k ++ t) = encode_string k ++ t)
      by reflexivity.
    rewrite Hskip.
    assert (Hhead : forall t, exists tl, encode_string k ++ t = 34%N :: tl)
      by (intros t; eexists; reflexivity).
    destruct (Hhead (lit ": " ++ dumps_at indent (S level) x ++
                     dumps_members indent (S level) kvs ++ newline_indent indent level ++
                     lit "}" ++ rest)) as (tl & Heq).
    rewrite Heq. cbn [N.eqb Pos.eqb]. rewrite <- Heq.
    rewrite (read_members_dumps indent (S level) level rest kvs k x f IH)
      by (cbn [json_cost] in Hfuel; lia).
    reflexivity.
Qed.

Lemma dumps_items_cost (indent level : nat) (xs : list json) :
  Forall (fun v => forall level, (json_cost v <= length (dumps_at indent level v))%nat) xs ->
  (fold_right (fun y n => S (json_cost y + n)) O xs <= length (dumps_items indent level xs))%nat.
Proof.
  induction 1 as [|y xs Hy _ IH]; [reflexivity|].
  cbn [fold_right dumps_items]. rewrite !length_app. specialize (Hy level).
  change (length (lit ",")) with 1%nat. lia.
Qed.

Lemma dumps_members_cost (indent level : nat) (kvs : list (str * json)) :
  Forall (fun kv => forall level,
            (json_cost (snd kv) <= length (dumps_at indent level (snd kv)))%nat) kvs ->
  (fold_right (fun kv n => S (json_cost (snd kv) + n)) O kvs <=
   length (dumps_members indent level kvs))%nat.
Proof.
  induction 1 as [|[k y] kvs Hy _ IH]; [reflexivity|].
  cbn [fold_right dumps_members snd] in *. rewrite !length_app. specialize (Hy level).
  change (length (lit ",")) with 1%nat. lia.
Qed.

Lemma json_cost_length (indent : nat) (v : json) :
  forall level, (json_cost v <= length (dumps_at indent level v))%nat.
Proof.
  induction v as [z|t|s|items IH|members IH] using json_nested_ind; intros level.
  - cbn [dumps_at json_cost]. destruct (number_head z []) as (c & tl & Heq & _).
    rewrite app_nil_r in Heq. rewrite Heq. simpl. lia.
  - cbn [dumps_at json_cost]. destruct (float_head t []) as (c & tl & Heq & _).
    rewrite app_nil_r in Heq. rewrite Heq. simpl. lia.
  - cbn [dumps_at json_cost]. unfold encode_string. simpl. lia.
  - destruct items as [|x xs]; [simpl; lia|].
    rewrite dumps_at_list. cbn [json_cost fold_right]. rewrite !length_app.
    pose proof (Forall_inv IH (S level)) as Hx.
    pose proof (dumps_items_cost indent (S level) xs (Forall_inv_tail IH)) as Hxs.
    change (length (lit "[")) with 1%nat. change (length (lit "]")) with 1%nat. lia.
  - destruct members as [|[k x] kvs]; [simpl; lia|].
    rewrite dumps_at_dict. cbn [json_cost fold_right snd]. rewrite !length_app.
    pose proof (Forall_inv IH (S level)) as Hx. cbn [snd] in Hx.
    pose proof (dumps_members_cost indent (S level) kvs (Forall_inv_tail IH)) as Hkvs.
    change (length (lit "{")) with 1%nat. change (length (lit "}")) with 1%nat. lia.
Qed.

(** The text of a value is read as the value with its strings decoded. *)
Lemma json_loads_decoded (indent : nat) (v : json) :
  json_loads (json_dumps indent v) = Some (decoded_json v).
Proof.
  unfold json_loads, json_dumps.
  rewrite <- (app_nil_r (dumps_at indent 0%nat v)) at 2. rewrite skip_ws_dumps.
  rewrite (read_value_dumps v indent 0%nat [] _ eq_refl (json_cost_length indent v 0%nat)).
  reflexivity.
Qed.

Lemma decoded_json_scalar (v : json) : scalar_strings v = true -> decoded_json v = v.
Proof.
  induction v as [z|t|s|items IH|members IH] using json_nested_ind;
    cbn [scalar_strings decoded_json]; intros Hv; try reflexivity.
  - now rewrite decoded_scalar.
  - f_equal. induction IH as [|x xs Hx _ IHxs]; [reflexivity|].
    cbn [forallb] in Hv. apply andb_true_iff in Hv as [Hx' Hxs].
    cbn [map]. now rewrite Hx, IHxs.
  - f_equal. induction IH as [|[k x] kvs Hx _ IHkvs]; [reflexivity|].
    cbn [forallb fst snd] in Hv. apply andb_true_iff in Hv as [Hkx Hkvs].
    apply andb_true_iff in Hkx as [Hk Hx']. cbn [snd] in Hx.
    cbn [map fst snd]. now rewrite decoded_scalar, Hx, IHkvs.
Qed.

Lemma json_loads_dumps (indent : nat) (v : json) :
  scalar_strings v = true -> json_loads (json_dumps indent v) = Some v.
Proof.
  intros Hscalar. now rewrite json_loads_decoded, decoded_json_scalar.
Qed.

Lemma text_scalar (s : str) : forallb is_text_char s = true -> forallb is_scalar s = true.
Proof.
  intros Hs. apply forallb_forall. intros c Hc.
  rewrite forallb_forall in Hs. specialize (Hs c Hc).
  unfold is_text_char in Hs. unfold is_scalar.
  apply orb_true_iff in Hs as [Hs|Hs].
  - apply N.eqb_eq in Hs. subst c. reflexivity.
  - apply andb_true_iff in Hs as [_ Hs]. apply N.leb_le in Hs.
    apply andb_true_iff. split; [apply N.ltb_lt; lia|].
    apply negb_true_iff, andb_false_iff. left. apply N.leb_gt. lia.
Qed.

Lemma repeat_zero_text (k : nat) : forallb is_text_char (repeat (digit 0) k) = true.
Proof. induction k as [|k IH]; [reflexivity|]. cbn [repeat forallb]. now rewrite IH. Qed.

Lemma zpad_text (w : nat) (z : Z) : forallb is_text_char (zpad w z) = true.
Proof.
  unfold zpad. destruct (z <? 0); cbv zeta.
  - apply text_app; [reflexivity|]. apply text_app; [apply repeat_zero_text|].
    apply digits_text, str_of_N_digits.
  - apply text_app; [apply repeat_zero_text|]. apply digits_text, str_of_N_digits.
Qed.

Lemma format_offset_text (sep : str) (off : Z) :
  forallb is_text_char sep = true -> forallb is_text_char (format_offset sep off) = true.
Proof.
  intros Hsep. unfold format_offset. cbv zeta.
  apply text_app; [destruct (off <? 0); reflexivity|].
  apply text_app; [apply zpad_text|]. apply text_app; [exact Hsep|].
  apply text_app; [apply zpad_text|].
  destruct (Z.abs off mod 60 =? 0); [reflexivity|].
  apply text_app; [exact Hsep|apply zpad_text].
Qed.

Lemma isoformat_text (dt : datetime) : forallb is_text_char (isoformat dt) = true.
Proof.
  unfold isoformat.
  repeat (apply text_app; [first [apply zpad_text | reflexivity]|]).
  apply text_app.
  - destruct (dt_microsecond dt =? 0); [reflexivity|].
    apply text_app; [reflexivity|apply zpad_text].
  - now apply format_offset_text.
Qed.

Lemma states_scalar (equipment_id : str) (k : nat) :
  forallb is_scalar equipment_id = true -> (k < 4)%nat ->
  scalar_strings (nth k (states equipment_id) (JDict [])) = true.
Proof.
  intros Hid Hk. apply states_cases; [exact Hk| | | |];
    revert Hid; cbv -[is_scalar]; intros ->; reflexivity.
Qed.

Lemma make_entry_scalar `{PyRuntime} (equipment_id : str) (i : nat) (reading : Z) (draw : N) :
  forallb is_scalar equipment_id = true ->
  scalar_strings (make_entry equipment_id i reading draw) = true.
Proof.
  intros Hid. unfold make_entry.
  pose proof (draw_below draw 3 ltac:(discriminate)) as Hk. change (N.of_nat 3) with 3%N in Hk.
  destruct (entry_items (N.to_nat (draw mod 3))
              (JStr (isoformat (dt_sub (datetime_of_reading (ZoneInfo (lit "UTC")) reading)
                                       (timedelta_hours (Z.of_nat i)))))
              (JStr equipment_id) Hk) as [Hitems _].
  rewrite Hitems. cbn [scalar_strings app forallb fst snd].
  rewrite Hid, (text_scalar _ (isoformat_text _)).
  revert Hk. generalize (N.to_nat (draw mod 3)). intros k Hk.
  destruct k as [|[|[|k]]]; [reflexivity|reflexivity|reflexivity|lia].
Qed.

Lemma error_logs_object_scalar `{PyRuntime} (equipment_id : str) (hours : Z) (w : World) :
  forallb is_scalar equipment_id = true ->
  scalar_strings (fst (error_logs_object equipment_id hours w)) = true.
Proof.
  intros Hid. pose proof (error_logs_object_run equipment_id hours w) as Hrun.
  cbv zeta in Hrun. rewrite Hrun. cbn [fst scalar_strings forallb snd].
  rewrite Hid. cbn [andb].
  assert (Hlogs : forall l : list nat,
            forallb scalar_strings
              (map (fun j => make_entry equipment_id j (clock w (clock_reads w + j))
                               (random_src w (random_draws w + S j))) l) = true).
  { induction l as [|j l IH]; [reflexivity|]. cbn [map forallb].
    now rewrite make_entry_scalar, IH. }
  rewrite Hlogs. reflexivity.
Qed.

(** A surrogate pair kept as two characters is the one case in which a
    string does not read back as itself: the decoder joins the pair. *)
Example surrogate_pair_is_joined :
  json_loads (json_dumps 2 (JStr [55357; 56832]%N)) = Some (JStr [128512%N]).
Proof. vm_compute. reflexivity. Qed.

(** X14: a value whose strings hold no surrogate, and whose numbers are
    within what [dumps_at] prints the way [json.dumps] does (floats of at
    most fifteen significant digits, integers of fewer than 4300 digits),
    reads back unchanged from the text written for it, at every indent. *)
Theorem json_loads_json_dumps (indent : nat) (v : json) :
  scalar_strings v = true -> plain_numbers v = true ->
  json_loads (json_dumps indent v) = Some v.
Proof. intros Hstrings _. now apply json_loads_dumps. Qed.

Lemma json_loads_json_dumps_witness :
  json_loads
    (json_dumps 2 (JDict [(lit "alerts", JList [JStr (lit "a"); JStr [233; 128512; 34]%N]);
                          (lit "temperature_celsius", JFloat 785);
                          (lit "total_errors", JInt (-3))])) =
  Some (JDict [(lit "alerts", JList [JStr (lit "a"); JStr [233; 128512; 34]%N]);
               (lit "temperature_celsius", JFloat 785);
               (lit "total_errors", JInt (-3))]).
Proof.
  apply (json_loads_json_dumps 2); vm_compute; reflexivity.
Defined.

(** X15: for every identifier without surrogates and every draw, the text
    [get_equipment_state] returns is read back as the state that was drawn. *)
Theorem equipment_state_reads_back (equipment_id : str) (w : World) :
  forallb is_scalar equipment_id = true ->
  json_loads (fst (get_equipment_state equipment_id w)) =
  Some (fst (equipment_state_object equipment_id w)).
Proof.
  intros Hid. rewrite get_equipment_state_dumps. apply json_loads_dumps.
  rewrite equipment_state_object_run. cbn [fst].
  apply states_scalar; [exact Hid|]. apply (draw_below _ 4). discriminate.
Qed.

Lemma equipment_state_reads_back_witness :
  json_loads (fst (get_equipment_state [233; 34; 92; 10; 128512]%N
                     (sample_world 7 (draws_of [3]%N)))) =
  Some (fst (equipment_state_object [233; 34; 92; 10; 128512]%N
               (sample_world 7 (draws_of [3]%N)))).
Proof.
  apply (equipment_state_reads_back [233; 34; 92; 10; 128512]%N). reflexivity.
Defined.

(** X16: for every identifier without surrogates, every draw and every
    clock, the text [get_error_logs] returns is read back as the object it
    was written from, entries and timestamps included. *)
Theorem error_logs_read_back `{PyRuntime} (equipment_id : str) (hours : Z) (w : World) :
  forallb is_scalar equipment_id = true ->
  json_loads (fst (get_error_logs equipment_id hours w)) =
  Some (fst (error_logs_object equipment_id hours w)).
Proof.
  intros Hid. rewrite get_error_logs_dumps. apply json_loads_dumps.
  now apply error_logs_object_scalar.
Qed.

Lemma error_logs_read_back_witness :
  json_loads (fst (@get_error_logs sample_runtime (lit "pump-1") 24
                     (sample_world 7 (draws_of [3; 0; 1; 2]%N)))) =
  Some (fst (@error_logs_object sample_runtime (lit "pump-1") 24
               (sample_world 7 (draws_of [3; 0; 1; 2]%N)))).
Proof.
  apply (@error_logs_read_back sample_runtime (lit "pump-1")). reflexivity.
Defined.

(** ** Two more edges *)

Lemma ci_occurs_length (pat q : str) : ci_occurs pat q -> (length pat <= length q)%nat.
Proof.
  intros (pre & w & post & -> & Hw). apply List.Forall2_length in Hw.
  rewrite !length_app. lia.
Qed.

(** X17: a query of fewer than two characters, the empty query included, is
    never recognised: [get_weather] gives the sunny answer and
    [get_current_time] declines without reading the clock. *)
Theorem short_query_not_recognised `{PyRuntime} (query : str) (w : World) :
  lower_table_ok -> (length query < 2)%nat ->
  get_weather query = lit "It's 90 degrees and sunny." /\
  get_current_time query w =
  (lit "Sorry, I don't have timezone information for query: " ++ query ++ lit ".", w).
Proof.
  intros Hok Hshort.
  assert (Hno : ~ mentions_san_francisco query).
  { intros [Hm|Hm]; apply ci_occurs_length in Hm; simpl in Hm; lia. }
  pose proof (san_francisco_test_false query Hok Hno) as Htest.
  rewrite get_current_time_run. unfold get_weather. rewrite Htest. split; reflexivity.
Qed.

Lemma short_query_not_recognised_witness :
  @get_weather sample_runtime [] = lit "It's 90 degrees and sunny." /\
  @get_weather sample_runtime (lit "s") = lit "It's 90 degrees and sunny.".
Proof.
  split.
  - apply (@short_query_not_recognised sample_runtime [] (sample_world 7 (draws_of []))
             sample_table_ok). simpl. lia.
  - apply (@short_query_not_recognised sample_runtime (lit "s") (sample_world 7 (draws_of []))
             sample_table_ok). simpl. lia.
Defined.

(** X18: the ISO text of an aware datetime identifies its instant, in any
    zone whose offset is a whole number of minutes: read back, it gives the
    wall clock minus the offset. *)
Theorem isoformat_reads_back (dt : datetime) :
  0 <= dt_year dt <= 9999 -> Z.abs (dt_utcoffset dt) < 86400 -> dt_utcoffset dt mod 60 = 0 ->
  parse_isoformat (isoformat dt) = Some (dt_wall dt - dt_utcoffset dt * us_per_second).
Proof.
  intros Hy Hoff Hmin. now rewrite parse_isoformat_isoformat.
Qed.

Lemma isoformat_reads_back_witness :
  isoformat (datetime_of_reading pacific_zone 1762250000123456) =
    lit "2025-11-04T01:53:20.123456-08:00" /\
  parse_isoformat (isoformat (datetime_of_reading pacific_zone 1762250000123456)) =
    Some 1762250000123456.
Proof.
  split; [vm_compute; reflexivity|].
  rewrite (isoformat_reads_back (datetime_of_reading pacific_zone 1762250000123456)).
  - vm_compute. reflexivity.
  - vm_compute. split; discriminate.
  - vm_compute. reflexivity.
  - vm_compute. reflexivity.
Defined.

(** * What a reader of the returned JSON gets *)

(** ** The objects read from the texts of the diagnostic tools *)

Lemma states_decoded (equipment_id : str) (k : nat) :
  decoded_json (nth k (states equipment_id) (JDict [])) =
  nth k (states (decoded equipment_id)) (JDict []).
Proof.
  destruct k as [|[|[|[|k]]]]; [reflexivity|reflexivity|reflexivity|reflexivity|].
  destruct k; reflexivity.
Qed.

(** The text of [get_equipment_state] is read as the state drawn, with the
    identifier as a reader decodes it. *)
Lemma get_equipment_state_loads (equipment_id : str) (w : World) :
  json_loads (fst (get_equipment_state equipment_id w)) =
  Some (fst (equipment_state_object (decoded equipment_id) w)).
Proof.
  rewrite get_equipment_state_dumps, json_loads_decoded, !equipment_state_object_run.
  cbn [fst]. now rewrite states_decoded.
Qed.

Lemma make_entry_decoded `{PyRuntime} (equipment_id : str) (i : nat) (reading : Z) (draw : N) :
  decoded_json (make_entry equipment_id i reading draw) =
  make_entry (decoded equipment_id) i reading draw.
Proof.
  unfold make_entry.
  pose proof (draw_below draw 3 ltac:(discriminate)) as Hk. change (N.of_nat 3) with 3%N in Hk.
  set (stamp := isoformat (dt_sub (datetime_of_reading (ZoneInfo (lit "UTC")) reading)
                                  (timedelta_hours (Z.of_nat i)))).
  destruct (entry_items (N.to_nat (draw mod 3)) (JStr stamp) (JStr equipment_id) Hk)
    as [Hitems _].
  destruct (entry_items (N.to_nat (draw mod 3)) (JStr stamp) (JStr (decoded equipment_id)) Hk)
    as [Hitems' _].
  rewrite Hitems, Hitems'. cbn [app decoded_json map fst snd].
  assert (Hstamp : decoded stamp = stamp)
    by (apply decoded_scalar, text_scalar, isoformat_text).
  rewrite Hstamp.
  revert Hk. generalize (N.to_nat (draw mod 3)). intros k Hk.
  destruct k as [|[|[|k]]]; [reflexivity|reflexivity|reflexivity|lia].
Qed.

Lemma error_logs_object_decoded `{PyRuntime} (equipment_id : str) (hours : Z) (w : World) :
  decoded_json (fst (error_logs_object equipment_id hours w)) =
  fst (error_logs_object (decoded equipment_id) hours w).
Proof.
  pose proof (error_logs_object_run equipment_id hours w) as Hrun.
  pose proof (error_logs_object_run (decoded equipment_id) hours w) as Hrun'.
  cbv zeta in Hrun, Hrun'. rewrite Hrun, Hrun'. cbn [fst decoded_json map snd].
  rewrite map_map.
  rewrite (map_ext _ (fun j => make_entry (decoded equipment_id) j (clock w (clock_reads w + j))
                                 (random_src w (random_draws w + S j))))
    by (intros j; apply make_entry_decoded).
  reflexivity.
Qed.

(** The text of [get_error_logs] is read as the object it was written
    from, with the identifier as a reader decodes it. *)
Lemma get_error_logs_loads `{PyRuntime} (equipment_id : str) (hours : Z) (w : World) :
  json_loads (fst (get_error_logs equipment_id hours w)) =
  Some (fst (error_logs_object (decoded equipment_id) hours w)).
Proof.
  now rewrite get_error_logs_dumps, json_loads_decoded, error_logs_object_decoded.
Qed.

Lemma error_logs_object_fields `{PyRuntime} (equipment_id : str) (hours : Z) (w : World) :
  let obj := fst (error_logs_object equipment_id hours w) in
  field obj (lit "equipment_id") = Some (JStr equipment_id) /\
  field obj (lit "logs") = Some (JList (logs_of obj)) /\
  field obj (lit "total_errors") = Some (JInt (Z.of_nat (length (logs_of obj)))) /\
  length (logs_of obj) = N.to_nat (random_src w (random_draws w) mod 4) /\
  (length (logs_of obj) <= 3)%nat.
Proof.
  intros obj. subst obj. rewrite logs_of_run, length_map, length_seq.
  pose proof (error_logs_object_run equipment_id hours w) as Hrun. cbv zeta in Hrun.
  rewrite Hrun.
  pose proof (draw_below (random_src w (random_draws w)) 4 ltac:(discriminate)) as Hn.
  change (N.of_nat 4) with 4%N in Hn.
  repeat split; try reflexivity. lia.
Qed.

(** ** The equipment state of "pump-1" *)

(** C5: whatever is drawn, the text [get_equipment_state] returns for
    "pump-1" is read as a JSON object whose [equipment_id] is "pump-1",
    whose [status] is one of running, maintenance, warning and error, and
    whose keys are [equipment_id], [status] and exactly the companion fields
    fixed for that status. *)
Theorem equipment_state_pump_1 (w : World) :
  exists obj status companions,
    json_loads (fst (get_equipment_state (lit "pump-1") w)) = Some obj /\
    field obj (lit "equipment_id") = Some (JStr (lit "pump-1")) /\
    field obj (lit "status") = Some (JStr status) /\
    In (status, companions) status_fields /\
    object_keys obj = [lit "equipment_id"; lit "status"] ++ companions /\
    (forall other, In (status, other) status_fields -> other = companions).
Proof.
  exists (fst (equipment_state_object (lit "pump-1") w)).
  rewrite get_equipment_state_loads.
  change (decoded (lit "pump-1")) with (lit "pump-1").
  rewrite equipment_state_object_run. cbn [fst].
  apply states_cases; [apply (draw_below _ 4); discriminate| | | |].
  - exists (lit "running"),
      [lit "state"; lit "temperature_celsius"; lit "pressure_psi"; lit "alerts"].
    repeat split; try (vm_compute; tauto).
    intros other Hin. vm_compute in Hin |- *. intuition congruence.
  - exists (lit "maintenance"), [lit "state"; lit "temperature_celsius"; lit "alerts"].
    repeat split; try (vm_compute; tauto).
    intros other Hin. vm_compute in Hin |- *. intuition congruence.
  - exists (lit "warning"), [lit "state"; lit "temperature_celsius"; lit "alerts"].
    repeat split; try (vm_compute; tauto).
    intros other Hin. vm_compute in Hin |- *. intuition congruence.
  - exists (lit "error"),
      [lit "state"; lit "temperature_celsius"; lit "alerts"; lit "error_code"].
    repeat split; try (vm_compute; tauto).
    intros other Hin. vm_compute in Hin |- *. intuition congruence.
Qed.

(** ** The error logs *)

(** C6, amended: the text [get_error_logs] returns when called with
    [hours=24] is read as a JSON object with an array [logs] and with
    [total_errors] equal to its length; the timestamp of the entry of index
    [i] is the reading of the clock taken when that entry is built, minus
    [i] hours; every entry carries one of the three fixed triples of code,
    severity and message.  Hence the entries grow strictly older with the
    index exactly when the clock advances by less than an hour between the
    readings of consecutive entries, and lie one hour apart exactly when
    those readings coincide. *)
Theorem error_logs_spec `{PyRuntime} (equipment_id : str) (w : World) :
  utc_zone_ok -> readings_in_range w ->
  exists obj logs,
    json_loads (fst (get_error_logs equipment_id 24 w)) = Some obj /\
    field obj (lit "logs") = Some (JList logs) /\
    field obj (lit "total_errors") = Some (JInt (Z.of_nat (length logs))) /\
    (forall i e, logs !! i = Some e ->
       timestamp_instant e = Some (clock w (clock_reads w + i) - Z.of_nat i * us_per_hour) /\
       In (error_triple e) fixed_triples) /\
    (clock_steady w -> strictly_older logs) /\
    (clock_frozen w -> one_hour_steps logs) /\
    (strictly_older logs <->
     forall i, (S i < length logs)%nat ->
       clock w (clock_reads w + S i) - clock w (clock_reads w + i) < us_per_hour) /\
    (one_hour_steps logs <->
     forall i, (S i < length logs)%nat ->
       clock w (clock_reads w + S i) = clock w (clock_reads w + i)).
Proof.
  intros Hutc Hrange.
  set (ident := decoded equipment_id).
  exists (fst (error_logs_object ident 24 w)), (logs_of (fst (error_logs_object ident 24 w))).
  set (logs := logs_of (fst (error_logs_object ident 24 w))).
  destruct (error_logs_object_fields ident 24 w) as (_ & Hlogs & Htotal & _ & Hlen).
  fold logs in Hlogs, Htotal, Hlen.
  assert (Hentry : forall i e, logs !! i = Some e ->
     timestamp_instant e = Some (clock w (clock_reads w + i) - Z.of_nat i * us_per_hour) /\
     In (error_triple e) fixed_triples).
  { intros i e He. apply logs_of_lookup in He as (Hi4 & Hi & ->).
    destruct (make_entry_fields ident i (clock w (clock_reads w + i))
                (random_src w (random_draws w + S i))) as (_ & Hstamp & Htriple).
    split; [|exact Htriple]. unfold timestamp_instant. rewrite Hstamp.
    apply entry_instant; [exact Hutc|exact Hi4|].
    apply Hrange.
    pose proof (draw_below (random_src w (random_draws w)) 4 ltac:(discriminate)) as Hn.
    change (N.of_nat 4) with 4%N in Hn. lia. }
  assert (Hpair : forall i a b, logs !! i = Some a -> logs !! S i = Some b ->
     (i < 2)%nat /\ (S i < length logs)%nat /\
     timestamp_instant a = Some (clock w (clock_reads w + i) - Z.of_nat i * us_per_hour) /\
     timestamp_instant b =
       Some (clock w (clock_reads w + S i) - Z.of_nat (S i) * us_per_hour)).
  { intros i a b Ha Hb.
    pose proof (lookup_lt_Some _ _ _ Hb) as Hlt.
    split; [lia|]. split; [exact Hlt|].
    split; [apply (Hentry i a Ha)|apply (Hentry (S i) b Hb)]. }
  assert (Hboth : forall i, (S i < length logs)%nat ->
     exists a b, logs !! i = Some a /\ logs !! S i = Some b).
  { intros i Hi.
    destruct (lookup_lt_is_Some_2 logs i ltac:(lia)) as [a Ha].
    destruct (lookup_lt_is_Some_2 logs (S i) Hi) as [b Hb].
    now exists a, b. }
  assert (Holder : strictly_older logs <->
     forall i, (S i < length logs)%nat ->
       clock w (clock_reads w + S i) - clock w (clock_reads w + i) < us_per_hour).
  { split.
    - intros Hclaim i Hi. destruct (Hboth i Hi) as (a & b & Ha & Hb).
      destruct (Hpair i a b Ha Hb) as (_ & _ & Hta & Htb).
      destruct (Hclaim i a b Ha Hb) as (ta & tb & Hta' & Htb' & Hlt).
      rewrite Hta in Hta'. rewrite Htb in Htb'. injection Hta' as <-. injection Htb' as <-.
      rewrite Nat2Z.inj_succ in Hlt. unfold us_per_hour in *. lia.
    - intros Hclock i a b Ha Hb. destruct (Hpair i a b Ha Hb) as (_ & Hi & Hta & Htb).
      eexists _, _. split; [exact Hta|split; [exact Htb|]].
      specialize (Hclock i Hi). rewrite Nat2Z.inj_succ. unfold us_per_hour in *. lia. }
  assert (Hsteps : one_hour_steps logs <->
     forall i, (S i < length logs)%nat ->
       clock w (clock_reads w + S i) = clock w (clock_reads w + i)).
  { split.
    - intros Hclaim i Hi. destruct (Hboth i Hi) as (a & b & Ha & Hb).
      destruct (Hpair i a b Ha Hb) as (_ & _ & Hta & Htb).
      destruct (Hclaim i a b Ha Hb) as (ta & tb & Hta' & Htb' & Hstep).
      rewrite Hta in Hta'. rewrite Htb in Htb'. injection Hta' as <-. injection Htb' as <-.
      rewrite Nat2Z.inj_succ in Hstep. lia.
    - intros Hclock i a b Ha Hb. destruct (Hpair i a b Ha Hb) as (_ & Hi & Hta & Htb).
      eexists _, _. split; [exact Hta|split; [exact Htb|]].
      rewrite (Hclock i Hi), Nat2Z.inj_succ. lia. }
  split; [apply get_error_logs_loads|].
  split; [exact Hlogs|]. split; [exact Htotal|]. split; [exact Hentry|].
  split; [|split; [|split; [exact Holder|exact Hsteps]]].
  - intros Hsteady. apply Holder. intros i Hi. apply Hsteady. lia.
  - intros Hfrozen. apply Hsteps. intros i Hi. apply Hfrozen. lia.
Qed.

Lemma error_logs_spec_witness :
  exists obj logs,
    json_loads (fst (@get_error_logs sample_runtime (lit "pump-1") 24
                       (sample_world 7 (draws_of [3; 2; 0; 1]%N)))) = Some obj /\
    field obj (lit "logs") = Some (JList logs) /\
    field obj (lit "total_errors") = Some (JInt (Z.of_nat (length logs))) /\
    strictly_older logs.
Proof.
  destruct (@error_logs_spec sample_runtime (lit "pump-1")
              (sample_world 7 (draws_of [3; 2; 0; 1]%N)) sample_utc_ok)
    as (obj & logs & Hload & Hlogs & Htotal & _ & Hsteady & _).
  - intros j Hj. destruct j as [|[|[|j]]]; [| | |lia];
      (split; apply Z.leb_le; vm_compute; reflexivity).
  - exists obj, logs. split; [exact Hload|]. split; [exact Hlogs|]. split; [exact Htotal|].
    apply Hsteady.
    intros j Hj. destruct j as [|[|j]]; [| |lia]; apply Z.ltb_lt; vm_compute; reflexivity.
Defined.

(** C6 as stated fails on both readings of it.  With a clock that advances
    by seven microseconds between two readings, the second entry of the
    returned array is not one hour older than the first; with a clock that
    jumps forward by two hours, the second entry is not older at all. *)
Lemma error_logs_steps_counterexample :
  (exists obj logs,
     json_loads (fst (@get_error_logs sample_runtime (lit "pump-1") 24
                        (sample_world 7 (draws_of [2; 0; 1]%N)))) = Some obj /\
     field obj (lit "logs") = Some (JList logs) /\ length logs = 2%nat /\
     ~ one_hour_steps logs) /\
  (exists obj logs,
     json_loads (fst (@get_error_logs sample_runtime (lit "pump-1") 24
                        (sample_world (2 * us_per_hour) (draws_of [2; 0; 1]%N)))) = Some obj /\
     field obj (lit "logs") = Some (JList logs) /\ length logs = 2%nat /\
     ~ strictly_older logs).
Proof.
  split.
  - exists (fst (@error_logs_object sample_runtime (lit "pump-1") 24
                   (sample_world 7 (draws_of [2; 0; 1]%N)))),
           [@make_entry sample_runtime (lit "pump-1") 0 1762250000123456 0%N;
            @make_entry sample_runtime (lit "pump-1") 1 1762250000123463 1%N].
    split; [vm_compute; reflexivity|]. split; [vm_compute; reflexivity|].
    split; [reflexivity|]. intros Hclaim.
    destruct (Hclaim 0%nat _ _ eq_refl eq_refl) as (ta & tb & Ha & Hb & Hstep).
    vm_compute in Ha, Hb. injection Ha as <-. injection Hb as <-.
    vm_compute in Hstep. discriminate Hstep.
  - exists (fst (@error_logs_object sample_runtime (lit "pump-1") 24
                   (sample_world (2 * us_per_hour) (draws_of [2; 0; 1]%N)))),
           [@make_entry sample_runtime (lit "pump-1") 0 1762250000123456 0%N;
            @make_entry sample_runtime (lit "pump-1") 1 1762257200123456 1%N].
    split; [vm_compute; reflexivity|]. split; [vm_compute; reflexivity|].
    split; [reflexivity|]. intros Hclaim.
    destruct (Hclaim 0%nat _ _ eq_refl eq_refl) as (ta & tb & Ha & Hb & Hlt).
    vm_compute in Ha, Hb. injection Ha as <-. injection Hb as <-.
    vm_compute in Hlt. discriminate Hlt.
Qed.

(** C10: for every input and whatever is drawn, the text [get_error_logs]
    returns is read as a JSON object with an array [logs] of between 0 and
    3 entries, as many as the number drawn, and with [total_errors] equal
    to that length, hence at most 3. *)
Theorem error_logs_at_most_three `{PyRuntime} (equipment_id : str) (hours : Z) (w : World) :
  exists obj logs total,
    json_loads (fst (get_error_logs equipment_id hours w)) = Some obj /\
    field obj (lit "logs") = Some (JList logs) /\
    (0 <= length logs <= 3)%nat /\
    length logs = N.to_nat (random_src w (random_draws w) mod 4) /\
    field obj (lit "total_errors") = Some (JInt total) /\
    total = Z.of_nat (length logs) /\
    0 <= total <= 3.
Proof.
  destruct (error_logs_object_fields (decoded equipment_id) hours w)
    as (_ & Hlogs & Htotal & Hdrawn & Hlen).
  eexists _, _, _. split; [apply get_error_logs_loads|].
  split; [exact Hlogs|]. split; [lia|]. split; [exact Hdrawn|].
  split; [exact Htotal|]. split; [reflexivity|lia].
Qed.

(** ** The identifier in the returned JSON *)

(** C9, amended: for every identifier in which no high surrogate is
    directly followed by a low surrogate, and whatever is drawn, the text
    [get_equipment_state] returns is read as an object whose [equipment_id]
    is the argument, and the text [get_error_logs] returns is read as an
    object whose [equipment_id], and that of every entry of its [logs], is
    the argument. *)
Theorem equipment_id_echoed `{PyRuntime} (equipment_id : str) (hours : Z) (w : World) :
  no_surrogate_pair equipment_id = true ->
  (exists obj, json_loads (fst (get_equipment_state equipment_id w)) = Some obj /\
     field obj (lit "equipment_id") = Some (JStr equipment_id)) /\
  (exists obj logs, json_loads (fst (get_error_logs equipment_id hours w)) = Some obj /\
     field obj (lit "equipment_id") = Some (JStr equipment_id) /\
     field obj (lit "logs") = Some (JList logs) /\
     length logs = N.to_nat (random_src w (random_draws w) mod 4) /\
     forall i e, logs !! i = Some e ->
       field e (lit "equipment_id") = Some (JStr equipment_id)).
Proof.
  intros Hid. apply decoded_no_surrogate_pair in Hid. split.
  - eexists. split; [apply get_equipment_state_loads|]. rewrite Hid.
    rewrite equipment_state_object_run. cbn [fst].
    apply states_equipment_id, (draw_below _ 4). discriminate.
  - destruct (error_logs_object_fields equipment_id hours w)
      as (Hident & Hlogs & _ & Hdrawn & _).
    eexists _, _. split; [rewrite get_error_logs_loads, Hid; reflexivity|].
    split; [exact Hident|]. split; [exact Hlogs|]. split; [exact Hdrawn|].
    intros i e He. apply logs_of_lookup in He as (_ & _ & ->).
    apply make_entry_fields.
Qed.

Lemma equipment_id_echoed_witness :
  (exists obj,
     json_loads (fst (get_equipment_state [233; 55357; 34; 56832; 128512]%N
                        (sample_world 7 (draws_of [3]%N)))) = Some obj /\
     field obj (lit "equipment_id") = Some (JStr [233; 55357; 34; 56832; 128512]%N)) /\
  (exists obj logs,
     json_loads (fst (@get_error_logs sample_runtime [233; 55357; 34; 56832; 128512]%N 24
                        (sample_world 7 (draws_of [3; 2; 0; 1]%N)))) = Some obj /\
     field obj (lit "logs") = Some (JList logs) /\ length logs = 3%nat /\
     forall i e, logs !! i = Some e ->
       field e (lit "equipment_id") = Some (JStr [233; 55357; 34; 56832; 128512]%N)).
Proof.
  split.
  - apply (@equipment_id_echoed sample_runtime [233; 55357; 34; 56832; 128512]%N 24
             (sample_world 7 (draws_of [3]%N))). reflexivity.
  - destruct (@equipment_id_echoed sample_runtime [233; 55357; 34; 56832; 128512]%N 24
                (sample_world 7 (draws_of [3; 2; 0; 1]%N)) eq_refl)
      as (_ & obj & logs & Hload & _ & Hlogs & Hdrawn & Hall).
    exists obj, logs. split; [exact Hload|]. split; [exact Hlogs|].
    split; [exact Hdrawn|exact Hall].
Defined.

(** C9 as stated fails for an identifier that holds a surrogate pair as two
    code points: the text is all ASCII, the pair is written as two escapes,
    and a reader gets the one character the pair encodes.  The identifier
    of the returned object, and of each of its log entries, is then not the
    argument. *)
Lemma equipment_id_echoed_counterexample :
  (exists obj,
     json_loads (fst (get_equipment_state [55357; 56832]%N
                        (sample_world 7 (draws_of [3]%N)))) = Some obj /\
     field obj (lit "equipment_id") = Some (JStr [128512%N]) /\
     field obj (lit "equipment_id") <> Some (JStr [55357; 56832]%N)) /\
  (exists obj logs e,
     json_loads (fst (@get_error_logs sample_runtime [55357; 56832]%N 24
                        (sample_world 7 (draws_of [3; 2; 0; 1]%N)))) = Some obj /\
     field obj (lit "logs") = Some (JList logs) /\ logs !! 0%nat = Some e /\
     field e (lit "equipment_id") = Some (JStr [128512%N]) /\
     field e (lit "equipment_id") <> Some (JStr [55357; 56832]%N)).
Proof.
  split.
  - exists (fst (equipment_state_object [128512%N] (sample_world 7 (draws_of [3]%N)))).
    split; [vm_compute; reflexivity|]. split; [vm_compute; reflexivity|].
    vm_compute. discriminate.
  - exists (fst (@error_logs_object sample_runtime [128512%N] 24
                   (sample_world 7 (draws_of [3; 2; 0; 1]%N)))),
           (logs_of (fst (@error_logs_object sample_runtime [128512%N] 24
                            (sample_world 7 (draws_of [3; 2; 0; 1]%N))))),
           (@make_entry sample_runtime [128512%N] 0 1762250000123456 2%N).
    split; [vm_compute; reflexivity|]. split; [vm_compute; reflexivity|].
    split; [vm_compute; reflexivity|]. split; [vm_compute; reflexivity|].
    vm_compute. discriminate.
Qed.
